(** * Attendance-integrity decision pipeline

    A shallow embedding of the face-recognition service
    ([faceRecognitionService.js]) and of the two attendance handlers of
    [backend/src/routes/attendanceRoutes.js], with the properties stated of
    them.

    Numbers.  JavaScript numbers are IEEE-754 binary64 values and are
    modelled by Rocq's primitive floats, which have the same arithmetic,
    comparisons and NaN behaviour.  TensorFlow computes on binary32 tensors
    with the same IEEE rules; the tensor operations are modelled in binary64
    as well, and the worked scenarios only use values that are exact in both
    formats.

    Effects.  A [throw] is an explicit completion; the store is a record of
    tables passed through the handlers; what the code reaches outside itself
    (models, image library, [Math], [crypto], [JSON], the clock) is gathered
    in a runtime record the definitions take as an argument. *)

From Stdlib Require Import ZArith List String Ascii Bool Lia Floats DecimalString.
From Stdlib Require Uint63.
Import ListNotations.

Set Warnings "-inexact-float".

(* ------------------------------------------------------------------ *)
(** ** JavaScript numbers and completions *)

Module Js.

(** What a [throw] carries; the handlers never inspect it. *)
Inductive error : Type :=
| TfShapeError        (* tf: operands could not be broadcast together *)
| CipherError         (* crypto: no password, bad hex or bad final block *)
| SyntaxError         (* JSON.parse *)
| ImageError          (* sharp or the image decoder *)
| ModelError.         (* a model call rejected *)

(** Outcome of evaluating a statement block: a value or a thrown error. *)
Inductive completion (A : Type) : Type :=
| Return (a : A)
| Throw (e : error).
Arguments Return {A} a.
Arguments Throw {A} e.

Definition bind {A B} (c : completion A) (k : A -> completion B) : completion B :=
  match c with
  | Return a => k a
  | Throw e => Throw e
  end.

(** [x > y] and [x < y] on numbers: false as soon as one side is NaN. *)
Definition gt (x y : float) : bool := PrimFloat.ltb y x.
Definition lt (x y : float) : bool := PrimFloat.ltb x y.

(** The number an integer column holds (exact below [2^53]). *)
Definition ofZ (z : Z) : float :=
  match z with
  | Z0 => 0%float
  | Zpos _ => PrimFloat.of_uint63 (Uint63.of_Z z)
  | Zneg p => (- PrimFloat.of_uint63 (Uint63.of_Z (Zpos p)))%float
  end.

End Js.

Import Js.

Declare Scope js_scope.
Notation "x <- c ;; k" := (Js.bind c (fun x => k))
  (at level 61, c at next level, right associativity) : js_scope.
Open Scope js_scope.

(* ------------------------------------------------------------------ *)
(** ** The tensor operations the service calls *)

Module Tf.

Local Open Scope float_scope.

(** A feature vector: the flat data of a rank-1 tensor (or of the [1 x n]
    tensor the extractor returns). *)
Definition tensor := list float.

Fixpoint zipWith (f : float -> float -> float) (a b : tensor) : tensor :=
  match a, b with
  | x :: a', y :: b' => f x y :: zipWith f a' b'
  | _, _ => []
  end.

(** [tf.mul] with broadcasting of the last axis: equal lengths multiply
    pointwise, a length-1 operand is stretched, anything else throws. *)
Definition mul (a b : tensor) : completion tensor :=
  if Nat.eqb (List.length a) (List.length b) then Return (zipWith PrimFloat.mul a b)
  else match b with
       | [y] => Return (map (fun x => x * y) a)
       | _ => match a with
              | [x] => Return (map (fun y => x * y) b)
              | _ => Throw TfShapeError
              end
       end.

(** [tf.square] *)
Definition square (a : tensor) : tensor := map (fun x => x * x) a.

(** [tf.sum] over all elements. *)
Definition sum (a : tensor) : float := fold_left PrimFloat.add a 0.

(** [tf.sqrt] of a scalar. *)
Definition sqrt (x : float) : float := PrimFloat.sqrt x.

End Tf.

(* ------------------------------------------------------------------ *)
(** ** The runtime the service and the routes run against *)

Module Runtime.

Import Tf.

(** An image buffer, and an image tensor, as opaque bytes. *)
Definition Image := string.

Record Box : Type := mkBox { x : Z; y : Z; width : Z; height : Z }.

(** A detection of the face detection model. *)
Module Face.
Record t : Type := mk { box : Box; confidence : float }.
End Face.

(** What the liveness model answers. *)
Module LivenessResult.
Record t : Type := mk { isLive : bool; confidence : float; method : string }.
End LivenessResult.

(** Everything the code reaches outside itself.  Each field is the
    behaviour of one library or model call. *)
Record t : Type := mk {
  (** [process.env.ENCRYPTION_KEY], read by the service's constructor. *)
  encryptionKey : option string;
  (** [crypto.createCipher('aes-256-cbc', key)], then
      [update(text, 'utf8', 'hex') + final('hex')]. *)
  aes256cbc_cipher : string -> string -> string;
  (** [crypto.createDecipher('aes-256-cbc', key)], then
      [update(hex, 'hex', 'utf8') + final('utf8')]; [final] throws on a bad
      last block. *)
  aes256cbc_decipher : string -> string -> completion string;
  (** [JSON.stringify] of a feature vector, and [JSON.parse] of a text read
      back as one. *)
  JSON_stringify : tensor -> string;
  JSON_parse : string -> completion tensor;
  (** [JSON.parse] of any other text, the parsed value kept as canonical
      text. *)
  JSON_parse_value : string -> completion string;
  (** [sharp(imageBuffer).extract(box).resize(size, size).toBuffer()] *)
  sharp_extract : Image -> Box -> Z -> completion Image;
  (** [preprocessImage]: [sharp(...).resize(224, 224)...] and
      [tf.node.decodeImage], normalised. *)
  preprocessImage : Image -> completion Image;
  (** [this.faceDetectionModel.detectFaces(imageBuffer)] *)
  faceDetectionModel_detectFaces : Image -> completion (list Face.t);
  (** [this.model.extractFeatures(processedFace)] *)
  model_extractFeatures : Image -> completion tensor;
  (** [this.livenessModel.detectLiveness(faceImage, eyeBlinkData)] *)
  livenessModel_detectLiveness : Image -> completion LivenessResult.t;
  (** the successive values of [Math.random()] within one call of
      [performAntiSpoofingChecks] *)
  Math_random : nat -> float;
  Math_sin : float -> float;
  Math_cos : float -> float;
  Math_atan2 : float -> float -> float;
  Math_round : float -> float;
  (** a number inside a template literal *)
  Number_toString : float -> string;
  (** express-validator's [isFloat()] on a body field, and [parseFloat]. *)
  isFloat : string -> bool;
  parseFloat : string -> float;
  (** offset of local time from UTC, in milliseconds (taken as fixed) *)
  timezoneOffset : Z
}.

(** What Node documents of the cipher pair the vault relies on: a decipher
    built from the same algorithm and password undoes the cipher. *)
Record NodeContract (rt : t) : Prop := mkContract {
  decipher_cipher :
    forall key text,
      aes256cbc_decipher rt key (aes256cbc_cipher rt key text) = Return text
}.

End Runtime.

(* ------------------------------------------------------------------ *)
(** ** faceRecognitionService.js

    The methods of [class FaceRecognitionService], on a service whose models
    are loaded.  Every method wraps its body in [try { ... } catch (error)
    { logger.error(...); throw error; }], so a throw passes through
    unchanged. *)

Module FaceRecognitionService.

Import Tf.
Import Runtime.

Local Open Scope float_scope.

(** [async detectFaces(imageBuffer)]: detections at confidence 0.7 or below
    are dropped. *)
Definition detectFaces (rt : Runtime.t) (imageBuffer : Image)
  : completion (list Face.t) :=
  processedImage <- preprocessImage rt imageBuffer ;;
  faces <- faceDetectionModel_detectFaces rt imageBuffer ;;
  let validFaces := filter (fun face => Js.gt (Face.confidence face) 0.7) faces in
  Return validFaces.

(** [async extractFaceFeatures(imageBuffer, faceBox)] *)
Definition extractFaceFeatures (rt : Runtime.t) (imageBuffer : Image) (faceBox : Box)
  : completion tensor :=
  faceImage <- sharp_extract rt imageBuffer faceBox 112 ;;
  processedFace <- preprocessImage rt faceImage ;;
  features <- model_extractFeatures rt processedFace ;;
  Return features.

(** [async detectLiveness(imageBuffer, faceBox, eyeBlinkData = null)] *)
Definition detectLiveness (rt : Runtime.t) (imageBuffer : Image) (faceBox : Box)
  : completion LivenessResult.t :=
  faceImage <- sharp_extract rt imageBuffer faceBox 224 ;;
  livenessResult <- livenessModel_detectLiveness rt faceImage ;;
  Return livenessResult.

(** [tf.sqrt(tf.sum(tf.square(features)))] *)
Definition norm (features : tensor) : float := Tf.sqrt (Tf.sum (Tf.square features)).

(** The object [compareFaces] returns. *)
Record Comparison : Type := mkComparison {
  isMatch : bool;
  similarity : float;
  threshold : float
}.

Definition defaultThreshold : float := 0.6.

(** [async compareFaces(features1, features2, threshold = 0.6)] *)
Definition compareFaces (features1 features2 : tensor) (threshold : option float)
  : completion Comparison :=
  let threshold := match threshold with Some t => t | None => defaultThreshold end in
  prod <- Tf.mul features1 features2 ;;
  let dotProduct := Tf.sum prod in
  let norm1 := norm features1 in
  let norm2 := norm features2 in
  let similarity := dotProduct / (norm1 * norm2) in
  let isMatch := Js.gt similarity threshold in
  Return {| isMatch := isMatch; similarity := similarity; threshold := threshold |}.

(** [encryptFaceTemplate(template)]: [createCipher] rejects an undefined
    password. *)
Definition encryptFaceTemplate (rt : Runtime.t) (template : tensor) : completion string :=
  match encryptionKey rt with
  | None => Throw CipherError
  | Some key => Return (aes256cbc_cipher rt key (JSON_stringify rt template))
  end.

(** [decryptFaceTemplate(encryptedTemplate)] *)
Definition decryptFaceTemplate (rt : Runtime.t) (encryptedTemplate : string)
  : completion tensor :=
  match encryptionKey rt with
  | None => Throw CipherError
  | Some key =>
      decrypted <- aes256cbc_decipher rt key encryptedTemplate ;;
      JSON_parse rt decrypted
  end.

(** The [checks.textureAnalysis] and [checks.depthAnalysis] objects. *)
Record TextureAnalysis : Type := mkTexture {
  textureScore : float;
  isRealTexture : bool
}.

Record DepthAnalysis : Type := mkDepth {
  depthScore : float;
  hasDepth : bool
}.

(** The object [performAntiSpoofingChecks] returns:
    [{ ...checks, isLive, passed: isLive }]. *)
Record AntiSpoofingResult : Type := mkAntiSpoofing {
  livenessDetection : LivenessResult.t;
  textureAnalysis : TextureAnalysis;
  depthAnalysis : DepthAnalysis;
  overallScore : float;
  isLive : bool;
  passed : bool
}.

(** The end of [performAntiSpoofingChecks], once the three checks are filled
    in: the weighted score and the conjunction deciding [isLive]. *)
Definition aggregate (l : LivenessResult.t) (t : TextureAnalysis) (d : DepthAnalysis)
  : AntiSpoofingResult :=
  let overallScore :=
    LivenessResult.confidence l * 0.4 + textureScore t * 0.3 + depthScore d * 0.3 in
  let isLive :=
    Js.gt overallScore 0.75 && LivenessResult.isLive l && isRealTexture t
    && hasDepth d in
  {| livenessDetection := l; textureAnalysis := t; depthAnalysis := d;
     overallScore := overallScore; isLive := isLive; passed := isLive |}.

(** The two mock analyses, from the four [Math.random()] draws the method
    makes, in order. *)
Definition mockTexture (random : nat -> float) : TextureAnalysis :=
  {| textureScore := random 0%nat * 0.3 + 0.7;
     isRealTexture := Js.gt (random 1%nat) 0.1 |}.

Definition mockDepth (random : nat -> float) : DepthAnalysis :=
  {| depthScore := random 2%nat * 0.2 + 0.8;
     hasDepth := Js.gt (random 3%nat) 0.05 |}.

(** [async performAntiSpoofingChecks(imageBuffer, faceBox)] *)
Definition performAntiSpoofingChecks (rt : Runtime.t) (imageBuffer : Image) (faceBox : Box)
  : completion AntiSpoofingResult :=
  livenessDetection <- detectLiveness rt imageBuffer faceBox ;;
  let textureAnalysis := mockTexture (Math_random rt) in
  let depthAnalysis := mockDepth (Math_random rt) in
  Return (aggregate livenessDetection textureAnalysis depthAnalysis).

End FaceRecognitionService.

(* ------------------------------------------------------------------ *)
(** ** The relational store (config/database.js and its migrations)

    A table is the list of its rows in insertion order; [.first()] takes the
    first row that matches.  Queries are taken to succeed, and a numeric
    column to hold the number written to it. *)

Module Db.

Import Tf.
Import FaceRecognitionService.

Definition UserId := string.

Inductive RecordType : Type := check_in | check_out.

Inductive Status : Type := pending | approved | rejected | flagged.

Definition RecordType_eqb (a b : RecordType) : bool :=
  match a, b with
  | check_in, check_in | check_out, check_out => true
  | _, _ => false
  end.

Definition Status_eqb (a b : Status) : bool :=
  match a, b with
  | pending, pending | approved, approved
  | rejected, rejected | flagged, flagged => true
  | _, _ => false
  end.

(** A row of [attendance_records]; [timestamp] in milliseconds since the
    epoch. *)
Module AttendanceRecord.
Record t : Type := mk {
  id : nat;
  user_id : UserId;
  type : RecordType;
  timestamp : Z;
  latitude : float;
  longitude : float;
  location_address : option string;
  accuracy : option float;
  confidence_score : float;
  liveness_passed : bool;
  liveness_data : AntiSpoofingResult;
  status : Status;
  rejection_reason : option string;
  device_info : option string;
  is_offline : bool
}.
End AttendanceRecord.

(** A row of [face_templates]. *)
Module FaceTemplate.
Record t : Type := mk {
  id : nat;
  user_id : UserId;
  face_encoding : string;
  face_hash : string;
  quality_score : Z;
  is_primary : bool
}.
End FaceTemplate.

(** A row of [work_schedules], with the columns the check-in reads.  The two
    site coordinates are nullable [decimal] columns, which the driver hands
    back as text (the handler applies [parseFloat] to them); the radius is a
    nullable [integer] column defaulting to 100; the two bounds of the
    effective range are nullable dates, each held as the instant the store
    compares with [now]. *)
Module WorkSchedule.
Record t : Type := mk {
  user_id : UserId;
  is_active : bool;
  effective_from : option Z;
  effective_to : option Z;
  latitude : option string;
  longitude : option string;
  location_radius : option Z
}.
End WorkSchedule.

(** A row of [audit_logs], with the columns the two handlers fill. *)
Module AuditLog.
Record t : Type := mk {
  user_id : UserId;
  action : string;
  resource_type : string;
  resource_id : nat;
  severity : string
}.
End AuditLog.

Record t : Type := mk {
  attendance_records : list AttendanceRecord.t;
  face_templates : list FaceTemplate.t;
  work_schedules : list WorkSchedule.t;
  audit_logs : list AuditLog.t
}.

(** [db('attendance_records').insert(row).returning('*')]: the store
    assigns the id. *)
Definition insert_attendance (row : nat -> AttendanceRecord.t) (db : t)
  : AttendanceRecord.t * t :=
  let r := row (List.length (attendance_records db)) in
  (r, {| attendance_records := attendance_records db ++ [r];
         face_templates := face_templates db;
         work_schedules := work_schedules db;
         audit_logs := audit_logs db |}).

Definition insert_audit (row : AuditLog.t) (db : t) : t :=
  {| attendance_records := attendance_records db;
     face_templates := face_templates db;
     work_schedules := work_schedules db;
     audit_logs := audit_logs db ++ [row] |}.

End Db.

(* ------------------------------------------------------------------ *)
(** ** backend/src/routes/attendanceRoutes.js *)

Module AttendanceRoutes.

Import Tf.
Import FaceRecognitionService.
Import Runtime.
Import Db.

Local Open Scope string_scope.

(** *** Requests and responses *)

(** An authenticated multipart request.  Body fields arrive as text.
    [timestamp] is the capture time an offline client keeps with a queued
    record (mobile/src/screens/AttendanceScreen.js); neither handler reads
    it. *)
Module Request.
Record t : Type := mk {
  user_id : UserId;                 (* req.user.id *)
  file : option Image;              (* req.file *)
  latitude : option string;
  longitude : option string;
  accuracy : option string;
  locationAddress : option string;
  deviceInfo : option string;
  timestamp : option Z
}.
End Request.

Inductive Details : Type :=
| NoDetails
| ValidationErrors
| LivenessDetails (livenessScore : float) (checks : AntiSpoofingResult)
| RecognitionDetails (similarity : float) (threshold : float)
| RecordData (attendanceRecord : AttendanceRecord.t)
             (locationValid : option bool) (locationMessage : option string).

Record Response : Type := mkResponse {
  http_status : Z;
  success : bool;
  message : string;
  details : Details
}.

Definition failure (code : Z) (msg : string) (d : Details) : Response :=
  {| http_status := code; success := false; message := msg; details := d |}.

(** *** Control flow of a handler: go on, answer early, or throw *)

Inductive step (A : Type) : Type :=
| Next (a : A)
| Respond (r : Response)
| Raise (e : Js.error).
Arguments Next {A} a.
Arguments Respond {A} r.
Arguments Raise {A} e.

Definition andThen {A B} (s : step A) (k : A -> step B) : step B :=
  match s with
  | Next a => k a
  | Respond r => Respond r
  | Raise e => Raise e
  end.

(** [await] of a call that may reject. *)
Definition await {A} (c : completion A) : step A :=
  match c with
  | Return a => Next a
  | Throw e => Raise e
  end.

(** [if (cond) return res.status(..).json(..)] *)
Definition rejectIf (cond : bool) (r : Response) : step unit :=
  if cond then Respond r else Next tt.

Notation "x <~ s ;; k" := (andThen s (fun x => k))
  (at level 61, s at next level, right associativity).

(** The [try { ... } catch (error) { res.status(500).json(..) }] around a
    handler body: an early answer or a throw leaves the store as it was. *)
Definition handler (failed : string) (db : Db.t) (body : step (Response * Db.t))
  : Response * Db.t :=
  match body with
  | Next out => out
  | Respond r => (r, db)
  | Raise _ => (failure 500 failed NoDetails, db)
  end.

(** *** The calendar day of the server *)

Definition msPerDay : Z := 86400000.

Definition dayOf (rt : Runtime.t) (instant : Z) : Z :=
  (instant + timezoneOffset rt) / msPerDay.

(** [d.setHours(0, 0, 0, 0)] and [d.setHours(23, 59, 59, 999)] on
    [d = new Date()] read at [now]. *)
Definition todayStart (rt : Runtime.t) (now : Z) : Z :=
  dayOf rt now * msPerDay - timezoneOffset rt.

Definition todayEnd (rt : Runtime.t) (now : Z) : Z :=
  todayStart rt now + (msPerDay - 1).

(** [db('attendance_records').where('user_id', userId).where('type', ty)
      .whereBetween('timestamp', [todayStart, todayEnd])
      .where('status', 'approved').first()] *)
Definition approvedToday (rt : Runtime.t) (now : Z) (userId : UserId) (ty : RecordType)
    (r : AttendanceRecord.t) : bool :=
  String.eqb (AttendanceRecord.user_id r) userId
  && RecordType_eqb (AttendanceRecord.type r) ty
  && ((todayStart rt now <=? AttendanceRecord.timestamp r)%Z
      && (AttendanceRecord.timestamp r <=? todayEnd rt now)%Z)
  && Status_eqb (AttendanceRecord.status r) approved.

Definition firstApprovedToday (rt : Runtime.t) (now : Z) (userId : UserId)
    (ty : RecordType) (db : Db.t) : option AttendanceRecord.t :=
  find (approvedToday rt now userId ty) (attendance_records db).

(** *** Geofence *)

Definition Math_PI : float := 3.141592653589793%float.

(** [function calculateDistance(lat1, lon1, lat2, lon2)] *)
Definition calculateDistance (rt : Runtime.t) (lat1 lon1 lat2 lon2 : float) : float :=
  (let R := 6371e3 in
   let phi1 := lat1 * Math_PI / 180 in
   let phi2 := lat2 * Math_PI / 180 in
   let dphi := (lat2 - lat1) * Math_PI / 180 in
   let dlambda := (lon2 - lon1) * Math_PI / 180 in
   let a := Math_sin rt (dphi / 2) * Math_sin rt (dphi / 2) +
            Math_cos rt phi1 * Math_cos rt phi2 *
            Math_sin rt (dlambda / 2) * Math_sin rt (dlambda / 2) in
   let c := 2 * Math_atan2 rt (sqrt a) (sqrt (1 - a)) in
   R * c)%float.

(** *** Steps shared by the two handlers *)

Definition isFloatField (rt : Runtime.t) (f : option string) : bool :=
  match f with
  | Some s => isFloat rt s
  | None => false
  end.

(** [parseFloat(field)]; [parseFloat(undefined)] is [NaN]. *)
Definition parseFloatField (rt : Runtime.t) (f : option string) : float :=
  match f with
  | Some s => parseFloat rt s
  | None => nan
  end.

(** ToBoolean on a text or NULL: only NULL, [undefined] and the empty text
    are falsy. *)
Definition truthyText (f : option string) : bool :=
  match f with
  | Some s => negb (String.eqb s "")
  | None => false
  end.

(** [validationResult(req)] then [if (!req.file)]. *)
Definition requireImage (valid : bool) (req : Request.t) : step Image :=
  _ <~ rejectIf (negb valid) (failure 400 "Validation failed" ValidationErrors) ;;
  match Request.file req with
  | None => Respond (failure 400 "Face image is required" NoDetails)
  | Some imageBuffer => Next imageBuffer
  end.

(** [detectFaces], then [faces[0]]. *)
Definition selectFace (rt : Runtime.t) (imageBuffer : Image) : step Face.t :=
  faces <~ await (detectFaces rt imageBuffer) ;;
  match faces with
  | [] => Respond (failure 400 "No face detected in the image" NoDetails)
  | face :: _ => Next face
  end.

(** [performAntiSpoofingChecks], then [if (!antiSpoofingResult.passed)];
    only the check-in reports the details. *)
Definition livenessStep (rt : Runtime.t) (imageBuffer : Image) (face : Face.t)
    (withDetails : bool) : step AntiSpoofingResult :=
  antiSpoofingResult <~
    await (performAntiSpoofingChecks rt imageBuffer (Face.box face)) ;;
  _ <~ rejectIf (negb (passed antiSpoofingResult))
         (failure 400 "Liveness detection failed. Please ensure you are a live person."
            (if withDetails
             then LivenessDetails (overallScore antiSpoofingResult) antiSpoofingResult
             else NoDetails)) ;;
  Next antiSpoofingResult.

(** [db('face_templates').where('user_id', userId).where('is_primary', true)] *)
Definition loadTemplates (userId : UserId) (db : Db.t) : list FaceTemplate.t :=
  filter (fun template =>
            String.eqb (FaceTemplate.user_id template) userId
            && Bool.eqb (FaceTemplate.is_primary template) true)
         (face_templates db).

(** The loop [for (const template of faceTemplates)], from the values
    [bestMatch] and [bestSimilarity] hold on entry. *)
Fixpoint bestOf (rt : Runtime.t) (faceFeatures : tensor)
    (faceTemplates : list FaceTemplate.t)
    (bestMatch : option Comparison) (bestSimilarity : float)
  : completion (option Comparison * float) :=
  match faceTemplates with
  | [] => Return (bestMatch, bestSimilarity)
  | template :: rest =>
      decryptedTemplate <-
        decryptFaceTemplate rt (FaceTemplate.face_encoding template) ;;
      comparison <- compareFaces faceFeatures decryptedTemplate None ;;
      if Js.gt (similarity comparison) bestSimilarity
      then bestOf rt faceFeatures rest (Some comparison) (similarity comparison)
      else bestOf rt faceFeatures rest bestMatch bestSimilarity
  end.

Definition confidenceThreshold : float := 0.8%float.

(** [if (!bestMatch || bestSimilarity < confidenceThreshold)] *)
Definition notRecognized (bestMatch : option Comparison) (bestSimilarity : float) : bool :=
  match bestMatch with
  | None => true
  | Some _ => Js.lt bestSimilarity confidenceThreshold
  end.

(** [deviceInfo ? JSON.parse(deviceInfo) : null] *)
Definition parseDeviceInfo (rt : Runtime.t) (deviceInfo : option string)
  : completion (option string) :=
  if truthyText deviceInfo
  then match deviceInfo with
       | Some s => v <- JSON_parse_value rt s ;; Return (Some v)
       | None => Return None
       end
  else Return None.

(** [accuracy ? parseFloat(accuracy) : null] *)
Definition parseAccuracy (rt : Runtime.t) (accuracy : option string) : option float :=
  if truthyText accuracy then Some (parseFloatField rt accuracy) else None.

(** *** POST /api/attendance/check-in

    [now] is what [new Date()] reads in the synchronous prologue of the
    handler ([timestamp], [todayStart], [todayEnd]); [scheduleNow] is what
    it reads later, inside the work-schedule query. *)

Definition checkInValid (rt : Runtime.t) (req : Request.t) : bool :=
  isFloatField rt (Request.latitude req)
  && isFloatField rt (Request.longitude req)
  && match Request.accuracy req with
     | Some s => isFloat rt s
     | None => true
     end.

(** The match step of the check-in: load, [if (faceTemplates.length === 0)],
    loop, threshold. *)
Definition checkInMatch (rt : Runtime.t) (userId : UserId) (faceFeatures : tensor)
    (db : Db.t) : step float :=
  let faceTemplates := loadTemplates userId db in
  _ <~ rejectIf (Nat.eqb (List.length faceTemplates) 0)
         (failure 400 "No face template found. Please register your face first." NoDetails) ;;
  best <~ await (bestOf rt faceFeatures faceTemplates None 0%float) ;;
  let bestMatch := fst best in
  let bestSimilarity := snd best in
  _ <~ rejectIf (notRecognized bestMatch bestSimilarity)
         (failure 400 "Face recognition failed. Please try again."
            (RecognitionDetails bestSimilarity confidenceThreshold)) ;;
  Next bestSimilarity.

(** [if (existingCheckIn)]: an approved check-in of the user in today's
    window. *)
Definition alreadyCheckedIn (rt : Runtime.t) (now : Z) (userId : UserId) (db : Db.t) : bool :=
  match firstApprovedToday rt now userId check_in db with
  | Some _ => true
  | None => false
  end.

(** Up to the match: validation, duplicate check, face presence, liveness,
    feature extraction. *)
Definition checkInCapture (rt : Runtime.t) (now : Z) (req : Request.t) (db : Db.t)
  : step (AntiSpoofingResult * tensor) :=
  imageBuffer <~ requireImage (checkInValid rt req) req ;;
  let userId := Request.user_id req in
  _ <~ rejectIf (alreadyCheckedIn rt now userId db)
         (failure 400 "You have already checked in today" NoDetails) ;;
  face <~ selectFace rt imageBuffer ;;
  antiSpoofingResult <~ livenessStep rt imageBuffer face true ;;
  faceFeatures <~ await (extractFaceFeatures rt imageBuffer (Face.box face)) ;;
  Next (antiSpoofingResult, faceFeatures).

(** Everything up to and including the match. *)
Definition checkInBiometrics (rt : Runtime.t) (now : Z) (req : Request.t) (db : Db.t)
  : step (AntiSpoofingResult * float) :=
  captured <~ checkInCapture rt now req db ;;
  bestSimilarity <~ checkInMatch rt (Request.user_id req) (snd captured) db ;;
  Next (fst captured, bestSimilarity).

(** [db('work_schedules').where('user_id', userId).where('is_active', true)
      .where(effective_from IS NULL OR effective_from <= now)
      .where(effective_to IS NULL OR effective_to >= now).first()] *)
Definition effectiveSchedule (scheduleNow : Z) (userId : UserId) (db : Db.t)
  : option WorkSchedule.t :=
  find (fun ws =>
          String.eqb (WorkSchedule.user_id ws) userId
          && Bool.eqb (WorkSchedule.is_active ws) true
          && match WorkSchedule.effective_from ws with
             | None => true
             | Some from => (from <=? scheduleNow)%Z
             end
          && match WorkSchedule.effective_to ws with
             | None => true
             | Some to => (scheduleNow <=? to)%Z
             end)
       (work_schedules db).

(** [workSchedule && workSchedule.latitude && workSchedule.longitude] *)
Definition siteConfigured (workSchedule : option WorkSchedule.t) : bool :=
  match workSchedule with
  | Some ws => truthyText (WorkSchedule.latitude ws)
               && truthyText (WorkSchedule.longitude ws)
  | None => false
  end.

Definition distanceToSite (rt : Runtime.t) (req : Request.t) (ws : WorkSchedule.t) : float :=
  calculateDistance rt
    (parseFloatField rt (Request.latitude req))
    (parseFloatField rt (Request.longitude req))
    (parseFloatField rt (WorkSchedule.latitude ws))
    (parseFloatField rt (WorkSchedule.longitude ws)).

(** [workSchedule.location_radius] as the comparison [distance > ...] reads
    it ([null] converts to 0) and as the template literal prints it. *)
Definition radiusNumber (location_radius : option Z) : float :=
  match location_radius with
  | Some meters => Js.ofZ meters
  | None => 0%float
  end.

Definition radiusText (rt : Runtime.t) (location_radius : option Z) : string :=
  match location_radius with
  | Some meters => Number_toString rt (Js.ofZ meters)
  | None => "null"
  end.

Definition flaggedMessage (rt : Runtime.t) (distance : float)
    (location_radius : option Z) : string :=
  "You are " ++ Number_toString rt (Math_round rt distance)
  ++ "m away from your work location. Allowed radius: "
  ++ radiusText rt location_radius ++ "m".

(** The location block: the pair [(locationValid, locationMessage)]. *)
Definition checkLocation (rt : Runtime.t) (req : Request.t)
    (workSchedule : option WorkSchedule.t) : bool * string :=
  match workSchedule with
  | Some ws =>
      if siteConfigured workSchedule then
        let distance := distanceToSite rt req ws in
        if Js.gt distance (radiusNumber (WorkSchedule.location_radius ws))
        then (false, flaggedMessage rt distance (WorkSchedule.location_radius ws))
        else (true, "")
      else (true, "")
  | None => (true, "")
  end.

Definition checkInRow (rt : Runtime.t) (now : Z) (req : Request.t)
    (antiSpoofingResult : AntiSpoofingResult) (bestSimilarity : float)
    (locationValid : bool) (locationMessage : string) (device_info : option string)
    (id : nat) : AttendanceRecord.t :=
  {| AttendanceRecord.id := id;
     AttendanceRecord.user_id := Request.user_id req;
     AttendanceRecord.type := check_in;
     AttendanceRecord.timestamp := now;
     AttendanceRecord.latitude := parseFloatField rt (Request.latitude req);
     AttendanceRecord.longitude := parseFloatField rt (Request.longitude req);
     AttendanceRecord.location_address := Request.locationAddress req;
     AttendanceRecord.accuracy := parseAccuracy rt (Request.accuracy req);
     AttendanceRecord.confidence_score := bestSimilarity;
     AttendanceRecord.liveness_passed := passed antiSpoofingResult;
     AttendanceRecord.liveness_data := antiSpoofingResult;
     AttendanceRecord.status := if locationValid then approved else flagged;
     AttendanceRecord.rejection_reason :=
       if locationValid then None else Some locationMessage;
     AttendanceRecord.device_info := device_info;
     AttendanceRecord.is_offline := false |}.

Definition auditRow (userId : UserId) (action : string) (resource_id : nat) : AuditLog.t :=
  {| AuditLog.user_id := userId;
     AuditLog.action := action;
     AuditLog.resource_type := "attendance_record";
     AuditLog.resource_id := resource_id;
     AuditLog.severity := "low" |}.

(** The insert, the audit row and the answer of an accepted check-in.  The
    socket emit and the logger leave the store alone. *)
Definition checkInPersist (rt : Runtime.t) (now : Z) (req : Request.t) (db : Db.t)
    (antiSpoofingResult : AntiSpoofingResult) (bestSimilarity : float)
    (location : bool * string) (device_info : option string)
  : Response * Db.t :=
  let locationValid := fst location in
  let locationMessage := snd location in
  let inserted :=
    insert_attendance
      (checkInRow rt now req antiSpoofingResult bestSimilarity
         locationValid locationMessage device_info) db in
  let attendanceRecord := fst inserted in
  let db' :=
    insert_audit
      (auditRow (Request.user_id req) "attendance_check_in"
         (AttendanceRecord.id attendanceRecord))
      (snd inserted) in
  ({| http_status := 200;
      success := true;
      message := if locationValid then "Check-in successful"
                 else "Check-in recorded but location flagged";
      details := RecordData attendanceRecord (Some locationValid)
                   (Some locationMessage) |},
   db').

(** From the work-schedule query to [res.json]. *)
Definition checkInRecord (rt : Runtime.t) (now scheduleNow : Z) (req : Request.t)
    (db : Db.t) (antiSpoofingResult : AntiSpoofingResult) (bestSimilarity : float)
  : step (Response * Db.t) :=
  let workSchedule := effectiveSchedule scheduleNow (Request.user_id req) db in
  let location := checkLocation rt req workSchedule in
  device_info <~ await (parseDeviceInfo rt (Request.deviceInfo req)) ;;
  Next (checkInPersist rt now req db antiSpoofingResult bestSimilarity
          location device_info).

Definition checkIn (rt : Runtime.t) (now scheduleNow : Z) (req : Request.t) (db : Db.t)
  : Response * Db.t :=
  handler "Check-in failed" db
    (checked <~ checkInBiometrics rt now req db ;;
     checkInRecord rt now scheduleNow req db (fst checked) (snd checked)).

(** *** POST /api/attendance/check-out *)

Definition checkOutValid (rt : Runtime.t) (req : Request.t) : bool :=
  isFloatField rt (Request.latitude req)
  && isFloatField rt (Request.longitude req).

(** [if (existingCheckOut)] *)
Definition alreadyCheckedOut (rt : Runtime.t) (now : Z) (userId : UserId) (db : Db.t) : bool :=
  match firstApprovedToday rt now userId check_out db with
  | Some _ => true
  | None => false
  end.

(** The match step of the check-out: no emptiness test, no details. *)
Definition checkOutMatch (rt : Runtime.t) (userId : UserId) (faceFeatures : tensor)
    (db : Db.t) : step float :=
  let faceTemplates := loadTemplates userId db in
  best <~ await (bestOf rt faceFeatures faceTemplates None 0%float) ;;
  let bestMatch := fst best in
  let bestSimilarity := snd best in
  _ <~ rejectIf (notRecognized bestMatch bestSimilarity)
         (failure 400 "Face recognition failed. Please try again." NoDetails) ;;
  Next bestSimilarity.

Definition checkOutCapture (rt : Runtime.t) (now : Z) (req : Request.t) (db : Db.t)
  : step (AntiSpoofingResult * tensor) :=
  imageBuffer <~ requireImage (checkOutValid rt req) req ;;
  let userId := Request.user_id req in
  _ <~ rejectIf (negb (alreadyCheckedIn rt now userId db))
         (failure 400 "You must check in before checking out" NoDetails) ;;
  _ <~ rejectIf (alreadyCheckedOut rt now userId db)
         (failure 400 "You have already checked out today" NoDetails) ;;
  face <~ selectFace rt imageBuffer ;;
  antiSpoofingResult <~ livenessStep rt imageBuffer face false ;;
  faceFeatures <~ await (extractFaceFeatures rt imageBuffer (Face.box face)) ;;
  Next (antiSpoofingResult, faceFeatures).

Definition checkOutBiometrics (rt : Runtime.t) (now : Z) (req : Request.t) (db : Db.t)
  : step (AntiSpoofingResult * float) :=
  captured <~ checkOutCapture rt now req db ;;
  bestSimilarity <~ checkOutMatch rt (Request.user_id req) (snd captured) db ;;
  Next (fst captured, bestSimilarity).

Definition checkOutRow (rt : Runtime.t) (now : Z) (req : Request.t)
    (antiSpoofingResult : AntiSpoofingResult) (bestSimilarity : float)
    (device_info : option string) (id : nat) : AttendanceRecord.t :=
  {| AttendanceRecord.id := id;
     AttendanceRecord.user_id := Request.user_id req;
     AttendanceRecord.type := check_out;
     AttendanceRecord.timestamp := now;
     AttendanceRecord.latitude := parseFloatField rt (Request.latitude req);
     AttendanceRecord.longitude := parseFloatField rt (Request.longitude req);
     AttendanceRecord.location_address := Request.locationAddress req;
     AttendanceRecord.accuracy := parseAccuracy rt (Request.accuracy req);
     AttendanceRecord.confidence_score := bestSimilarity;
     AttendanceRecord.liveness_passed := passed antiSpoofingResult;
     AttendanceRecord.liveness_data := antiSpoofingResult;
     AttendanceRecord.status := approved;
     AttendanceRecord.rejection_reason := None;
     AttendanceRecord.device_info := device_info;
     AttendanceRecord.is_offline := false |}.

Definition checkOutPersist (rt : Runtime.t) (now : Z) (req : Request.t) (db : Db.t)
    (antiSpoofingResult : AntiSpoofingResult) (bestSimilarity : float)
    (device_info : option string)
  : Response * Db.t :=
  let inserted :=
    insert_attendance
      (checkOutRow rt now req antiSpoofingResult bestSimilarity device_info) db in
  let attendanceRecord := fst inserted in
  let db' :=
    insert_audit
      (auditRow (Request.user_id req) "attendance_check_out"
         (AttendanceRecord.id attendanceRecord))
      (snd inserted) in
  ({| http_status := 200;
      success := true;
      message := "Check-out successful";
      details := RecordData attendanceRecord None None |},
   db').

Definition checkOutRecord (rt : Runtime.t) (now : Z) (req : Request.t)
    (db : Db.t) (antiSpoofingResult : AntiSpoofingResult) (bestSimilarity : float)
  : step (Response * Db.t) :=
  device_info <~ await (parseDeviceInfo rt (Request.deviceInfo req)) ;;
  Next (checkOutPersist rt now req db antiSpoofingResult bestSimilarity device_info).

Definition checkOut (rt : Runtime.t) (now : Z) (req : Request.t) (db : Db.t)
  : Response * Db.t :=
  handler "Check-out failed" db
    (checked <~ checkOutBiometrics rt now req db ;;
     checkOutRecord rt now req db (fst checked) (snd checked)).

End AttendanceRoutes.

(* ------------------------------------------------------------------ *)
(** ** A deterministic runtime for worked examples

    The three models are the placeholders of the service itself
    ([loadFaceDetectionModel], [loadLivenessModel]: one face at confidence
    0.95, liveness confidence 0.85), with the random draws fixed; the feature
    extractor reads the feature vector off the image bytes.  The cipher, the
    JSON codec and the number routines are small stand-ins that keep Node's
    contract on the texts the examples use. *)

Module Fixture.

Import Tf.
Import FaceRecognitionService.
Import Runtime.

Local Open Scope string_scope.

(** Integer part of a non-negative number, and back. *)
Definition toN (v : float) : N :=
  match Prim2SF v with
  | S754_finite false m e =>
      match e with
      | Z0 => Npos m
      | Zpos p => N.shiftl (Npos m) (Npos p)
      | Zneg p => N.shiftr (Npos m) (Npos p)
      end
  | _ => 0%N
  end.

Definition ofN (n : N) : float := PrimFloat.of_uint63 (Uint63.of_Z (Z.of_N n)).

Definition showN (n : N) : string := NilZero.string_of_uint (N.to_uint n).

Definition readN (s : string) : option N :=
  option_map N.of_uint (NilZero.uint_of_string s).

(** Decimal text of a number, integers only. *)
Definition numberToString (v : float) : string := showN (toN v).

Fixpoint splitOn (sep : ascii) (s : string) (word : string) : list string :=
  match s with
  | EmptyString => [word]
  | String c rest =>
      if Ascii.eqb c sep then word :: splitOn sep rest EmptyString
      else splitOn sep rest (word ++ String c EmptyString)
  end.

(** [parseFloat] on texts of the shape [digits] or [digits.digits]; the
    quotient of two exactly represented integers is correctly rounded. *)
Definition readDecimal (s : string) : option float :=
  match splitOn "."%char s EmptyString with
  | [whole] => option_map ofN (readN whole)
  | [whole; frac] =>
      match readN whole, readN frac with
      | Some w, Some f =>
          let scale := (10 ^ N.of_nat (String.length frac))%N in
          Some (ofN (w * scale + f) / ofN scale)%float
      | _, _ => None
      end
  | _ => None
  end.

Definition fixtureIsFloat (s : string) : bool :=
  match readDecimal s with Some _ => true | None => false end.

Definition fixtureParseFloat (s : string) : float :=
  match readDecimal s with Some v => v | None => nan end.

(** [Math.round] on [0 <= v < 2^51]. *)
Definition round (v : float) : float :=
  (let big := 4503599627370496 in
   let r := v + big - big in
   if 0.5 <? r - v then r - 1
   else if 0.5 <=? v - r then r + 1
   else r)%float.

(** Low-order approximations, accurate near 0. *)
Definition sin (v : float) : float := (v - v * v * v / 6)%float.
Definition cos (v : float) : float := (1 - v * v / 2)%float.
Definition atan2 (b a : float) : float :=
  (let q := b / a in q - q * q * q / 3)%float.

(** JSON text of an array of non-negative integers, and back. *)
Definition stringify (v : tensor) : string :=
  "[" ++ String.concat "," (map numberToString v) ++ "]".

Fixpoint readAll (words : list string) : option tensor :=
  match words with
  | [] => Some []
  | w :: rest =>
      match readN w, readAll rest with
      | Some n, Some v => Some (ofN n :: v)
      | _, _ => None
      end
  end.

Definition parse (s : string) : completion tensor :=
  match s with
  | String "["%char body =>
      match splitOn "]"%char body EmptyString with
      | [items; EmptyString] =>
          match readAll (splitOn ","%char items EmptyString) with
          | Some v => Return v
          | None => Throw SyntaxError
          end
      | _ => Throw SyntaxError
      end
  | _ => Throw SyntaxError
  end.

(** A keyed stand-in for the cipher: the ciphertext carries the key, and a
    text that does not start with it is refused. *)
Definition seal (key text : string) : string := key ++ text.

Fixpoint strip (key text : string) : option string :=
  match key, text with
  | EmptyString, _ => Some text
  | String a key', String b text' =>
      if Ascii.eqb a b then strip key' text' else None
  | String _ _, EmptyString => None
  end.

Definition unseal (key text : string) : completion string :=
  match strip key text with
  | Some plain => Return plain
  | None => Throw CipherError
  end.

Definition parseValue (s : string) : completion string :=
  match s with
  | String "{"%char _ => Return s
  | _ => Throw SyntaxError
  end.

Definition runtime : Runtime.t :=
  {| encryptionKey := Some "k:";
     aes256cbc_cipher := seal;
     aes256cbc_decipher := unseal;
     JSON_stringify := stringify;
     JSON_parse := parse;
     JSON_parse_value := parseValue;
     sharp_extract := fun imageBuffer _ _ => Return imageBuffer;
     preprocessImage := fun imageBuffer => Return imageBuffer;
     faceDetectionModel_detectFaces := fun _ =>
       Return [ {| Face.box := {| x := 100; y := 100; width := 200; height := 200 |};
                   Face.confidence := 0.95 |} ];
     model_extractFeatures := parse;
     livenessModel_detectLiveness := fun _ =>
       Return {| LivenessResult.isLive := true;
                 LivenessResult.confidence := 0.85;
                 LivenessResult.method := "passive" |};
     Math_random := fun _ => 0.5%float;
     Math_sin := sin;
     Math_cos := cos;
     Math_atan2 := atan2;
     Math_round := round;
     Number_toString := numberToString;
     isFloat := fixtureIsFloat;
     parseFloat := fixtureParseFloat;
     timezoneOffset := 0 |}.

End Fixture.

(* ------------------------------------------------------------------ *)
(** ** Vocabulary of the properties *)

Module Spec.

Import Tf.
Import FaceRecognitionService.

(** A vector whose computed norm compares equal to 0. *)
Definition zeroNorm (v : tensor) : bool := PrimFloat.is_zero (norm v).

(** A vector all of whose entries are zeros. *)
Definition allZero (v : tensor) : bool := forallb PrimFloat.is_zero v.

(** The matcher as the specification words it: a zero norm on either side
    is signalled by an error. *)
Definition signalsDegenerateVector : Prop :=
  forall (A B : tensor) (th : option float),
    zeroNorm A = true \/ zeroNorm B = true ->
    exists e, compareFaces A B th = Throw e.

(** A number that is a zero or NaN.  Such numbers are closed under sums,
    products with anything and square roots, and their quotients are NaN. *)
Definition zeroOrNan (v : float) : Prop :=
  Prim2SF v = S754_nan \/ exists s, Prim2SF v = S754_zero s.

(** An early answer of a handler step is always a refusal. *)
Definition refusing {A : Type} (s : AttendanceRoutes.step A) : Prop :=
  forall r, s = AttendanceRoutes.Respond r -> AttendanceRoutes.success r = false.

(** [r] is an approved record of type [ty] of user [u] on calendar day [d]
    (days counted in the server's local time). *)
Definition approvedOn (rt : Runtime.t) (u : Db.UserId) (ty : Db.RecordType) (d : Z)
    (r : Db.AttendanceRecord.t) : bool :=
  String.eqb (Db.AttendanceRecord.user_id r) u
  && Db.RecordType_eqb (Db.AttendanceRecord.type r) ty
  && (AttendanceRoutes.dayOf rt (Db.AttendanceRecord.timestamp r) =? d)%Z
  && Db.Status_eqb (Db.AttendanceRecord.status r) Db.approved.

Definition approvedCount (rt : Runtime.t) (u : Db.UserId) (ty : Db.RecordType) (d : Z)
    (db : Db.t) : nat :=
  List.length (filter (approvedOn rt u ty d) (Db.attendance_records db)).

(** The invariant of the attendance table: per user and calendar day, at
    most one approved check-in and at most one approved check-out. *)
Definition oneApprovedPerDay (rt : Runtime.t) (db : Db.t) : Prop :=
  forall (u : Db.UserId) (d : Z),
    (approvedCount rt u Db.check_in d db <= 1)%nat
    /\ (approvedCount rt u Db.check_out d db <= 1)%nat.

(** The same request carrying another embedded timestamp. *)
Definition withTimestamp (ts : option Z) (req : AttendanceRoutes.Request.t)
  : AttendanceRoutes.Request.t :=
  {| AttendanceRoutes.Request.user_id := AttendanceRoutes.Request.user_id req;
     AttendanceRoutes.Request.file := AttendanceRoutes.Request.file req;
     AttendanceRoutes.Request.latitude := AttendanceRoutes.Request.latitude req;
     AttendanceRoutes.Request.longitude := AttendanceRoutes.Request.longitude req;
     AttendanceRoutes.Request.accuracy := AttendanceRoutes.Request.accuracy req;
     AttendanceRoutes.Request.locationAddress :=
       AttendanceRoutes.Request.locationAddress req;
     AttendanceRoutes.Request.deviceInfo := AttendanceRoutes.Request.deviceInfo req;
     AttendanceRoutes.Request.timestamp := ts |}.

(** The same store with another [work_schedules] table. *)
Definition withSchedules (schedules : list Db.WorkSchedule.t) (db : Db.t) : Db.t :=
  {| Db.attendance_records := Db.attendance_records db;
     Db.face_templates := Db.face_templates db;
     Db.work_schedules := schedules;
     Db.audit_logs := Db.audit_logs db |}.

(** The duplicate check as the specification words it: "today" is the day
    of the timestamp embedded in the submission, ... *)
Definition duplicateCheckUsesEmbeddedTimestamp : Prop :=
  forall (rt : Runtime.t) (req : AttendanceRoutes.Request.t) (db : Db.t) (now ts : Z),
    AttendanceRoutes.Request.timestamp req = Some ts ->
    AttendanceRoutes.alreadyCheckedIn rt now (AttendanceRoutes.Request.user_id req) db
    = AttendanceRoutes.alreadyCheckedIn rt ts (AttendanceRoutes.Request.user_id req) db.

(** ... so that its verdict on a submission is the same whatever the instant
    [now] at which the server handles it. *)
Definition duplicateCheckIgnoresArrival : Prop :=
  forall (rt : Runtime.t) (req : AttendanceRoutes.Request.t) (db : Db.t) (now1 now2 : Z),
    AttendanceRoutes.alreadyCheckedIn rt now1 (AttendanceRoutes.Request.user_id req) db
    = AttendanceRoutes.alreadyCheckedIn rt now2 (AttendanceRoutes.Request.user_id req) db.

(** A request the server handles, with the clock readings of its handling;
    and the store after a sequence of them, handled one after the other. *)
Inductive Event : Type :=
| CheckIn (now scheduleNow : Z) (req : AttendanceRoutes.Request.t)
| CheckOut (now : Z) (req : AttendanceRoutes.Request.t).

Definition handle (rt : Runtime.t) (db : Db.t) (ev : Event) : Db.t :=
  match ev with
  | CheckIn now scheduleNow req =>
      snd (AttendanceRoutes.checkIn rt now scheduleNow req db)
  | CheckOut now req => snd (AttendanceRoutes.checkOut rt now req db)
  end.

Definition run (rt : Runtime.t) (events : list Event) (db : Db.t) : Db.t :=
  fold_left (handle rt) events db.

(** The match step as the specification words it: the similarity kept is at
    least the similarity against every stored template of the user, primary
    or not. *)
Definition usesEveryTemplate : Prop :=
  forall (rt : Runtime.t) (faceFeatures : tensor) (userId : Db.UserId) (db : Db.t)
         (bestMatch : option Comparison) (bestSimilarity : float),
    AttendanceRoutes.bestOf rt faceFeatures (AttendanceRoutes.loadTemplates userId db)
      None 0%float = Return (bestMatch, bestSimilarity) ->
    forall (template : Db.FaceTemplate.t) (v : tensor) (c : Comparison),
      In template (Db.face_templates db) ->
      Db.FaceTemplate.user_id template = userId ->
      decryptFaceTemplate rt (Db.FaceTemplate.face_encoding template) = Return v ->
      compareFaces faceFeatures v None = Return c ->
      Js.gt (similarity c) bestSimilarity = false.

(** A feature vector JSON carries unchanged (in JavaScript: every array of
    finite numbers without a negative zero). *)
Definition jsonFaithful (rt : Runtime.t) (v : tensor) : Prop :=
  Runtime.JSON_parse rt (Runtime.JSON_stringify rt v) = Return v.

(** The vault as the specification words it: any text other than the stored
    ciphertext is refused by [decryptFaceTemplate]. *)
Definition tamperAlwaysFails (rt : Runtime.t) : Prop :=
  forall (v : tensor) (c c' : string),
    encryptFaceTemplate rt v = Return c ->
    c' <> c ->
    exists e, decryptFaceTemplate rt c' = Throw e.

End Spec.

(* ------------------------------------------------------------------ *)
(** ** Worked scenarios on the deterministic runtime *)

Module Scenario.

Import Tf.
Import FaceRecognitionService.
Import Runtime.
Import Db.
Import AttendanceRoutes.

Local Open Scope string_scope.

Definition alice : UserId := "alice".

(** A template of [alice] enrolled from the feature vector [v]. *)
Definition enrolled (id : nat) (v : tensor) (primary : bool) : FaceTemplate.t :=
  {| FaceTemplate.id := id;
     FaceTemplate.user_id := alice;
     FaceTemplate.face_encoding :=
       match encryptFaceTemplate Fixture.runtime v with
       | Return c => c
       | Throw _ => ""
       end;
     FaceTemplate.face_hash := "";
     FaceTemplate.quality_score := 90;
     FaceTemplate.is_primary := primary |}.

(** A work site at latitude 0, longitude 0, with a radius of 100 m. *)
Definition site : WorkSchedule.t :=
  {| WorkSchedule.user_id := alice;
     WorkSchedule.is_active := true;
     WorkSchedule.effective_from := None;
     WorkSchedule.effective_to := None;
     WorkSchedule.latitude := Some "0.000";
     WorkSchedule.longitude := Some "0";
     WorkSchedule.location_radius := Some 100%Z |}.

(** What the anti-spoofing step yields on the deterministic runtime. *)
Definition live : AntiSpoofingResult :=
  aggregate {| LivenessResult.isLive := true;
               LivenessResult.confidence := 0.85;
               LivenessResult.method := "passive" |}
            (mockTexture (Math_random Fixture.runtime))
            (mockDepth (Math_random Fixture.runtime)).

(** An approved check-in of [alice] stored at [instant]. *)
Definition approvedCheckIn (instant : Z) : AttendanceRecord.t :=
  {| AttendanceRecord.id := 0;
     AttendanceRecord.user_id := alice;
     AttendanceRecord.type := check_in;
     AttendanceRecord.timestamp := instant;
     AttendanceRecord.latitude := 0;
     AttendanceRecord.longitude := 0;
     AttendanceRecord.location_address := None;
     AttendanceRecord.accuracy := None;
     AttendanceRecord.confidence_score := 1;
     AttendanceRecord.liveness_passed := true;
     AttendanceRecord.liveness_data := live;
     AttendanceRecord.status := approved;
     AttendanceRecord.rejection_reason := None;
     AttendanceRecord.device_info := None;
     AttendanceRecord.is_offline := false |}.

Definition store (templates : list FaceTemplate.t) (schedules : list WorkSchedule.t)
    (records : list AttendanceRecord.t) : Db.t :=
  {| attendance_records := records;
     face_templates := templates;
     work_schedules := schedules;
     audit_logs := [] |}.

(** A submission of [alice]: the image carries the features the extractor
    will read, the position is given in degrees. *)
Definition submission (image latitude longitude : string) (embedded : option Z)
  : Request.t :=
  {| Request.user_id := alice;
     Request.file := Some image;
     Request.latitude := Some latitude;
     Request.longitude := Some longitude;
     Request.accuracy := None;
     Request.locationAddress := None;
     Request.deviceInfo := None;
     Request.timestamp := embedded |}.

(** The features the scenarios submit, and the image carrying them. *)
Definition probe : tensor := [1; 0; 0; 0; 0]%float.
Definition probeImage : string := "[1,0,0,0,0]".

(** Two templates: the primary one is at similarity 3/4 of [probe], the
    other one at similarity 1.  (All the numbers involved are exact in
    binary32 and binary64 alike.) *)
Definition twoTemplates : Db.t :=
  store [enrolled 0 [3; 2; 1; 1; 1]%float true; enrolled 1 probe false] [] [].

(** What the matcher returns for [probe] against the primary template. *)
Definition threeQuarters : Comparison :=
  {| isMatch := true; similarity := 0.75; threshold := 0.6 |}.

(** One matching primary template and the work site. *)
Definition withSite : Db.t := store [enrolled 0 probe true] [site] [].

(** One matching primary template and an approved check-in at instant 1000. *)
Definition checkedIn : Db.t :=
  store [enrolled 0 probe true] [] [approvedCheckIn 1000].

End Scenario.

(* ------------------------------------------------------------------ *)
(** ** Handlers of the other routes: answers and control flow

    The routes below answer with payloads of their own, and some of them
    write to the store before a later query can fail, so their answers are
    typed by the payload and their catch keeps whatever was written. *)

Module Http.

Local Open Scope string_scope.

(** What reaches the [catch] of a handler. *)
Inductive thrown : Type :=
| Service (e : Js.error)      (* a call into the face recognition service threw *)
| StoreError.                 (* the database driver rejected a query *)

(** The JSON an answer carries besides [success] and [message]. *)
Inductive Body (D : Type) : Type :=
| Empty
| ValidationErrors            (* errors: errors.array() *)
| Data (d : D).               (* data: { ... } *)
Arguments Empty {D}.
Arguments ValidationErrors {D}.
Arguments Data {D} d.

Record Response (D : Type) : Type := mkResponse {
  http_status : Z;
  success : bool;
  message : option string;
  body : Body D
}.
Arguments mkResponse {D}.
Arguments http_status {D}.
Arguments success {D}.
Arguments message {D}.
Arguments body {D}.

(** [res.status(code).json({ success: false, message })] *)
Definition failure {D} (code : Z) (msg : string) : Response D :=
  {| http_status := code; success := false; message := Some msg; body := Empty |}.

(** The answer to a request express-validator found errors in. *)
Definition invalid {D} : Response D :=
  {| http_status := 400; success := false; message := Some "Validation failed";
     body := ValidationErrors |}.

Inductive step (D A : Type) : Type :=
| Next (a : A)
| Respond (r : Response D)
| Raise (e : thrown).
Arguments Next {D A} a.
Arguments Respond {D A} r.
Arguments Raise {D A} e.

Definition andThen {D A B} (s : step D A) (k : A -> step D B) : step D B :=
  match s with
  | Next a => k a
  | Respond r => Respond r
  | Raise e => Raise e
  end.

(** [await] of a service call that may reject. *)
Definition await {D A} (c : completion A) : step D A :=
  match c with
  | Return a => Next a
  | Throw e => Raise (Service e)
  end.

(** [await] of a query the driver may reject. *)
Definition query {D A} (r : option A) : step D A :=
  match r with
  | Some a => Next a
  | None => Raise StoreError
  end.

(** [if (cond) return res.status(..).json(..)] *)
Definition rejectIf {D} (cond : bool) (r : Response D) : step D unit :=
  if cond then Respond r else Next tt.

(** [const x = await db(..)...first(); if (!x) return res.status(..).json(..)] *)
Definition orRespond {D A} (found : option A) (r : Response D) : step D A :=
  match found with
  | Some a => Next a
  | None => Respond r
  end.

(** The [try { ... } catch (error) { res.status(500).json(..) }] around the
    part of a handler that has not written to the store yet. *)
Definition handler {D S} (failed : string) (s : S) (body : step D (Response D * S))
  : Response D * S :=
  match body with
  | Next out => out
  | Respond r => (r, s)
  | Raise _ => (failure 500 failed, s)
  end.

End Http.

Notation "x <~~ s ;; k" := (Http.andThen s (fun x => k))
  (at level 61, s at next level, right associativity).

(* ------------------------------------------------------------------ *)
(** ** The rest of the store, and what the other routes reach outside

    [Db.t] holds the tables the two attendance handlers use.  The other
    routes also read [users], fill the two review columns of
    [attendance_records] and write audit rows of their own. *)

Module Store.

Import Db.

Local Open Scope string_scope.

(** A row of [users], with the columns the routes below read. *)
Module User.
Inductive Role : Type := employee | admin | super_admin.
Inductive Status : Type := active | inactive | suspended.
Record t : Type := mk {
  id : UserId;
  employee_id : string;
  department : string;
  role : Role;
  status : Status
}.
End User.

Definition UserStatus_eqb (a b : User.Status) : bool :=
  match a, b with
  | User.active, User.active | User.inactive, User.inactive
  | User.suspended, User.suspended => true
  | _, _ => false
  end.

(** The columns [approved_by] and [approved_at] of a row of
    [attendance_records], NULL until an administrator decides on it.  They
    are kept beside the rows, under the row's id. *)
Module Review.
Record t : Type := mk {
  approved_by : UserId;
  approved_at : Z
}.
End Review.

(** [resource_type] and [resource_id] of an audit row. *)
Inductive Resource : Type :=
| attendance_record (id : nat)
| face_template (id : nat)
| work_schedule (id : nat).

(** A JSON value in [old_values] or [new_values]; a key whose value is
    [undefined] is not written. *)
Inductive Value : Type :=
| VNull
| VBool (b : bool)
| VNumber (v : float)
| VInteger (z : Z)
| VText (s : string)
| VStatus (s : Status).

Definition Values := list (string * Value).

(** An audit row written by a route other than check-in and check-out, with
    the columns saying who did what to which resource and the two JSON
    payloads; the two columns copied from the connection ([ip_address],
    [user_agent]) are left out. *)
Module Audit.
Record t : Type := mk {
  user_id : UserId;
  action : string;
  resource : option Resource;
  old_values : option Values;
  new_values : option Values;
  severity : string
}.
End Audit.

Record t : Type := mk {
  db : Db.t;
  users : list User.t;
  reviews : list (nat * Review.t);
  audit : list Audit.t
}.

Definition with_db (db' : Db.t) (s : t) : t :=
  {| db := db'; users := users s; reviews := reviews s; audit := audit s |}.

(** [db('audit_logs').insert(row)] *)
Definition log (row : Audit.t) (s : t) : t :=
  {| db := db s; users := users s; reviews := reviews s; audit := audit s ++ [row] |}.

(** An [integer] column receiving a JavaScript number: the driver sends its
    decimal text, which the store accepts when it denotes an integer of 32
    bits. *)
Definition integer (v : float) : option Z :=
  let checked (z : Z) :=
    if ((-2147483648 <=? z) && (z <=? 2147483647))%Z then Some z else None in
  match Prim2SF v with
  | S754_zero _ => Some 0%Z
  | S754_finite sign m e =>
      let signed (z : Z) := if sign then (- z)%Z else z in
      match e with
      | Z0 => checked (signed (Zpos m))
      | Zpos p => checked (signed (Zpos m * 2 ^ Zpos p)%Z)
      | Zneg p =>
          if (Zpos m mod 2 ^ Zpos p =? 0)%Z
          then checked (signed (Zpos m / 2 ^ Zpos p)%Z)
          else None
      end
  | _ => None
  end.

End Store.

(** What the other routes reach outside themselves, besides [Runtime.t]. *)
Module Lib.
Record t : Type := mk {
  (** [crypto.createHash('sha256').update(text).digest('hex')] *)
  sha256_hex : string -> string;
  (** express-validator's [isUUID()] and [isBoolean()] on a body field *)
  isUUID : string -> bool;
  isBoolean : string -> bool;
  (** a [boolean] column receiving a text: Postgres reads it as a boolean or
      rejects it *)
  store_boolean : string -> option bool
}.
End Lib.

(* ------------------------------------------------------------------ *)
(** ** faceRecognitionService.js (unnamed/part_000), the remaining method the
    routes call *)

Module FaceHash.

Import Tf.
Import Runtime.

(** [generateFaceHash(template)] *)
Definition generateFaceHash (rt : Runtime.t) (lib : Lib.t) (template : tensor) : string :=
  Lib.sha256_hex lib (JSON_stringify rt template).

End FaceHash.

(* ------------------------------------------------------------------ *)
(** ** The face recognition routes (unnamed/part_002)

    The handlers run behind [authenticateToken] (and [requireAdmin] where the
    route says so): a request is one that passed them, and carries the
    authenticated user.  A path parameter is the id it denotes; a text that
    denotes none makes the store reject the query. *)

Module FaceRoutes.

Import Tf.
Import FaceRecognitionService.
Import Runtime.
Import Db.
Import Http.

Local Open Scope string_scope.

(** *** The [face_templates] table *)

Definition with_templates (templates : list FaceTemplate.t) (db : Db.t) : Db.t :=
  {| attendance_records := attendance_records db;
     face_templates := templates;
     work_schedules := work_schedules db;
     audit_logs := audit_logs db |}.

Definition set_primary (flag : bool) (template : FaceTemplate.t) : FaceTemplate.t :=
  {| FaceTemplate.id := FaceTemplate.id template;
     FaceTemplate.user_id := FaceTemplate.user_id template;
     FaceTemplate.face_encoding := FaceTemplate.face_encoding template;
     FaceTemplate.face_hash := FaceTemplate.face_hash template;
     FaceTemplate.quality_score := FaceTemplate.quality_score template;
     FaceTemplate.is_primary := flag |}.

(** [db('face_templates').where('user_id', userId)] *)
Definition templatesOf (userId : UserId) (db : Db.t) : list FaceTemplate.t :=
  filter (fun template => String.eqb (FaceTemplate.user_id template) userId)
         (face_templates db).

(** [db('face_templates').where('id', templateId).first()] *)
Definition templateById (templateId : nat) (db : Db.t) : option FaceTemplate.t :=
  find (fun template => Nat.eqb (FaceTemplate.id template) templateId)
       (face_templates db).

(** [db('face_templates').where('user_id', userId).update({ is_primary: false })] *)
Definition unsetPrimary (userId : UserId) (db : Db.t) : Db.t :=
  with_templates
    (map (fun template =>
            if String.eqb (FaceTemplate.user_id template) userId
            then set_primary false template else template)
         (face_templates db))
    db.

(** [db('face_templates').where('id', templateId).update({ is_primary: true })] *)
Definition markPrimary (templateId : nat) (db : Db.t) : Db.t :=
  with_templates
    (map (fun template =>
            if Nat.eqb (FaceTemplate.id template) templateId
            then set_primary true template else template)
         (face_templates db))
    db.

(** [db('face_templates').where('id', templateId).del()] *)
Definition deleteById (templateId : nat) (db : Db.t) : Db.t :=
  with_templates
    (filter (fun template => negb (Nat.eqb (FaceTemplate.id template) templateId))
            (face_templates db))
    db.

(** [db('face_templates').insert(row)] *)
Definition insertTemplate (row : FaceTemplate.t) (db : Db.t) : Db.t :=
  with_templates (face_templates db ++ [row]) db.

(** The payload of an audit row about a template:
    [{ user_id, quality_score, is_primary }]. *)
Definition templateValues (template : FaceTemplate.t) : Store.Values :=
  [ ("user_id", Store.VText (FaceTemplate.user_id template));
    ("quality_score", Store.VInteger (FaceTemplate.quality_score template));
    ("is_primary", Store.VBool (FaceTemplate.is_primary template)) ].

(** *** POST /api/face-recognition/register *)

Module RegisterRequest.
Record t : Type := mk {
  admin : UserId;                   (* req.user.id *)
  file : option Image;              (* req.file *)
  userId : option string;
  isPrimary : option string
}.
End RegisterRequest.

(** What the 201 answer shows of the stored template ([createdAt], a column
    the store fills, is not part of the row type). *)
Record Registered : Type := mkRegistered {
  id : nat;
  userId : UserId;
  qualityScore : Z;
  isPrimary : bool
}.

(** [body('userId').isUUID()], [body('isPrimary').optional().isBoolean()] *)
Definition registerValid (lib : Lib.t) (req : RegisterRequest.t) : bool :=
  match RegisterRequest.userId req with
  | Some s => Lib.isUUID lib s
  | None => false
  end
  && match RegisterRequest.isPrimary req with
     | Some s => Lib.isBoolean lib s
     | None => true
     end.

(** [db('users').where('id', userId).andWhere('status', 'active').first()] *)
Definition activeUser (userId : UserId) (s : Store.t) : option Store.User.t :=
  find (fun user =>
          String.eqb (Store.User.id user) userId
          && Store.UserStatus_eqb (Store.User.status user) Store.User.active)
       (Store.users s).

(** [detectFaces], then the three tests on its result: none, several, and
    [face.confidence < 0.8]. *)
Definition singleClearFace {D} (rt : Runtime.t) (imageBuffer : Image) : step D Face.t :=
  faces <~~ await (detectFaces rt imageBuffer) ;;
  match faces with
  | [] => Respond (failure 400 "No face detected in the image")
  | [face] =>
      _ <~~ rejectIf (Js.lt (Face.confidence face) 0.8)
              (failure 400 "Face quality is too low. Please provide a clearer image.") ;;
      Next face
  | _ :: _ :: _ =>
      Respond (failure 400
                 "Multiple faces detected. Please provide an image with only one face.")
  end.

(** The loop [for (const existingTemplate of existingTemplates)]: [true]
    when it meets a template at similarity above 0.9, and the handler
    answers from inside the loop. *)
Fixpoint similarExists (rt : Runtime.t) (faceFeatures : tensor)
    (existingTemplates : list FaceTemplate.t) : completion bool :=
  match existingTemplates with
  | [] => Return false
  | existingTemplate :: rest =>
      decryptedExisting <-
        decryptFaceTemplate rt (FaceTemplate.face_encoding existingTemplate) ;;
      comparison <- compareFaces faceFeatures decryptedExisting None ;;
      if Js.gt (similarity comparison) 0.9 then Return true
      else similarExists rt faceFeatures rest
  end.

(** What the steps before the first write hand over. *)
Record Enrolment : Type := mkEnrolment {
  targetUser : UserId;
  face : Face.t;
  livenessResult : LivenessResult.t;
  features : tensor;
  encryptedTemplate : string;
  faceHash : string;
  existingTemplates : list FaceTemplate.t
}.

(** Validation, the user, the face, liveness, the features, the vault and
    the test for a similar template: nothing is written yet. *)
Definition registerChecks {D} (rt : Runtime.t) (lib : Lib.t) (req : RegisterRequest.t)
    (s : Store.t) : step D Enrolment :=
  match registerValid lib req, RegisterRequest.userId req with
  | true, Some userId =>
      imageBuffer <~~ orRespond (RegisterRequest.file req)
                        (failure 400 "Face image is required") ;;
      user <~~ orRespond (activeUser userId s) (failure 404 "User not found") ;;
      face <~~ singleClearFace rt imageBuffer ;;
      livenessResult <~~ await (detectLiveness rt imageBuffer (Face.box face)) ;;
      _ <~~ rejectIf (negb (LivenessResult.isLive livenessResult))
              (failure 400
                 "Liveness detection failed. Please ensure you are a live person.") ;;
      faceFeatures <~~ await (extractFaceFeatures rt imageBuffer (Face.box face)) ;;
      encryptedTemplate <~~ await (encryptFaceTemplate rt faceFeatures) ;;
      let faceHash := FaceHash.generateFaceHash rt lib faceFeatures in
      let existingTemplates := templatesOf userId (Store.db s) in
      similar <~~ await (similarExists rt faceFeatures existingTemplates) ;;
      _ <~~ rejectIf similar
              (failure 400 "Similar face template already exists for this user") ;;
      Next {| targetUser := userId; face := face; livenessResult := livenessResult;
              features := faceFeatures; encryptedTemplate := encryptedTemplate;
              faceHash := faceHash; existingTemplates := existingTemplates |}
  | _, _ => Respond invalid
  end.

(** [is_primary: isPrimary || existingTemplates.length === 0] as the store
    reads it: a non-empty text of the form is what [||] yields, and the
    boolean column reads it. *)
Definition primaryColumn (lib : Lib.t) (isPrimary : option string)
    (existingTemplates : list FaceTemplate.t) : option bool :=
  if AttendanceRoutes.truthyText isPrimary
  then match isPrimary with
       | Some s => Lib.store_boolean lib s
       | None => None
       end
  else Some (Nat.eqb (List.length existingTemplates) 0).

(** [Math.round(face.confidence * 100)] *)
Definition qualityOf (rt : Runtime.t) (face : Face.t) : float :=
  Math_round rt (Face.confidence face * 100)%float.

(** From [if (isPrimary)] to the answer.  The update that unsets the other
    primary templates is committed before the insert is attempted: when the
    store rejects the insert, the catch answers 500 and the update stays.
    [newId] is the id the store draws for the row. *)
Definition registerPersist (rt : Runtime.t) (lib : Lib.t) (newId : nat)
    (req : RegisterRequest.t) (e : Enrolment) (s : Store.t)
  : Response Registered * Store.t :=
  let isPrimary := RegisterRequest.isPrimary req in
  let s1 :=
    if AttendanceRoutes.truthyText isPrimary
    then Store.with_db (unsetPrimary (targetUser e) (Store.db s)) s
    else s in
  match Store.integer (qualityOf rt (face e)),
        primaryColumn lib isPrimary (existingTemplates e) with
  | Some quality_score, Some is_primary =>
      let faceTemplate :=
        {| FaceTemplate.id := newId;
           FaceTemplate.user_id := targetUser e;
           FaceTemplate.face_encoding := encryptedTemplate e;
           FaceTemplate.face_hash := faceHash e;
           FaceTemplate.quality_score := quality_score;
           FaceTemplate.is_primary := is_primary |} in
      let s2 := Store.with_db (insertTemplate faceTemplate (Store.db s1)) s1 in
      let s3 :=
        Store.log
          {| Store.Audit.user_id := RegisterRequest.admin req;
             Store.Audit.action := "face_template_registered";
             Store.Audit.resource := Some (Store.face_template newId);
             Store.Audit.old_values := None;
             Store.Audit.new_values := Some (templateValues faceTemplate);
             Store.Audit.severity := "medium" |}
          s2 in
      ({| http_status := 201;
          success := true;
          message := Some "Face template registered successfully";
          body := Data {| id := newId;
                          userId := targetUser e;
                          qualityScore := quality_score;
                          isPrimary := is_primary |} |},
       s3)
  | _, _ => (failure 500 "Face template registration failed", s1)
  end.

Definition register (rt : Runtime.t) (lib : Lib.t) (newId : nat)
    (req : RegisterRequest.t) (s : Store.t) : Response Registered * Store.t :=
  handler "Face template registration failed" s
    (e <~~ registerChecks rt lib req s ;;
     Next (registerPersist rt lib newId req e s)).

(** *** POST /api/face-recognition/verify *)

Module VerifyRequest.
Record t : Type := mk {
  user_id : UserId;                 (* req.user.id *)
  file : option Image               (* req.file *)
}.
End VerifyRequest.

(** The [bestMatch] object of the loop. *)
Record BestMatch : Type := mkBestMatch {
  templateId : nat;
  matchSimilarity : float;
  matchIsPrimary : bool
}.

(** The loop [for (const template of faceTemplates)] of the verification. *)
Fixpoint bestTemplate (rt : Runtime.t) (faceFeatures : tensor)
    (faceTemplates : list FaceTemplate.t)
    (bestMatch : option BestMatch) (bestSimilarity : float)
  : completion (option BestMatch * float) :=
  match faceTemplates with
  | [] => Return (bestMatch, bestSimilarity)
  | template :: rest =>
      decryptedTemplate <-
        decryptFaceTemplate rt (FaceTemplate.face_encoding template) ;;
      comparison <- compareFaces faceFeatures decryptedTemplate None ;;
      if Js.gt (similarity comparison) bestSimilarity
      then bestTemplate rt faceFeatures rest
             (Some {| templateId := FaceTemplate.id template;
                      matchSimilarity := similarity comparison;
                      matchIsPrimary := FaceTemplate.is_primary template |})
             (similarity comparison)
      else bestTemplate rt faceFeatures rest bestMatch bestSimilarity
  end.

(** [bestMatch && bestSimilarity >= confidenceThreshold]: [null] when there
    is no best match, a boolean otherwise. *)
Definition isVerified (bestMatch : option BestMatch) (bestSimilarity : float)
  : option bool :=
  match bestMatch with
  | None => None
  | Some _ => Some (PrimFloat.leb AttendanceRoutes.confidenceThreshold bestSimilarity)
  end.

(** ToBoolean of that value. *)
Definition truthy (v : option bool) : bool :=
  match v with
  | Some b => b
  | None => false
  end.

Definition verifiedValue (v : option bool) : Store.Value :=
  match v with
  | Some b => Store.VBool b
  | None => Store.VNull
  end.

(** The [data] of the answer. *)
Record Verification : Type := mkVerification {
  verified : option bool;
  verifiedSimilarity : float;
  verifiedThreshold : float;
  livenessPassed : bool;
  bestMatchShown : option (nat * bool)    (* templateId, isPrimary *)
}.

(** Up to the decision: nothing is written. *)
Definition verifyMatch {D} (rt : Runtime.t) (req : VerifyRequest.t) (s : Store.t)
  : step D (LivenessResult.t * (option BestMatch * float)) :=
  imageBuffer <~~ orRespond (VerifyRequest.file req)
                    (failure 400 "Face image is required") ;;
  faces <~~ await (detectFaces rt imageBuffer) ;;
  match faces with
  | [] => Respond (failure 400 "No face detected in the image")
  | face :: _ =>
      livenessResult <~~ await (detectLiveness rt imageBuffer (Face.box face)) ;;
      _ <~~ rejectIf (negb (LivenessResult.isLive livenessResult))
              (failure 400 "Liveness detection failed") ;;
      faceFeatures <~~ await (extractFaceFeatures rt imageBuffer (Face.box face)) ;;
      let faceTemplates := templatesOf (VerifyRequest.user_id req) (Store.db s) in
      _ <~~ rejectIf (Nat.eqb (List.length faceTemplates) 0)
              (failure 400 "No face templates found for this user") ;;
      best <~~ await (bestTemplate rt faceFeatures faceTemplates None 0%float) ;;
      Next (livenessResult, best)
  end.

(** The audit row and the answer. *)
Definition verifyAnswer (req : VerifyRequest.t) (livenessResult : LivenessResult.t)
    (bestMatch : option BestMatch) (bestSimilarity : float) (s : Store.t)
  : Response Verification * Store.t :=
  let confidenceThreshold := AttendanceRoutes.confidenceThreshold in
  let isVerified := isVerified bestMatch bestSimilarity in
  let s1 :=
    Store.log
      {| Store.Audit.user_id := VerifyRequest.user_id req;
         Store.Audit.action := "face_verification";
         Store.Audit.resource := None;
         Store.Audit.old_values := None;
         Store.Audit.new_values :=
           Some [ ("similarity", Store.VNumber bestSimilarity);
                  ("threshold", Store.VNumber confidenceThreshold);
                  ("verified", verifiedValue isVerified);
                  ("liveness_passed",
                   Store.VBool (LivenessResult.isLive livenessResult)) ];
         Store.Audit.severity := "low" |}
      s in
  ({| http_status := 200;
      success := true;
      message := Some (if truthy isVerified then "Face verification successful"
                       else "Face verification failed");
      body := Data {| verified := isVerified;
                      verifiedSimilarity := bestSimilarity;
                      verifiedThreshold := confidenceThreshold;
                      livenessPassed := LivenessResult.isLive livenessResult;
                      bestMatchShown :=
                        option_map (fun m => (templateId m, matchIsPrimary m))
                                   bestMatch |} |},
   s1).

Definition verify (rt : Runtime.t) (req : VerifyRequest.t) (s : Store.t)
  : Response Verification * Store.t :=
  handler "Face verification failed" s
    (found <~~ verifyMatch rt req s ;;
     Next (verifyAnswer req (fst found) (fst (snd found)) (snd (snd found)) s)).

(** *** DELETE /api/face-recognition/templates/:templateId *)

Module TemplateRequest.
Record t : Type := mk {
  admin : UserId;                   (* req.user.id *)
  templateId : option nat           (* req.params.templateId *)
}.
End TemplateRequest.

Definition deleteTemplate (req : TemplateRequest.t) (s : Store.t)
  : Response unit * Store.t :=
  handler "Failed to delete face template" s
    (templateId <~~ query (TemplateRequest.templateId req) ;;
     template <~~ orRespond (templateById templateId (Store.db s))
                    (failure 404 "Face template not found") ;;
     let s1 := Store.with_db (deleteById templateId (Store.db s)) s in
     let s2 :=
       Store.log
         {| Store.Audit.user_id := TemplateRequest.admin req;
            Store.Audit.action := "face_template_deleted";
            Store.Audit.resource := Some (Store.face_template templateId);
            Store.Audit.old_values := Some (templateValues template);
            Store.Audit.new_values := None;
            Store.Audit.severity := "medium" |}
         s1 in
     Next ({| http_status := 200;
              success := true;
              message := Some "Face template deleted successfully";
              body := Empty |},
           s2)).

(** *** PUT /api/face-recognition/templates/:templateId/primary *)

Definition setPrimary (req : TemplateRequest.t) (s : Store.t)
  : Response unit * Store.t :=
  handler "Failed to set primary face template" s
    (templateId <~~ query (TemplateRequest.templateId req) ;;
     template <~~ orRespond (templateById templateId (Store.db s))
                    (failure 404 "Face template not found") ;;
     let db1 := unsetPrimary (FaceTemplate.user_id template) (Store.db s) in
     let db2 := markPrimary templateId db1 in
     let s2 :=
       Store.log
         {| Store.Audit.user_id := TemplateRequest.admin req;
            Store.Audit.action := "face_template_set_primary";
            Store.Audit.resource := Some (Store.face_template templateId);
            Store.Audit.old_values := None;
            Store.Audit.new_values :=
              Some [ ("user_id", Store.VText (FaceTemplate.user_id template));
                     ("is_primary", Store.VBool true) ];
            Store.Audit.severity := "low" |}
         (Store.with_db db2 s) in
     Next ({| http_status := 200;
              success := true;
              message := Some "Face template set as primary successfully";
              body := Empty |},
           s2)).

End FaceRoutes.

(* ------------------------------------------------------------------ *)
(** ** backend/src/routes/attendanceRoutes.js, the admin routes: the two
    decisions on an attendance record *)

Module AdminRoutes.

Import Db.
Import Http.

Local Open Scope string_scope.

Definition with_records (records : list AttendanceRecord.t) (db : Db.t) : Db.t :=
  {| attendance_records := records;
     face_templates := face_templates db;
     work_schedules := work_schedules db;
     audit_logs := audit_logs db |}.

(** The row with [status] and [rejection_reason] overwritten. *)
Definition decided (status : Status) (rejection_reason : option string)
    (r : AttendanceRecord.t) : AttendanceRecord.t :=
  {| AttendanceRecord.id := AttendanceRecord.id r;
     AttendanceRecord.user_id := AttendanceRecord.user_id r;
     AttendanceRecord.type := AttendanceRecord.type r;
     AttendanceRecord.timestamp := AttendanceRecord.timestamp r;
     AttendanceRecord.latitude := AttendanceRecord.latitude r;
     AttendanceRecord.longitude := AttendanceRecord.longitude r;
     AttendanceRecord.location_address := AttendanceRecord.location_address r;
     AttendanceRecord.accuracy := AttendanceRecord.accuracy r;
     AttendanceRecord.confidence_score := AttendanceRecord.confidence_score r;
     AttendanceRecord.liveness_passed := AttendanceRecord.liveness_passed r;
     AttendanceRecord.liveness_data := AttendanceRecord.liveness_data r;
     AttendanceRecord.status := status;
     AttendanceRecord.rejection_reason := rejection_reason;
     AttendanceRecord.device_info := AttendanceRecord.device_info r;
     AttendanceRecord.is_offline := AttendanceRecord.is_offline r |}.

(** [db('attendance_records').where('id', id).first()] *)
Definition recordById (id : nat) (db : Db.t) : option AttendanceRecord.t :=
  find (fun r => Nat.eqb (AttendanceRecord.id r) id) (attendance_records db).

(** [db('attendance_records').where('id', id)
      .update({ status, approved_by, approved_at, rejection_reason })] *)
Definition decide (id : nat) (status : Status) (rejection_reason : option string)
    (approved_by : UserId) (approved_at : Z) (s : Store.t) : Store.t :=
  {| Store.db :=
       with_records
         (map (fun r => if Nat.eqb (AttendanceRecord.id r) id
                        then decided status rejection_reason r else r)
              (attendance_records (Store.db s)))
         (Store.db s);
     Store.users := Store.users s;
     Store.reviews :=
       (id, {| Store.Review.approved_by := approved_by;
               Store.Review.approved_at := approved_at |})
       :: filter (fun entry => negb (Nat.eqb (fst entry) id)) (Store.reviews s);
     Store.audit := Store.audit s |}.

(** An administrator's request about one record; [now] below is what
    [new Date()] reads for [approved_at]. *)
Module ReviewRequest.
Record t : Type := mk {
  admin : UserId;                   (* req.user.id *)
  id : option nat;                  (* req.params.id *)
  reason : option string            (* req.body.reason *)
}.
End ReviewRequest.

(** [{ status, reason }]: a key whose value is [undefined] is not written. *)
Definition decisionValues (status : Status) (reason : option string) : Store.Values :=
  ("status", Store.VStatus status)
  :: match reason with
     | Some text => [("reason", Store.VText text)]
     | None => []
     end.

Definition reviewLog (req : ReviewRequest.t) (action : string) (id : nat)
    (record : AttendanceRecord.t) (status : Status) : Store.Audit.t :=
  {| Store.Audit.user_id := ReviewRequest.admin req;
     Store.Audit.action := action;
     Store.Audit.resource := Some (Store.attendance_record id);
     Store.Audit.old_values :=
       Some [("status", Store.VStatus (AttendanceRecord.status record))];
     Store.Audit.new_values := Some (decisionValues status (ReviewRequest.reason req));
     Store.Audit.severity := "medium" |}.

(** *** PUT /api/admin/attendance/:id/approve *)
Definition approve (now : Z) (req : ReviewRequest.t) (s : Store.t)
  : Response unit * Store.t :=
  handler "Failed to approve attendance record" s
    (id <~~ query (ReviewRequest.id req) ;;
     record <~~ orRespond (recordById id (Store.db s))
                  (failure 404 "Attendance record not found") ;;
     let s1 := decide id approved None (ReviewRequest.admin req) now s in
     let s2 := Store.log (reviewLog req "attendance_approved" id record approved) s1 in
     Next ({| http_status := 200;
              success := true;
              message := Some "Attendance record approved successfully";
              body := Empty |},
           s2)).

(** [body('reason').notEmpty()] *)
Definition rejectValid (req : ReviewRequest.t) : bool :=
  AttendanceRoutes.truthyText (ReviewRequest.reason req).

(** *** PUT /api/admin/attendance/:id/reject *)
Definition reject (now : Z) (req : ReviewRequest.t) (s : Store.t)
  : Response unit * Store.t :=
  handler "Failed to reject attendance record" s
    (_ <~~ rejectIf (negb (rejectValid req)) invalid ;;
     id <~~ query (ReviewRequest.id req) ;;
     record <~~ orRespond (recordById id (Store.db s))
                  (failure 404 "Attendance record not found") ;;
     let s1 := decide id rejected (ReviewRequest.reason req)
                 (ReviewRequest.admin req) now s in
     let s2 := Store.log (reviewLog req "attendance_rejected" id record rejected) s1 in
     Next ({| http_status := 200;
              success := true;
              message := Some "Attendance record rejected successfully";
              body := Empty |},
           s2)).

(** The two attendance handlers on the larger store. *)
Definition checkIn (rt : Runtime.t) (now scheduleNow : Z)
    (req : AttendanceRoutes.Request.t) (s : Store.t)
  : AttendanceRoutes.Response * Store.t :=
  let out := AttendanceRoutes.checkIn rt now scheduleNow req (Store.db s) in
  (fst out, Store.with_db (snd out) s).

Definition checkOut (rt : Runtime.t) (now : Z)
    (req : AttendanceRoutes.Request.t) (s : Store.t)
  : AttendanceRoutes.Response * Store.t :=
  let out := AttendanceRoutes.checkOut rt now req (Store.db s) in
  (fst out, Store.with_db (snd out) s).

End AdminRoutes.

(* ------------------------------------------------------------------ *)
(** ** backend/src/routes/attendanceRoutes.js: GET /api/attendance/today, and the use
    the mobile screen makes of its answer *)

Module AttendanceQueries.

Import Runtime.
Import Db.
Import Http.

Local Open Scope string_scope.

(** [.orderBy('timestamp', 'asc')]; rows at the same instant keep the order
    of the table. *)
Fixpoint insertByTimestamp (r : AttendanceRecord.t) (sorted : list AttendanceRecord.t)
  : list AttendanceRecord.t :=
  match sorted with
  | [] => [r]
  | r' :: rest =>
      if (AttendanceRecord.timestamp r' <=? AttendanceRecord.timestamp r)%Z
      then r' :: insertByTimestamp r rest
      else r :: sorted
  end.

Definition orderByTimestamp (rows : list AttendanceRecord.t) : list AttendanceRecord.t :=
  fold_left (fun sorted r => insertByTimestamp r sorted) rows [].

(** [db('attendance_records').where('user_id', userId)
      .whereBetween('timestamp', [todayStart, todayEnd])
      .orderBy('timestamp', 'asc')] *)
Definition todayRecords (rt : Runtime.t) (now : Z) (userId : UserId) (db : Db.t)
  : list AttendanceRecord.t :=
  orderByTimestamp
    (filter (fun r =>
               String.eqb (AttendanceRecord.user_id r) userId
               && ((AttendanceRoutes.todayStart rt now <=? AttendanceRecord.timestamp r)%Z
                   && (AttendanceRecord.timestamp r <=? AttendanceRoutes.todayEnd rt now)%Z))
            (attendance_records db)).

(** [record.type === ty && record.status === 'approved'] *)
Definition approvedOfType (ty : RecordType) (r : AttendanceRecord.t) : bool :=
  RecordType_eqb (AttendanceRecord.type r) ty
  && Status_eqb (AttendanceRecord.status r) approved.

(** What the answer shows of a record. *)
Record Mark : Type := mkMark {
  timestamp : Z;
  latitude : float;
  longitude : float;
  address : option string
}.

Definition mark (r : AttendanceRecord.t) : Mark :=
  {| timestamp := AttendanceRecord.timestamp r;
     latitude := AttendanceRecord.latitude r;
     longitude := AttendanceRecord.longitude r;
     address := AttendanceRecord.location_address r |}.

Inductive DayStatus : Type := completed | checked_in | not_checked_in.

(** The [data] of the answer. *)
Record Today : Type := mkToday {
  checkIn : option Mark;
  checkOut : option Mark;
  status : DayStatus
}.

Definition today (rt : Runtime.t) (now : Z) (userId : UserId) (db : Db.t)
  : Response Today :=
  let todayRecords := todayRecords rt now userId db in
  let checkIn := find (approvedOfType check_in) todayRecords in
  let checkOut := find (approvedOfType check_out) todayRecords in
  {| http_status := 200;
     success := true;
     message := None;
     body := Data {| checkIn := option_map mark checkIn;
                     checkOut := option_map mark checkOut;
                     status := match checkIn, checkOut with
                               | Some _, Some _ => completed
                               | Some _, None => checked_in
                               | None, _ => not_checked_in
                               end |} |}.

(** mobile/src/screens/AttendanceScreen.js, on the [todayAttendance] the
    screen loaded from that answer:
    [todayAttendance.checkIn ? 'check_out' : 'check_in'] and
    [isAttendanceComplete]. *)
Definition attendanceType (todayAttendance : Today) : RecordType :=
  match checkIn todayAttendance with
  | Some _ => check_out
  | None => check_in
  end.

Definition isAttendanceComplete (todayAttendance : Today) : bool :=
  match checkIn todayAttendance, checkOut todayAttendance with
  | Some _, Some _ => true
  | _, _ => false
  end.

End AttendanceQueries.

(* ------------------------------------------------------------------ *)
(** ** backend/src/routes/attendanceRoutes.js, the analytics routes *)

Module Analytics.

Import Runtime.
Import Db.

Local Open Scope Z_scope.

(** A [Date]: the instant it holds, or [None] for an Invalid Date (every
    comparison with one is false). *)
Definition Date := option Z.

(** [date.getDay()], 0 for Sunday; day 0 of the epoch was a Thursday. *)
Definition getDay (rt : Runtime.t) (instant : Z) : Z :=
  (AttendanceRoutes.dayOf rt instant + 4) mod 7.

(** [date.getHours()] *)
Definition getHours (rt : Runtime.t) (instant : Z) : Z :=
  ((instant + timezoneOffset rt) mod AttendanceRoutes.msPerDay) / 3600000.

(** [dayOfWeek >= 1 && dayOfWeek <= 5] *)
Definition isWeekday (dayOfWeek : Z) : bool := (1 <=? dayOfWeek) && (dayOfWeek <=? 5).

(** The loop [while (current <= endDate)] of [calculateWorkingDays], run for
    at most [fuel] tests of its condition; [current.setDate(current.getDate()
    + 1)] moves [current] to the same local time on the next day. *)
Fixpoint countWorkingDays (fuel : nat) (rt : Runtime.t) (current endDate : Z) (count : Z)
  : option Z :=
  match fuel with
  | O => None
  | S fuel' =>
      if current <=? endDate then
        let dayOfWeek := getDay rt current in
        let count' := if isWeekday dayOfWeek then count + 1 else count in
        countWorkingDays fuel' rt (current + AttendanceRoutes.msPerDay) endDate count'
      else Some count
  end.

(** [function calculateWorkingDays(startDate, endDate)] *)
Definition calculateWorkingDays (fuel : nat) (rt : Runtime.t) (startDate endDate : Date)
  : option Z :=
  match startDate, endDate with
  | Some start, Some finish => countWorkingDays fuel rt start finish 0
  | _, _ => Some 0
  end.

(** How often the loop tests its condition between two valid dates. *)
Definition testsNeeded (start finish : Z) : nat :=
  if start <=? finish
  then Z.to_nat ((finish - start) / AttendanceRoutes.msPerDay + 2)
  else 1%nat.

(** [startDate ? new Date(startDate) : new Date(end.getTime() - 30 * 24 * 60
    * 60 * 1000)], when no start date is given. *)
Definition defaultStart (finish : Z) : Z := finish - 30 * 24 * 60 * 60 * 1000.

(** *** GET /api/analytics/attendance-trends, from the rows of its query *)

(** A selected row: [timestamp], [type], [users.department], [user_id]. *)
Record Row : Type := mkRow {
  timestamp : Z;
  type : RecordType;
  department : string;
  user_id : UserId
}.

(** [{ checkIns, checkOuts }] *)
Record Counts : Type := mkCounts { checkIns : nat; checkOuts : nat }.

(** [counts[record.type === 'check_in' ? 'checkIns' : 'checkOuts']++] *)
Definition bump (ty : RecordType) (c : Counts) : Counts :=
  match ty with
  | check_in => {| checkIns := S (checkIns c); checkOuts := checkOuts c |}
  | check_out => {| checkIns := checkIns c; checkOuts := S (checkOuts c) |}
  end.

Definition noCounts : Counts := {| checkIns := 0; checkOuts := 0 |}.

(** An object used as a map, as the list of its own entries in the order
    its keys were created: [if (!data[key]) data[key] = { checkIns: 0,
    checkOuts: 0 }; data[key][...]++]. *)
Section Tally.

Variable K : Type.
Variable eqb : K -> K -> bool.

Fixpoint tally (key : K) (ty : RecordType) (data : list (K * Counts))
  : list (K * Counts) :=
  match data with
  | [] => [(key, bump ty noCounts)]
  | (k, c) :: rest =>
      if eqb k key then (k, bump ty c) :: rest
      else (k, c) :: tally key ty rest
  end.

End Tally.

Arguments tally {K} eqb key ty data.

Local Open Scope string_scope.

(** The names every object inherits from [Object.prototype].  Under such a
    key [data[key]] is the inherited value, which is truthy: no entry is
    created, and the increment lands on the inherited value. *)
Definition inherited (key : string) : bool :=
  existsb (String.eqb key)
    [ "constructor"; "__defineGetter__"; "__defineSetter__"; "hasOwnProperty";
      "__lookupGetter__"; "__lookupSetter__"; "isPrototypeOf";
      "propertyIsEnumerable"; "toString"; "valueOf"; "__proto__";
      "toLocaleString" ].

Definition tallyNamed (key : string) (ty : RecordType) (data : list (string * Counts))
  : list (string * Counts) :=
  if inherited key then data else tally String.eqb key ty data.

Local Open Scope Z_scope.

(** [record.timestamp.toISOString().split('T')[0]]: the UTC date, held as
    the number of its day. *)
Definition isoDate (instant : Z) : Z := instant / AttendanceRoutes.msPerDay.

(** The four objects the [forEach] fills; a date or an hour is never an
    inherited name. *)
Record Tallies : Type := mkTallies {
  dailyData : list (Z * Counts);
  hourlyData : list (Z * Counts);
  departmentData : list (string * Counts);
  userData : list (UserId * Counts)
}.

Definition process (rt : Runtime.t) (t : Tallies) (record : Row) : Tallies :=
  let date := isoDate (timestamp record) in
  let hour := getHours rt (timestamp record) in
  {| dailyData := tally Z.eqb date (type record) (dailyData t);
     hourlyData := tally Z.eqb hour (type record) (hourlyData t);
     departmentData := tallyNamed (department record) (type record) (departmentData t);
     userData := tallyNamed (user_id record) (type record) (userData t) |}.

Definition tallies (rt : Runtime.t) (records : list Row) : Tallies :=
  fold_left (process rt) records
    {| dailyData := []; hourlyData := []; departmentData := []; userData := [] |}.

(** [Object.keys] lists the keys that are array indices first, in ascending
    order, then the other keys in the order of their creation.  The hours are
    array indices, the dates are not. *)
Fixpoint insertByKey {C} (entry : Z * C) (sorted : list (Z * C)) : list (Z * C) :=
  match sorted with
  | [] => [entry]
  | e :: rest =>
      if fst e <=? fst entry then e :: insertByKey entry rest
      else entry :: sorted
  end.

Definition ascending {C} (data : list (Z * C)) : list (Z * C) :=
  fold_left (fun sorted entry => insertByKey entry sorted) data [].

(** The array index a key denotes: the canonical decimal text of an integer
    below [2^32 - 1]. *)
Definition arrayIndex (key : string) : option Z :=
  match NilZero.uint_of_string key with
  | Some digits =>
      let n := N.of_uint digits in
      if String.eqb (NilZero.string_of_uint (N.to_uint n)) key
         && (n <? 4294967295)%N
      then Some (Z.of_N n) else None
  | None => None
  end.

Definition indexed {C} (entry : string * C) : option (Z * (string * C)) :=
  option_map (fun i => (i, entry)) (arrayIndex (fst entry)).

Fixpoint indexedEntries {C} (data : list (string * C)) : list (Z * (string * C)) :=
  match data with
  | [] => []
  | entry :: rest =>
      match indexed entry with
      | Some e => e :: indexedEntries rest
      | None => indexedEntries rest
      end
  end.

(** The entries of an object keyed by names, in the order of [Object.keys]. *)
Definition ownEntries {C} (data : list (string * C)) : list (string * C) :=
  map snd (ascending (indexedEntries data))
  ++ filter (fun entry => match arrayIndex (fst entry) with
                          | Some _ => false
                          | None => true
                          end) data.

(** The [summary] of the answer, without the echoed date range. *)
Record Summary : Type := mkSummary {
  totalCheckIns : nat;
  totalCheckOuts : nat;
  uniqueUsers : nat
}.

Definition isType (ty : RecordType) (record : Row) : bool :=
  RecordType_eqb (type record) ty.

(** The [data] of the answer. *)
Record Trends : Type := mkTrends {
  dailyTrends : list (Z * Counts);
  hourlyTrends : list (Z * Counts);
  departmentTrends : list (string * Counts);
  summary : Summary
}.

Definition trends (rt : Runtime.t) (records : list Row) : Trends :=
  let t := tallies rt records in
  {| dailyTrends := dailyData t;
     hourlyTrends := ascending (hourlyData t);
     departmentTrends := ownEntries (departmentData t);
     summary :=
       {| totalCheckIns := List.length (filter (isType check_in) records);
          totalCheckOuts := List.length (filter (isType check_out) records);
          uniqueUsers := List.length (userData t) |} |}.

End Analytics.

(* ------------------------------------------------------------------ *)
(** ** mobile/src/services/api.js and mobile/src/store/attendanceStore.js *)

Module Mobile.

Local Open Scope string_scope.
Local Open Scope list_scope.

(** *** [apiUtils.retryRequest(requestFn, maxRetries = 3, delay = 1000)] *)

(** How one call of [requestFn] ends. *)
Inductive Attempt (A E : Type) : Type :=
| Resolved (a : A)
| Rejected (e : E).
Arguments Resolved {A E} a.
Arguments Rejected {A E} e.

(** How [retryRequest] ends: it returns, or throws [lastError], which is
    [undefined] when no call was made. *)
Inductive Outcome (A E : Type) : Type :=
| Returned (a : A)
| Threw (lastError : option E).
Arguments Returned {A E} a.
Arguments Threw {A E} lastError.

(** What a run did: the calls it made and the waits it took, in order. *)
Record Run (A E : Type) : Type := mkRun {
  outcome : Outcome A E;
  calls : nat;
  waits : list Z
}.
Arguments mkRun {A E}.
Arguments outcome {A E}.
Arguments calls {A E}.
Arguments waits {A E}.

(** The [for] loop from [i], with [remaining] iterations left before
    [i < maxRetries] fails; [requestFn k] is how the call number [k] ends. *)
Fixpoint retryFrom {A E} (requestFn : nat -> Attempt A E) (maxRetries delay : Z)
    (remaining : nat) (i : nat) (lastError : option E) (waited : list Z) : Run A E :=
  match remaining with
  | O => {| outcome := Threw lastError; calls := i; waits := waited |}
  | S remaining' =>
      match requestFn i with
      | Resolved a => {| outcome := Returned a; calls := S i; waits := waited |}
      | Rejected error =>
          let waited' :=
            if (Z.of_nat i <? maxRetries - 1)%Z
            then (waited ++ [delay * (Z.of_nat i + 1)])%list%Z
            else waited in
          retryFrom requestFn maxRetries delay remaining' (S i) (Some error) waited'
      end
  end.

Definition retryRequest {A E} (requestFn : nat -> Attempt A E) (maxRetries delay : Z)
  : Run A E :=
  retryFrom requestFn maxRetries delay (Z.to_nat maxRetries) 0 None [].

(** *** The offline queue of the attendance store *)

(** A queued record, with the fields [syncOfflineRecords] reads. *)
Record OfflineRecord : Type := mkOffline {
  id : string;
  type : string;
  photoUri : option string;
  latitude : option float;
  longitude : option float;
  accuracy : option float;
  locationAddress : option string;
  deviceInfo : option string
}.

(** The part of the store the queue operations touch. *)
Record AttendanceStore : Type := mkStore {
  offlineRecords : list OfflineRecord;
  isLoading : bool
}.

(** [addOfflineRecord], [removeOfflineRecord] and [clearOfflineRecords] *)
Definition addOfflineRecord (record : OfflineRecord) (store : AttendanceStore)
  : AttendanceStore :=
  {| offlineRecords := offlineRecords store ++ [record];
     isLoading := isLoading store |}.

Definition removeOfflineRecord (recordId : string) (store : AttendanceStore)
  : AttendanceStore :=
  {| offlineRecords :=
       filter (fun record => negb (String.eqb (id record) recordId))
              (offlineRecords store);
     isLoading := isLoading store |}.

Definition clearOfflineRecords (store : AttendanceStore) : AttendanceStore :=
  {| offlineRecords := []; isLoading := isLoading store |}.

(** An entry of [results]. *)
Record SyncResult : Type := mkSyncResult {
  resultId : string;
  resultSuccess : bool;
  resultError : option string
}.

(** What the [try] block of the loop does with a record, short of touching
    the queue: it builds the form and awaits [attendanceAPI.markAttendance],
    which resolves with the [{ success, message }] of the server or throws an
    [Error] with a message.  [S] is the state of what lies behind the call. *)
Definition Api (S : Type) : Type :=
  OfflineRecord -> S -> Attempt (bool * option string) string * S.

(** The body of [for (const record of offlineRecords)]. *)
Definition syncOne {S} (api : Api S) (record : OfflineRecord)
    (state : AttendanceStore * list SyncResult * S)
  : AttendanceStore * list SyncResult * S :=
  let '(store, results, server) := state in
  let (response, server') := api record server in
  match response with
  | Resolved (true, _) =>
      (removeOfflineRecord (id record) store,
       results ++ [{| resultId := id record; resultSuccess := true;
                      resultError := None |}],
       server')
  | Resolved (false, message) =>
      (store,
       results ++ [{| resultId := id record; resultSuccess := false;
                      resultError := message |}],
       server')
  | Rejected message =>
      (store,
       results ++ [{| resultId := id record; resultSuccess := false;
                      resultError := Some message |}],
       server')
  end.

(** What [syncOfflineRecords] returns: [{ success: true, message: 'No
    offline records to sync' }], or [{ success: true, message: `Synced
    ${successCount}/${totalCount} records`, results }]. *)
Inductive Report : Type :=
| NothingToSync
| Synced (successCount totalCount : nat) (results : list SyncResult).

(** [syncOfflineRecords]: the loop runs over the queue as it was when the
    call began. *)
Definition syncOfflineRecords {S} (api : Api S) (store : AttendanceStore) (server : S)
  : Report * AttendanceStore * S :=
  match offlineRecords store with
  | [] => (NothingToSync, store, server)
  | queue =>
      let loading := {| offlineRecords := offlineRecords store; isLoading := true |} in
      let '(store', results, server') :=
        fold_left (fun state record => syncOne api record state) queue
                  (loading, [], server) in
      (Synced (List.length (filter resultSuccess results)) (List.length results) results,
       {| offlineRecords := offlineRecords store'; isLoading := false |},
       server')
  end.

End Mobile.

(* ------------------------------------------------------------------ *)
(** ** Vocabulary of the properties of the other routes *)

Module Vocabulary.

Import Db.

Local Open Scope string_scope.
Local Open Scope Z_scope.

(** The days the loop of [calculateWorkingDays] visits between two valid
    dates: [start], and every later day at the same local time up to
    [finish]. *)
Definition daysVisited (start finish : Z) : Z :=
  if start <=? finish then (finish - start) / AttendanceRoutes.msPerDay + 1 else 0.

(** The weekdays among [n] consecutive days from [instant] on. *)
Fixpoint weekdaysFrom (rt : Runtime.t) (instant : Z) (n : nat) : Z :=
  match n with
  | O => 0
  | S n' =>
      (if Analytics.isWeekday (Analytics.getDay rt instant) then 1 else 0)
      + weekdaysFrom rt (instant + AttendanceRoutes.msPerDay) n'
  end.

(** The rule the face routes keep on [face_templates]: the ids are
    distinct, and a user has at most one primary template. *)
Definition distinctIds (db : Db.t) : Prop :=
  NoDup (map FaceTemplate.id (face_templates db)).

Definition onePrimaryPerUser (db : Db.t) : Prop :=
  forall userId : UserId,
    (List.length (AttendanceRoutes.loadTemplates userId db) <= 1)%nat.

(** What the match step of the check-in answers when the only template it
    loaded compares at similarity [v] with the submitted features. *)
Definition matchAnswer (v : float) : AttendanceRoutes.step float :=
  if Js.gt v 0%float
  then if Js.lt v 0.8%float
       then AttendanceRoutes.Respond
              (AttendanceRoutes.failure 400 "Face recognition failed. Please try again."
                 (AttendanceRoutes.RecognitionDetails v 0.8%float))
       else AttendanceRoutes.Next v
  else AttendanceRoutes.Respond
         (AttendanceRoutes.failure 400 "Face recognition failed. Please try again."
            (AttendanceRoutes.RecognitionDetails 0%float 0.8%float)).

(** The similarity a loop over stored templates computes between the
    submitted features and one of them: decrypt, then compare. *)
Definition similarityTo (rt : Runtime.t) (faceFeatures : Tf.tensor)
    (template : FaceTemplate.t) : Js.completion float :=
  match FaceRecognitionService.decryptFaceTemplate rt
          (FaceTemplate.face_encoding template) with
  | Js.Return decrypted =>
      match FaceRecognitionService.compareFaces faceFeatures decrypted None with
      | Js.Return comparison => Js.Return (FaceRecognitionService.similarity comparison)
      | Js.Throw e => Js.Throw e
      end
  | Js.Throw e => Js.Throw e
  end.

(** The check-ins and the check-outs a list of chart entries adds up to. *)
Definition checkInsOf {K : Type} (entries : list (K * Analytics.Counts)) : nat :=
  fold_right (fun entry n => (Analytics.checkIns (snd entry) + n)%nat) O entries.

Definition checkOutsOf {K : Type} (entries : list (K * Analytics.Counts)) : nat :=
  fold_right (fun entry n => (Analytics.checkOuts (snd entry) + n)%nat) O entries.

(** The records of a type whose department the chart can hold. *)
Definition chartable (ty : RecordType) (record : Analytics.Row) : bool :=
  Analytics.isType ty record && negb (Analytics.inherited (Analytics.department record)).

(** How a handler of the other routes leaves the audit trail of [s]: a
    success appends one row, written in the name of [who]; any other answer
    appends none. *)
Definition audited {D : Type} (out : Http.Response D * Store.t) (who : UserId)
    (s : Store.t) : Prop :=
  if Http.success (fst out)
  then exists entry,
         Store.audit (snd out) = (Store.audit s ++ [entry])%list
         /\ Store.Audit.user_id entry = who
  else Store.audit (snd out) = Store.audit s.

(** An early answer of a step of the other routes is always a refusal. *)
Definition declining {D A : Type} (s : Http.step D A) : Prop :=
  forall r, s = Http.Respond r -> Http.success r = false.

End Vocabulary.

(* ------------------------------------------------------------------ *)
(** ** Worked cases for the other routes, on the deterministic runtime *)

Module Cases.

Import Tf.
Import FaceRecognitionService.
Import Runtime.
Import Db.
Import Scenario.

Local Open Scope string_scope.

Definition aliceUser : Store.User.t :=
  {| Store.User.id := alice;
     Store.User.employee_id := "E-1";
     Store.User.department := "Research";
     Store.User.role := Store.User.employee;
     Store.User.status := Store.User.active |}.

(** The larger store around [db], with [alice] as its only user. *)
Definition world (db : Db.t) : Store.t :=
  {| Store.db := db;
     Store.users := [aliceUser];
     Store.reviews := [];
     Store.audit := [] |}.

(** A check-in of [alice] stored at [instant] under [id] with [status]. *)
Definition checkInOf (id : nat) (status : Status) (instant : Z) : AttendanceRecord.t :=
  {| AttendanceRecord.id := id;
     AttendanceRecord.user_id := alice;
     AttendanceRecord.type := check_in;
     AttendanceRecord.timestamp := instant;
     AttendanceRecord.latitude := 0;
     AttendanceRecord.longitude := 0;
     AttendanceRecord.location_address := None;
     AttendanceRecord.accuracy := None;
     AttendanceRecord.confidence_score := 1;
     AttendanceRecord.liveness_passed := true;
     AttendanceRecord.liveness_data := live;
     AttendanceRecord.status := status;
     AttendanceRecord.rejection_reason := None;
     AttendanceRecord.device_info := None;
     AttendanceRecord.is_offline := false |}.

(** An approved check-in and a flagged one, at the same instant. *)
Definition twoCheckIns : Store.t :=
  world (store [enrolled 0 probe true] [] [checkInOf 0 approved 1000;
                                            checkInOf 1 flagged 1000]).

(** One flagged check-in. *)
Definition oneFlagged : Store.t :=
  world (store [enrolled 0 probe true] [] [checkInOf 0 flagged 1000]).

(** One approved check-in. *)
Definition oneApproved : Store.t :=
  world (store [enrolled 0 probe true] [] [checkInOf 0 approved 1000]).

(** An administrator's decision on the record [id]. *)
Definition review (id : nat) (reason : option string) : AdminRoutes.ReviewRequest.t :=
  {| AdminRoutes.ReviewRequest.admin := "root";
     AdminRoutes.ReviewRequest.id := Some id;
     AdminRoutes.ReviewRequest.reason := reason |}.

(** The libraries of the other routes: a keyed stand-in for the hash, the
    four texts [isBoolean] accepts, and what the store reads them as. *)
Definition lib : Lib.t :=
  {| Lib.sha256_hex := fun text => "sha256:" ++ text;
     Lib.isUUID := fun text => negb (String.eqb text "");
     Lib.isBoolean := fun text =>
       existsb (String.eqb text) ["true"; "false"; "1"; "0"];
     Lib.store_boolean := fun text =>
       if existsb (String.eqb text) ["true"; "1"] then Some true
       else if existsb (String.eqb text) ["false"; "0"] then Some false
       else None |}.

(** A registration of [alice] from [image], with the [isPrimary] field of
    the form. *)
Definition registration (image : string) (isPrimary : option string)
  : FaceRoutes.RegisterRequest.t :=
  {| FaceRoutes.RegisterRequest.admin := "root";
     FaceRoutes.RegisterRequest.file := Some image;
     FaceRoutes.RegisterRequest.userId := Some alice;
     FaceRoutes.RegisterRequest.isPrimary := isPrimary |}.

(** No template yet; one primary template; a primary and a second one. *)
Definition noTemplate : Store.t := world (store [] [] []).

Definition onePrimary : Store.t := world (store [enrolled 0 probe true] [] []).

Definition primaryAndSecond : Store.t :=
  world (store [enrolled 0 probe true; enrolled 1 [0; 1; 0; 0; 0]%float false] [] []).

(** An administrator's request about the template [id]. *)
Definition aboutTemplate (id : nat) : FaceRoutes.TemplateRequest.t :=
  {| FaceRoutes.TemplateRequest.admin := "root";
     FaceRoutes.TemplateRequest.templateId := Some id |}.

(** A face at a right angle to [probe], and the image carrying it. *)
Definition other : tensor := [0; 0; 1; 0; 0]%float.
Definition otherImage : string := "[0,0,1,0,0]".

(** A record queued twice under one id on the mobile client, and a server
    that accepts the first submission it gets and is out of reach after
    that; its state is the number of submissions it has seen. *)
Definition queued (id : string) : Mobile.OfflineRecord :=
  {| Mobile.id := id;
     Mobile.type := "check_in";
     Mobile.photoUri := Some "file:///face.jpg";
     Mobile.latitude := Some 0%float;
     Mobile.longitude := Some 0%float;
     Mobile.accuracy := None;
     Mobile.locationAddress := None;
     Mobile.deviceInfo := None |}.

Definition queuedTwice : Mobile.AttendanceStore :=
  {| Mobile.offlineRecords := [queued "1700000000000"; queued "1700000000000"];
     Mobile.isLoading := false |}.

Definition firstOnly : Mobile.Api nat :=
  fun _ seen =>
    (match seen with
     | O => Mobile.Resolved (true, None)
     | S _ => Mobile.Rejected "Attendance marking failed"
     end,
     S seen).

End Cases.

(* ------------------------------------------------------------------ *)
(** ** Facts about binary64 arithmetic *)

Module FloatFacts.

Lemma mul_comm (a b : float) : (a * b = b * a)%float.
Proof.
  apply Prim2SF_inj. rewrite !mul_spec. unfold SF64mul, SFmul.
  destruct (Prim2SF a) as [sa| sa| |sa ma ea], (Prim2SF b) as [sb| sb| |sb mb eb];
    try reflexivity; try (now rewrite xorb_comm).
  now rewrite xorb_comm, Pos.mul_comm, Z.add_comm.
Qed.

Ltac cmp_cases :=
  repeat match goal with
  | |- context [Z.compare ?a ?b] => destruct (Z.compare_spec a b)
  | H : context [Z.compare ?a ?b] |- _ => destruct (Z.compare_spec a b)
  | |- context [Pos.compare ?a ?b] => destruct (Pos.compare_spec a b)
  | H : context [Pos.compare ?a ?b] |- _ => destruct (Pos.compare_spec a b)
  end.

Lemma SFltb_trans (a b c : spec_float) :
  SFltb a b = true -> SFltb b c = true -> SFltb a c = true.
Proof.
  unfold SFltb, SFcompare.
  destruct a as [sa| sa| |sa ma ea], b as [sb| sb| |sb mb eb], c as [sc| sc| |sc mc ec];
    try destruct sa; try destruct sb; try destruct sc;
    try discriminate; try reflexivity;
    change (Pos.compare_cont Eq) with Pos.compare;
    intros H1 H2; cmp_cases; simpl in *; try discriminate; try reflexivity; subst; try lia.
Qed.

Lemma ltb_trans (a b c : float) :
  (a <? b)%float = true -> (b <? c)%float = true -> (a <? c)%float = true.
Proof. rewrite !ltb_spec. apply SFltb_trans. Qed.

Lemma zero_spec (v : float) :
  PrimFloat.is_zero v = true -> exists s, Prim2SF v = S754_zero s.
Proof.
  unfold PrimFloat.is_zero. rewrite eqb_spec.
  change (Prim2SF zero) with (S754_zero false).
  destruct (Prim2SF v) as [s| s| |s m e]; try (destruct s); try discriminate; eauto.
Qed.

Lemma nan_intro (v : float) : Prim2SF v = S754_nan -> PrimFloat.is_nan v = true.
Proof. intros H. unfold PrimFloat.is_nan. now rewrite eqb_spec, H. Qed.

Lemma infinity_intro (v : float) s :
  Prim2SF v = S754_infinity s -> PrimFloat.is_infinity v = true.
Proof.
  intros H. unfold PrimFloat.is_infinity. rewrite eqb_spec, abs_spec, H.
  reflexivity.
Qed.

Lemma nan_spec (v : float) : PrimFloat.is_nan v = true -> Prim2SF v = S754_nan.
Proof.
  unfold PrimFloat.is_nan. rewrite eqb_spec. unfold SFeqb, SFcompare.
  destruct (Prim2SF v) as [s| s| |s m e]; try reflexivity; try destruct s;
    try discriminate;
    rewrite Z.compare_refl; change (Pos.compare_cont Eq m m) with (Pos.compare m m);
    rewrite Pos.compare_refl; discriminate.
Qed.

Lemma gt_nan (v th : float) : PrimFloat.is_nan v = true -> Js.gt v th = false.
Proof.
  intros H. apply nan_spec in H. unfold Js.gt. rewrite ltb_spec, H.
  unfold SFltb, SFcompare. now destruct (Prim2SF th).
Qed.

(** A quotient whose divisor is the product of a zero with anything is NaN
    or an infinity. *)
Lemma div_by_zero_product (n a b : float) :
  PrimFloat.is_zero a = true \/ PrimFloat.is_zero b = true ->
  PrimFloat.is_nan (n / (a * b)) = true \/ PrimFloat.is_infinity (n / (a * b)) = true.
Proof.
  intros Hz.
  assert (Hp : Prim2SF (a * b) = S754_nan \/ exists s, Prim2SF (a * b) = S754_zero s).
  { rewrite mul_spec. unfold SF64mul, SFmul.
    destruct Hz as [Hz | Hz]; apply zero_spec in Hz; destruct Hz as [s Hz]; rewrite Hz.
    - destruct (Prim2SF b); eauto.
    - destruct (Prim2SF a); eauto. }
  assert (Hq : Prim2SF (n / (a * b)) = S754_nan
               \/ exists s, Prim2SF (n / (a * b)) = S754_infinity s).
  { rewrite div_spec. unfold SF64div, SFdiv.
    destruct Hp as [Hp | [s Hp]]; rewrite Hp.
    - destruct (Prim2SF n); eauto.
    - destruct (Prim2SF n); eauto. }
  destruct Hq as [Hq | [s Hq]].
  - left. now apply nan_intro.
  - right. now apply infinity_intro with s.
Qed.

Lemma zero_zeroOrNan (v : float) : PrimFloat.is_zero v = true -> Spec.zeroOrNan v.
Proof. intros H. right. now apply zero_spec. Qed.

Lemma add_zeroOrNan (a b : float) : Spec.zeroOrNan a -> Spec.zeroOrNan b -> Spec.zeroOrNan (a + b).
Proof.
  unfold Spec.zeroOrNan. rewrite add_spec. unfold SF64add, SFadd.
  intros [Ha | [sa Ha]] [Hb | [sb Hb]]; rewrite Ha, ?Hb; eauto.
  destruct sa, sb; eauto.
Qed.

Lemma mul_zeroOrNan_l (a b : float) : Spec.zeroOrNan a -> Spec.zeroOrNan (a * b).
Proof.
  unfold Spec.zeroOrNan. rewrite mul_spec. unfold SF64mul, SFmul.
  intros [Ha | [sa Ha]]; rewrite Ha; destruct (Prim2SF b); eauto.
Qed.

Lemma mul_zeroOrNan_r (a b : float) : Spec.zeroOrNan b -> Spec.zeroOrNan (a * b).
Proof. rewrite mul_comm. apply mul_zeroOrNan_l. Qed.

Lemma sqrt_zeroOrNan (a : float) : Spec.zeroOrNan a -> Spec.zeroOrNan (sqrt a).
Proof.
  unfold Spec.zeroOrNan. rewrite sqrt_spec. unfold SF64sqrt, SFsqrt.
  intros [Ha | [sa Ha]]; rewrite Ha; eauto.
Qed.

Lemma div_zeroOrNan (a b : float) :
  Spec.zeroOrNan a -> Spec.zeroOrNan b -> PrimFloat.is_nan (a / b) = true.
Proof.
  intros Ha Hb. apply nan_intro. rewrite div_spec. unfold SF64div, SFdiv.
  destruct Ha as [Ha | [sa Ha]], Hb as [Hb | [sb Hb]]; rewrite Ha, ?Hb; reflexivity.
Qed.

Lemma fold_add_zeroOrNan (l : list float) :
  Forall Spec.zeroOrNan l -> forall acc, Spec.zeroOrNan acc ->
  Spec.zeroOrNan (fold_left PrimFloat.add l acc).
Proof.
  induction 1 as [|v l Hv Hl IH]; intros acc Hacc; simpl; [assumption|].
  apply IH. now apply add_zeroOrNan.
Qed.

Lemma ltb_irrefl (a : float) : (a <? a)%float = false.
Proof.
  rewrite ltb_spec. unfold SFltb, SFcompare.
  destruct (Prim2SF a) as [s| s| |s m e]; try destruct s; try reflexivity;
    rewrite Z.compare_refl; change (Pos.compare_cont Eq m m) with (Pos.compare m m);
    now rewrite Pos.compare_refl.
Qed.

Lemma eqb_not_ltb (a b : float) : (a =? b)%float = true -> (b <? a)%float = false.
Proof.
  rewrite eqb_spec, ltb_spec. unfold SFeqb, SFltb, SFcompare.
  destruct (Prim2SF a) as [sa| sa| |sa ma ea], (Prim2SF b) as [sb| sb| |sb mb eb];
    try destruct sa; try destruct sb; try discriminate; try reflexivity;
    change (Pos.compare_cont Eq) with Pos.compare;
    intros H; cmp_cases; simpl in *; try discriminate; try reflexivity; subst; try lia.
Qed.
End FloatFacts.

(* ------------------------------------------------------------------ *)
(** ** Properties of the face-recognition service *)

Module ServiceFacts.

Import Tf.
Import Runtime.
Import FaceRecognitionService.
Import Spec.

Local Open Scope float_scope.

Lemma zipWith_mul_comm (A B : tensor) :
  zipWith PrimFloat.mul A B = zipWith PrimFloat.mul B A.
Proof.
  revert B. induction A as [|a A IH]; intros [|b B]; simpl; try reflexivity.
  now rewrite FloatFacts.mul_comm, IH.
Qed.

Lemma tf_mul_comm (A B : tensor) : Tf.mul A B = Tf.mul B A.
Proof.
  unfold Tf.mul. rewrite (Nat.eqb_sym (List.length B)).
  destruct (Nat.eqb (List.length A) (List.length B)) eqn:E.
  - now rewrite zipWith_mul_comm.
  - destruct A as [|a [|a' A]], B as [|b [|b' B]]; simpl in E;
      try discriminate; try reflexivity;
      f_equal; apply map_ext; intros; apply FloatFacts.mul_comm.
Qed.

(** C10. [compareFaces] is symmetric in its two feature vectors: either both
    orders throw, or both return and the two similarities are the same
    number (and compare equal with [==] unless they are NaN). *)
Theorem compareFaces_symmetric :
  forall (A B : tensor) (th : option float),
    match compareFaces A B th, compareFaces B A th with
    | Return r1, Return r2 =>
        similarity r1 = similarity r2
        /\ (PrimFloat.is_nan (similarity r1) = false ->
            (similarity r1 =? similarity r2) = true)
    | Throw _, Throw _ => True
    | _, _ => False
    end.
Proof.
  intros A B th. unfold compareFaces. rewrite (tf_mul_comm B A).
  destruct (Tf.mul A B) as [prod|e]; simpl; [|exact I].
  rewrite (FloatFacts.mul_comm (norm B) (norm A)). split; [reflexivity|].
  unfold PrimFloat.is_nan. intros H. now apply negb_false_iff in H.
Qed.

(** C3. The aggregator's score is the weighted sum with weights 0.4, 0.3
    and 0.3; [isLive] holds exactly when the score exceeds 0.75 and the three
    sub-check booleans are all true; [passed] is [isLive]; the method returns
    this aggregate of the liveness answer and the two analyses, or rethrows;
    and with the three scores at 0.95 and the depth boolean false the score
    exceeds 0.75 while [isLive] is false. *)
Theorem antiSpoofing_and_gate :
  forall (l : LivenessResult.t) (t : TextureAnalysis) (d : DepthAnalysis),
    let r := aggregate l t d in
    overallScore r
    = 0.4 * LivenessResult.confidence l + 0.3 * textureScore t + 0.3 * depthScore d
    /\ (isLive r = true <->
          Js.gt (overallScore r) 0.75 = true /\ LivenessResult.isLive l = true
          /\ isRealTexture t = true /\ hasDepth d = true)
    /\ passed r = isLive r
    /\ (forall rt imageBuffer faceBox,
          performAntiSpoofingChecks rt imageBuffer faceBox
          = match detectLiveness rt imageBuffer faceBox with
            | Return live =>
                Return (aggregate live (mockTexture (Math_random rt))
                                  (mockDepth (Math_random rt)))
            | Throw e => Throw e
            end)
    /\ (forall live real m,
          let r95 := aggregate (LivenessResult.mk live 0.95 m) (mkTexture 0.95 real)
                               (mkDepth 0.95 false) in
          Js.gt (overallScore r95) 0.75 = true /\ isLive r95 = false
          /\ passed r95 = false).
Proof.
  intros l t d r. split; [|split; [|split; [|split]]].
  - unfold r, aggregate; simpl.
    now rewrite (FloatFacts.mul_comm 0.4), (FloatFacts.mul_comm 0.3 (textureScore t)),
      (FloatFacts.mul_comm 0.3 (depthScore d)).
  - unfold r, aggregate; simpl. rewrite !andb_true_iff. tauto.
  - reflexivity.
  - intros rt imageBuffer faceBox. unfold performAntiSpoofingChecks.
    now destruct (detectLiveness rt imageBuffer faceBox).
  - intros live real m. simpl. rewrite !andb_false_r. repeat split.
Qed.

Lemma allZero_Forall (v : tensor) :
  allZero v = true -> Forall Spec.zeroOrNan v.
Proof.
  unfold allZero. rewrite forallb_forall, Forall_forall.
  intros H a Ha. apply FloatFacts.zero_zeroOrNan. now apply H.
Qed.

Lemma sum_zeroOrNan (v : tensor) :
  Forall Spec.zeroOrNan v -> Spec.zeroOrNan (Tf.sum v).
Proof.
  intros H. apply FloatFacts.fold_add_zeroOrNan; [assumption|].
  right. exists false. reflexivity.
Qed.

Lemma norm_allZero (v : tensor) : allZero v = true -> Spec.zeroOrNan (norm v).
Proof.
  intros H. apply FloatFacts.sqrt_zeroOrNan, sum_zeroOrNan.
  unfold Tf.square. apply allZero_Forall in H.
  induction H; simpl; constructor; auto using FloatFacts.mul_zeroOrNan_l.
Qed.

Lemma zipWith_zero_l (A B : tensor) :
  Forall Spec.zeroOrNan A ->
  Forall Spec.zeroOrNan (zipWith PrimFloat.mul A B).
Proof.
  intros H. revert B. induction H; intros [|b B]; simpl; constructor;
    auto using FloatFacts.mul_zeroOrNan_l.
Qed.

Lemma map_zero_l (A : tensor) (y : float) :
  Forall Spec.zeroOrNan A ->
  Forall Spec.zeroOrNan (map (fun x => x * y) A).
Proof.
  induction 1; simpl; constructor; auto using FloatFacts.mul_zeroOrNan_l.
Qed.

Lemma map_zero_r (x : float) (B : tensor) :
  Spec.zeroOrNan x ->
  Forall Spec.zeroOrNan (map (fun y => x * y) B).
Proof.
  intros H. induction B; simpl; constructor; auto using FloatFacts.mul_zeroOrNan_l.
Qed.

(** The products [tf.mul] forms are zeros or NaN as soon as one operand is
    all zeros. *)
Lemma tf_mul_allZero (A B prod : tensor) :
  allZero A = true \/ allZero B = true ->
  Tf.mul A B = Return prod -> Forall Spec.zeroOrNan prod.
Proof.
  assert (L : forall A B prod, allZero A = true -> Tf.mul A B = Return prod ->
                               Forall Spec.zeroOrNan prod).
  { clear. intros A B prod HA. apply allZero_Forall in HA. unfold Tf.mul.
    destruct (Nat.eqb (List.length A) (List.length B)).
    - intros [= <-]. now apply zipWith_zero_l.
    - destruct B as [|b [|b' B]].
      + destruct A as [|a [|a' A]]; intros [= <-]. constructor.
      + intros [= <-]. now apply (map_zero_l A b).
      + destruct A as [|a [|a' A]]; intros [= <-].
        apply (map_zero_r a (b :: b' :: B)). now inversion HA. }
  intros [H | H] E; [now apply (L A B)|].
  rewrite tf_mul_comm in E. now apply (L B A).
Qed.

Lemma tf_mul_throws (A B : tensor) (e : Js.error) :
  Tf.mul A B = Throw e -> e = TfShapeError /\ List.length A <> List.length B.
Proof.
  unfold Tf.mul. destruct (Nat.eqb (List.length A) (List.length B)) eqn:E;
    [discriminate|].
  apply Nat.eqb_neq in E. intros H; split; [|assumption].
  destruct A as [|a [|a' A]], B as [|b [|b' B]]; simpl in H; congruence.
Qed.

(** C6, as the code has it.  With a zero norm on either side [compareFaces]
    signals nothing of its own: it returns, and the similarity it returns is
    not a finite number -- NaN (reported as no match), or an infinity when the
    dot product is not zero; it is NaN whenever one vector is all zeros.  The
    only throw is the shape error of [tf.mul] on vectors of different
    lengths. *)
Theorem compareFaces_zero_norm :
  forall (A B : tensor) (th : option float),
    zeroNorm A = true \/ zeroNorm B = true ->
    match compareFaces A B th with
    | Return r =>
        (PrimFloat.is_nan (similarity r) = true /\ isMatch r = false
         \/ PrimFloat.is_infinity (similarity r) = true)
        /\ (allZero A = true \/ allZero B = true ->
            PrimFloat.is_nan (similarity r) = true /\ isMatch r = false)
    | Throw e => e = TfShapeError /\ List.length A <> List.length B
    end.
Proof.
  intros A B th Hz. unfold compareFaces.
  destruct (Tf.mul A B) as [prod|e] eqn:E; simpl.
  - split.
    + destruct (FloatFacts.div_by_zero_product (Tf.sum prod) (norm A) (norm B) Hz)
        as [H | H]; [left | now right].
      split; [assumption | now apply FloatFacts.gt_nan].
    + intros Hall.
      assert (Hn : PrimFloat.is_nan (Tf.sum prod / (norm A * norm B)) = true).
      { apply FloatFacts.div_zeroOrNan.
        - apply sum_zeroOrNan. now apply (tf_mul_allZero A B).
        - destruct Hall as [H | H]; apply norm_allZero in H.
          + now apply FloatFacts.mul_zeroOrNan_l.
          + now apply FloatFacts.mul_zeroOrNan_r. }
      split; [assumption | now apply FloatFacts.gt_nan].
  - now apply tf_mul_throws.
Qed.

Lemma compareFaces_zero_norm_witness :
  match compareFaces [0; 0] [3; 4] None with
  | Return r =>
      (PrimFloat.is_nan (similarity r) = true /\ isMatch r = false
       \/ PrimFloat.is_infinity (similarity r) = true)
      /\ (allZero [0; 0] = true \/ allZero [3; 4] = true ->
          PrimFloat.is_nan (similarity r) = true /\ isMatch r = false)
  | Throw e => e = TfShapeError /\ List.length [0; 0] <> List.length [3; 4]
  end.
Proof.
  apply (compareFaces_zero_norm [0; 0] [3; 4] None). left. reflexivity.
Defined.

(** C6, as stated, fails: on the zero vector against [3; 4] the matcher
    returns an ordinary result object whose similarity is NaN. *)
Lemma zero_norm_not_signalled :
  zeroNorm [0; 0] = true
  /\ compareFaces [0; 0] [3; 4] None
     = Return {| isMatch := false; similarity := nan; threshold := 0.6 |}
  /\ ~ signalsDegenerateVector.
Proof.
  split; [reflexivity|]. split; [reflexivity|].
  intros H. destruct (H [0; 0] [3; 4] None) as [e He]; [now left|].
  discriminate He.
Qed.

End ServiceFacts.

(* ------------------------------------------------------------------ *)
(** ** Properties of the attendance routes *)

Module RouteFacts.

Import Tf.
Import FaceRecognitionService.
Import Runtime.
Import Db.
Import AttendanceRoutes.
Import Spec.


Local Open Scope string_scope.

(** *** Inversion of the control flow *)

Lemma andThen_next {A B} (s : step A) (k : A -> step B) (b : B) :
  andThen s k = Next b -> exists a, s = Next a /\ k a = Next b.
Proof. destruct s; simpl; intros H; try discriminate. eauto. Qed.

Lemma rejectIf_next (cond : bool) (r : Response) (u : unit) :
  rejectIf cond r = Next u -> cond = false.
Proof. unfold rejectIf. now destruct cond. Qed.

Lemma await_next {A} (c : completion A) (a : A) : await c = Next a -> c = Return a.
Proof. destruct c; simpl; congruence. Qed.

Lemma refusing_andThen {A B} (s : step A) (k : A -> step B) :
  refusing s -> (forall a, refusing (k a)) -> refusing (andThen s k).
Proof.
  unfold refusing. destruct s; simpl; intros Hs Hk r' H.
  - now apply (Hk a).
  - apply Hs. congruence.
  - discriminate.
Qed.

Lemma refusing_rejectIf cond code msg d : refusing (rejectIf cond (failure code msg d)).
Proof. unfold refusing, rejectIf. destruct cond; intros r [= <-]; reflexivity. Qed.

Lemma refusing_await {A} (c : completion A) : refusing (await c).
Proof. unfold refusing. destruct c; discriminate. Qed.

Lemma refusing_next {A} (a : A) : refusing (Next a).
Proof. unfold refusing. discriminate. Qed.

Lemma refusing_respond {A} code msg d : refusing (@Respond A (failure code msg d)).
Proof. unfold refusing. intros r [= <-]. reflexivity. Qed.

Ltac refusing :=
  repeat first
    [ apply refusing_andThen; [| intros ?]
    | apply refusing_rejectIf | apply refusing_await | apply refusing_next
    | apply refusing_respond
    | match goal with |- refusing (match ?x with _ => _ end) => destruct x end ].

Lemma checkInBiometrics_refusing rt now req db : refusing (checkInBiometrics rt now req db).
Proof.
  unfold checkInBiometrics, checkInCapture, requireImage, selectFace, livenessStep,
    checkInMatch.
  refusing.
Qed.

Lemma checkOutBiometrics_refusing rt now req db : refusing (checkOutBiometrics rt now req db).
Proof.
  unfold checkOutBiometrics, checkOutCapture, requireImage, selectFace, livenessStep,
    checkOutMatch.
  refusing.
Qed.

(** The two ways a check-in ends: refused with the store untouched, or
    accepted after the biometric steps and the parse of the device metadata. *)
Lemma checkIn_cases rt now scheduleNow req db :
  (success (fst (checkIn rt now scheduleNow req db)) = false
   /\ snd (checkIn rt now scheduleNow req db) = db)
  \/ exists asr best device_info,
       checkInBiometrics rt now req db = Next (asr, best)
       /\ parseDeviceInfo rt (Request.deviceInfo req) = Return device_info
       /\ checkIn rt now scheduleNow req db
          = checkInPersist rt now req db asr best
              (checkLocation rt req
                 (effectiveSchedule scheduleNow (Request.user_id req) db))
              device_info.
Proof.
  unfold checkIn.
  pose proof (checkInBiometrics_refusing rt now req db) as R.
  destruct (checkInBiometrics rt now req db) as [[asr best]|r|e]; simpl.
  - unfold checkInRecord.
    destruct (parseDeviceInfo rt (Request.deviceInfo req)) as [dev|e] eqn:E; simpl.
    + right. exists asr, best, dev. auto.
    + left. auto.
  - left. split; [now apply R | reflexivity].
  - left. auto.
Qed.

Lemma checkOut_cases rt now req db :
  (success (fst (checkOut rt now req db)) = false
   /\ snd (checkOut rt now req db) = db)
  \/ exists asr best device_info,
       checkOutBiometrics rt now req db = Next (asr, best)
       /\ parseDeviceInfo rt (Request.deviceInfo req) = Return device_info
       /\ checkOut rt now req db
          = checkOutPersist rt now req db asr best device_info.
Proof.
  unfold checkOut.
  pose proof (checkOutBiometrics_refusing rt now req db) as R.
  destruct (checkOutBiometrics rt now req db) as [[asr best]|r|e]; simpl.
  - unfold checkOutRecord.
    destruct (parseDeviceInfo rt (Request.deviceInfo req)) as [dev|e] eqn:E; simpl.
    + right. exists asr, best, dev. auto.
    + left. auto.
  - left. split; [now apply R | reflexivity].
  - left. auto.
Qed.

(** What passing the steps before the match tells. *)
Lemma checkInCapture_next rt now req db asr features :
  checkInCapture rt now req db = Next (asr, features) ->
  checkInValid rt req = true
  /\ Request.file req <> None
  /\ alreadyCheckedIn rt now (Request.user_id req) db = false
  /\ passed asr = true.
Proof.
  unfold checkInCapture. intros H.
  apply andThen_next in H. destruct H as (img & Himg & H).
  apply andThen_next in H. destruct H as ([] & Hdup & H).
  apply andThen_next in H. destruct H as (face & Hface & H).
  apply andThen_next in H. destruct H as (asr' & Hlive & H).
  apply andThen_next in H. destruct H as (f & Hf & H).
  injection H as -> ->.
  unfold requireImage in Himg.
  apply andThen_next in Himg. destruct Himg as ([] & Hv & Himg).
  apply rejectIf_next, negb_false_iff in Hv.
  apply rejectIf_next in Hdup.
  unfold livenessStep in Hlive.
  apply andThen_next in Hlive. destruct Hlive as (a & _ & Hlive).
  apply andThen_next in Hlive. destruct Hlive as ([] & Hp & Hlive).
  apply rejectIf_next, negb_false_iff in Hp. injection Hlive as ->.
  repeat split; auto.
  destruct (Request.file req); discriminate.
Qed.

Lemma checkOutCapture_next rt now req db asr features :
  checkOutCapture rt now req db = Next (asr, features) ->
  checkOutValid rt req = true
  /\ Request.file req <> None
  /\ alreadyCheckedIn rt now (Request.user_id req) db = true
  /\ alreadyCheckedOut rt now (Request.user_id req) db = false
  /\ passed asr = true.
Proof.
  unfold checkOutCapture. intros H.
  apply andThen_next in H. destruct H as (img & Himg & H).
  apply andThen_next in H. destruct H as ([] & Hin & H).
  apply andThen_next in H. destruct H as ([] & Hout & H).
  apply andThen_next in H. destruct H as (face & Hface & H).
  apply andThen_next in H. destruct H as (asr' & Hlive & H).
  apply andThen_next in H. destruct H as (f & Hf & H).
  injection H as -> ->.
  unfold requireImage in Himg.
  apply andThen_next in Himg. destruct Himg as ([] & Hv & Himg).
  apply rejectIf_next, negb_false_iff in Hv.
  apply rejectIf_next, negb_false_iff in Hin.
  apply rejectIf_next in Hout.
  unfold livenessStep in Hlive.
  apply andThen_next in Hlive. destruct Hlive as (a & _ & Hlive).
  apply andThen_next in Hlive. destruct Hlive as ([] & Hp & Hlive).
  apply rejectIf_next, negb_false_iff in Hp. injection Hlive as ->.
  repeat split; auto.
  destruct (Request.file req); discriminate.
Qed.

Lemma checkInBiometrics_next rt now req db asr best :
  checkInBiometrics rt now req db = Next (asr, best) ->
  exists features,
    checkInCapture rt now req db = Next (asr, features)
    /\ checkInMatch rt (Request.user_id req) features db = Next best.
Proof.
  unfold checkInBiometrics. intros H.
  apply andThen_next in H. destruct H as ([asr' f] & Hc & H).
  apply andThen_next in H. destruct H as (b & Hm & H).
  simpl in *. injection H as -> ->. eauto.
Qed.

Lemma checkOutBiometrics_next rt now req db asr best :
  checkOutBiometrics rt now req db = Next (asr, best) ->
  exists features,
    checkOutCapture rt now req db = Next (asr, features)
    /\ checkOutMatch rt (Request.user_id req) features db = Next best.
Proof.
  unfold checkOutBiometrics. intros H.
  apply andThen_next in H. destruct H as ([asr' f] & Hc & H).
  apply andThen_next in H. destruct H as (b & Hm & H).
  simpl in *. injection H as -> ->. eauto.
Qed.

(** *** The calendar day *)

Lemma window_day rt now t :
  ((todayStart rt now <=? t) && (t <=? todayEnd rt now))%Z
  = (dayOf rt t =? dayOf rt now)%Z.
Proof.
  unfold todayEnd, todayStart, dayOf, msPerDay.
  apply eq_true_iff_eq. rewrite andb_true_iff, !Z.leb_le, Z.eqb_eq.
  pose proof (Z.div_mod (t + timezoneOffset rt) 86400000 ltac:(lia)) as Ht.
  pose proof (Z.mod_pos_bound (t + timezoneOffset rt) 86400000 ltac:(lia)) as Bt.
  revert Ht Bt.
  generalize ((t + timezoneOffset rt) / 86400000)%Z.
  generalize ((t + timezoneOffset rt) mod 86400000)%Z.
  generalize ((now + timezoneOffset rt) / 86400000)%Z.
  intros; lia.
Qed.

Lemma approvedToday_on rt now u ty r :
  approvedToday rt now u ty r = approvedOn rt u ty (dayOf rt now) r.
Proof. unfold approvedToday, approvedOn. now rewrite window_day. Qed.

Lemma find_none_filter {A} (p : A -> bool) (l : list A) :
  find p l = None <-> filter p l = [].
Proof.
  induction l as [|a l IH]; simpl; [tauto|].
  destruct (p a); [split; discriminate | exact IH].
Qed.

Lemma firstApprovedToday_count rt now u ty db :
  firstApprovedToday rt now u ty db = None
  <-> approvedCount rt u ty (dayOf rt now) db = 0%nat.
Proof.
  unfold firstApprovedToday, approvedCount.
  rewrite find_none_filter, (filter_ext _ _ (approvedToday_on rt now u ty)).
  now rewrite length_zero_iff_nil.
Qed.

Lemma alreadyCheckedIn_count rt now u db :
  alreadyCheckedIn rt now u db = false
  <-> approvedCount rt u check_in (dayOf rt now) db = 0%nat.
Proof.
  rewrite <- firstApprovedToday_count. unfold alreadyCheckedIn.
  destruct (firstApprovedToday rt now u check_in db); split; congruence.
Qed.

Lemma alreadyCheckedOut_count rt now u db :
  alreadyCheckedOut rt now u db = false
  <-> approvedCount rt u check_out (dayOf rt now) db = 0%nat.
Proof.
  rewrite <- firstApprovedToday_count. unfold alreadyCheckedOut.
  destruct (firstApprovedToday rt now u check_out db); split; congruence.
Qed.

(** Counting after one insert. *)
Lemma approvedCount_insert rt u ty d row db audit :
  approvedCount rt u ty d (insert_audit audit (snd (insert_attendance row db)))
  = (approvedCount rt u ty d db
     + if approvedOn rt u ty d (row (List.length (attendance_records db)))
       then 1 else 0)%nat.
Proof.
  unfold approvedCount, insert_audit, insert_attendance. simpl.
  rewrite filter_app, length_app. simpl.
  now destruct (approvedOn rt u ty d _).
Qed.

Lemma approvedOn_checkInRow rt now req asr best valid msg dev id u ty d :
  approvedOn rt u ty d (checkInRow rt now req asr best valid msg dev id) = true ->
  u = Request.user_id req /\ ty = check_in /\ d = dayOf rt now.
Proof.
  unfold approvedOn, checkInRow; simpl. rewrite !andb_true_iff.
  intros [[[Hu Ht] Hd] _]. apply String.eqb_eq in Hu. apply Z.eqb_eq in Hd.
  destruct ty; try discriminate. auto.
Qed.

Lemma approvedOn_checkOutRow rt now req asr best dev id u ty d :
  approvedOn rt u ty d (checkOutRow rt now req asr best dev id) = true ->
  u = Request.user_id req /\ ty = check_out /\ d = dayOf rt now.
Proof.
  unfold approvedOn, checkOutRow; simpl. rewrite !andb_true_iff.
  intros [[[Hu Ht] Hd] _]. apply String.eqb_eq in Hu. apply Z.eqb_eq in Hd.
  destruct ty; try discriminate. auto.
Qed.

Lemma approvedCount_checkInPersist rt now req db asr best loc dev u ty d :
  approvedCount rt u ty d (snd (checkInPersist rt now req db asr best loc dev))
  = (approvedCount rt u ty d db
     + if approvedOn rt u ty d
            (checkInRow rt now req asr best (fst loc) (snd loc) dev
               (List.length (attendance_records db)))
       then 1 else 0)%nat.
Proof. unfold checkInPersist. cbn [snd fst]. apply approvedCount_insert. Qed.

Lemma approvedCount_checkOutPersist rt now req db asr best dev u ty d :
  approvedCount rt u ty d (snd (checkOutPersist rt now req db asr best dev))
  = (approvedCount rt u ty d db
     + if approvedOn rt u ty d
            (checkOutRow rt now req asr best dev (List.length (attendance_records db)))
       then 1 else 0)%nat.
Proof. unfold checkOutPersist. cbn [snd fst]. apply approvedCount_insert. Qed.

Lemma checkIn_preserves rt now scheduleNow req db :
  oneApprovedPerDay rt db ->
  oneApprovedPerDay rt (snd (checkIn rt now scheduleNow req db)).
Proof.
  intros Inv.
  destruct (checkIn_cases rt now scheduleNow req db)
    as [[_ ->] | (asr & best & dev & Hb & _ & ->)]; [assumption|].
  apply checkInBiometrics_next in Hb. destruct Hb as (f & Hc & _).
  apply checkInCapture_next in Hc. destruct Hc as (_ & _ & Hdup & _).
  apply alreadyCheckedIn_count in Hdup.
  intros u d. rewrite !approvedCount_checkInPersist. destruct (Inv u d) as [Hin Hout].
  split.
  - destruct (approvedOn rt u check_in d _) eqn:E; [|lia].
    apply approvedOn_checkInRow in E. destruct E as (-> & _ & ->). lia.
  - destruct (approvedOn rt u check_out d _) eqn:E; [|lia].
    apply approvedOn_checkInRow in E. destruct E as (_ & [=] & _).
Qed.

Lemma checkOut_preserves rt now req db :
  oneApprovedPerDay rt db ->
  oneApprovedPerDay rt (snd (checkOut rt now req db)).
Proof.
  intros Inv.
  destruct (checkOut_cases rt now req db)
    as [[_ ->] | (asr & best & dev & Hb & _ & ->)]; [assumption|].
  apply checkOutBiometrics_next in Hb. destruct Hb as (f & Hc & _).
  apply checkOutCapture_next in Hc. destruct Hc as (_ & _ & _ & Hdup & _).
  apply alreadyCheckedOut_count in Hdup.
  intros u d. rewrite !approvedCount_checkOutPersist. destruct (Inv u d) as [Hin Hout].
  split.
  - destruct (approvedOn rt u check_in d _) eqn:E; [|lia].
    apply approvedOn_checkOutRow in E. destruct E as (_ & [=] & _).
  - destruct (approvedOn rt u check_out d _) eqn:E; [|lia].
    apply approvedOn_checkOutRow in E. destruct E as (-> & _ & ->). lia.
Qed.

Lemma run_preserves rt events :
  forall db, oneApprovedPerDay rt db -> oneApprovedPerDay rt (run rt events db).
Proof.
  unfold run. induction events as [|ev events IH]; intros db Inv; simpl; [assumption|].
  apply IH. destruct ev; simpl.
  - now apply checkIn_preserves.
  - now apply checkOut_preserves.
Qed.




Lemma checkOutBiometrics_schedules rt now req db schedules :
  checkOutBiometrics rt now req (withSchedules schedules db)
  = checkOutBiometrics rt now req db.
Proof. reflexivity. Qed.

(** C9. Whatever the location sent and whatever work sites are configured,
    a check-out either leaves the attendance table as it was or appends one
    record, and that record is an approved check-out without a rejection
    reason; the answer and the stored rows are the same under any content of
    the work-schedule table, which the handler never queries. *)
Theorem checkOut_always_approved :
  forall (rt : Runtime.t) (now : Z) (req : Request.t) (db : Db.t),
    let out := checkOut rt now req db in
    (attendance_records (snd out) = attendance_records db
     \/ exists record,
          attendance_records (snd out) = (attendance_records db ++ [record])%list
          /\ details (fst out) = RecordData record None None
          /\ AttendanceRecord.type record = check_out
          /\ AttendanceRecord.status record = approved
          /\ AttendanceRecord.rejection_reason record = None)
    /\ (forall schedules : list WorkSchedule.t,
          checkOut rt now req (withSchedules schedules db)
          = (fst out, withSchedules schedules (snd out))).
Proof.
  intros rt now req db out. split.
  - destruct (checkOut_cases rt now req db)
      as [[_ E] | (asr & best & dev & _ & _ & E)]; unfold out; rewrite E.
    + now left.
    + right. unfold checkOutPersist. eexists. split; [reflexivity|].
      repeat split.
  - intros schedules. unfold out, checkOut.
    rewrite checkOutBiometrics_schedules.
    destruct (checkOutBiometrics rt now req db) as [[asr best]|r|e]; simpl;
      try reflexivity.
    unfold checkOutRecord.
    destruct (parseDeviceInfo rt (Request.deviceInfo req)); reflexivity.
Qed.

Lemma alreadyCheckedIn_iff rt now u db :
  alreadyCheckedIn rt now u db = true
  <-> exists r, In r (attendance_records db)
                /\ AttendanceRecord.user_id r = u
                /\ AttendanceRecord.type r = check_in
                /\ AttendanceRecord.status r = approved
                /\ dayOf rt (AttendanceRecord.timestamp r) = dayOf rt now.
Proof.
  unfold alreadyCheckedIn, firstApprovedToday. split.
  - destruct (find _ _) as [r|] eqn:E; [intros _|discriminate].
    apply find_some in E. destruct E as [Hin Hp]. exists r.
    rewrite approvedToday_on in Hp. unfold approvedOn in Hp.
    rewrite !andb_true_iff in Hp. destruct Hp as [[[Hu Ht] Hd] Hs].
    apply String.eqb_eq in Hu. apply Z.eqb_eq in Hd.
    destruct (AttendanceRecord.type r), (AttendanceRecord.status r);
      try discriminate; auto.
  - intros (r & Hin & Hu & Ht & Hs & Hd).
    destruct (find _ _) as [r'|] eqn:E; [reflexivity|].
    apply (find_none _ _ E) in Hin. rewrite approvedToday_on in Hin.
    unfold approvedOn in Hin.
    now rewrite Hu, Ht, Hs, Hd, String.eqb_refl, Z.eqb_refl in Hin.
Qed.

(** C7, as the code has it.  Neither handler reads the timestamp embedded
    in a submission: the answer and the resulting store are the same whatever
    it is.  The duplicate check looks for an approved check-in whose stored
    instant falls on the calendar day of [now], the server's clock when the
    request is handled, so its verdict depends on the arrival time through
    that day alone.  A record the check-in stores carries [now] as its
    timestamp and is never marked offline. *)
Theorem duplicate_check_uses_arrival_time :
  forall (rt : Runtime.t) (now scheduleNow : Z) (req : Request.t) (db : Db.t),
    (forall ts : option Z,
       checkIn rt now scheduleNow (withTimestamp ts req) db
       = checkIn rt now scheduleNow req db
       /\ checkOut rt now (withTimestamp ts req) db = checkOut rt now req db)
    /\ (alreadyCheckedIn rt now (Request.user_id req) db = true
        <-> exists r, In r (attendance_records db)
                      /\ AttendanceRecord.user_id r = Request.user_id req
                      /\ AttendanceRecord.type r = check_in
                      /\ AttendanceRecord.status r = approved
                      /\ dayOf rt (AttendanceRecord.timestamp r) = dayOf rt now)
    /\ (forall now' : Z,
          dayOf rt now' = dayOf rt now ->
          alreadyCheckedIn rt now' (Request.user_id req) db
          = alreadyCheckedIn rt now (Request.user_id req) db)
    /\ (forall record : AttendanceRecord.t,
          attendance_records (snd (checkIn rt now scheduleNow req db))
          = (attendance_records db ++ [record])%list ->
          AttendanceRecord.timestamp record = now
          /\ AttendanceRecord.is_offline record = false).
Proof.
  intros rt now scheduleNow req db. split; [|split; [|split]].
  - intros ts. split; reflexivity.
  - apply alreadyCheckedIn_iff.
  - intros now' Hd. apply eq_true_iff_eq. rewrite !alreadyCheckedIn_iff.
    now rewrite Hd.
  - intros record.
    destruct (checkIn_cases rt now scheduleNow req db)
      as [[_ E] | (asr & best & dev & _ & _ & E)]; rewrite E.
    + intros H. apply (f_equal (@List.length _)) in H.
      rewrite length_app in H. simpl in H. lia.
    + unfold checkInPersist. cbn [snd fst insert_audit insert_attendance attendance_records].
      intros H. apply app_inv_head in H. injection H as <-. split; reflexivity.
Qed.

(** The loop [bestOf] started from [(bm0, b0)]: nothing compared is above
    the result, the result is the start value or one of the similarities,
    and whatever is above the result is above the start value. *)
Lemma bestOf_spec rt features templates :
  forall bm0 b0 bm best,
    bestOf rt features templates bm0 b0 = Return (bm, best) ->
    (forall v, (best <? v)%float = true -> (b0 <? v)%float = true)
    /\ (forall template, In template templates ->
          exists v c,
            decryptFaceTemplate rt (FaceTemplate.face_encoding template) = Return v
            /\ compareFaces features v None = Return c
            /\ Js.gt (similarity c) best = false)
    /\ ((bm = bm0 /\ best = b0)
        \/ exists template v c,
             In template templates
             /\ decryptFaceTemplate rt (FaceTemplate.face_encoding template)
                = Return v
             /\ compareFaces features v None = Return c
             /\ bm = Some c /\ best = similarity c).
Proof.
  induction templates as [|t ts IH]; intros bm0 b0 bm best H; simpl in H.
  - injection H as <- <-. split; [auto|]. split; [intros ? []|now left].
  - destruct (decryptFaceTemplate rt (FaceTemplate.face_encoding t))
      as [v|e] eqn:Ev; simpl in H; [|discriminate].
    destruct (compareFaces features v None) as [c|e] eqn:Ec; simpl in H;
      [|discriminate].
    destruct (Js.gt (similarity c) b0) eqn:G; apply IH in H;
      destruct H as (Hup & Hall & Hin).
    + split; [|split].
      * intros w Hw. apply FloatFacts.ltb_trans with (similarity c); auto.
      * intros t' [<- | Ht']; [|now apply Hall].
        exists v, c. repeat split; auto.
        unfold Js.gt. destruct (best <? similarity c)%float eqn:L; [|reflexivity].
        apply Hup in L. now rewrite FloatFacts.ltb_irrefl in L.
      * right. destruct Hin as [[-> ->] | (t' & v' & c' & Ht' & ?)].
        -- exists t, v, c. simpl. auto.
        -- exists t', v', c'. simpl. auto.
    + split; [assumption|]. split.
      * intros t' [<- | Ht']; [|now apply Hall].
        exists v, c. repeat split; auto.
        unfold Js.gt in *. destruct (best <? similarity c)%float eqn:L; [|reflexivity].
        apply Hup in L. congruence.
      * destruct Hin as [? | (t' & v' & c' & Ht' & ?)]; [now left|].
        right. exists t', v', c'. simpl. auto.
Qed.

Lemma loadTemplates_In userId db template :
  In template (loadTemplates userId db)
  <-> In template (face_templates db)
      /\ FaceTemplate.user_id template = userId
      /\ FaceTemplate.is_primary template = true.
Proof.
  unfold loadTemplates. rewrite filter_In, andb_true_iff, String.eqb_eq.
  destruct (FaceTemplate.is_primary template); simpl; intuition congruence.
Qed.


End RouteFacts.

(* ------------------------------------------------------------------ *)
(** ** Properties of the template vault *)

Module VaultFacts.

Import Tf.
Import FaceRecognitionService.
Import Runtime.
Import Spec.

Local Open Scope string_scope.

Lemma strip_seal (key text : string) : Fixture.strip key (Fixture.seal key text) = Some text.
Proof.
  unfold Fixture.seal. induction key as [|a key IH]; simpl; [reflexivity|].
  now rewrite Ascii.eqb_refl.
Qed.

Lemma fixture_contract : NodeContract Fixture.runtime.
Proof.
  constructor. intros key text. simpl. unfold Fixture.unseal.
  now rewrite strip_seal.
Qed.



End VaultFacts.

(* ------------------------------------------------------------------ *)
(** ** The scenarios, run *)

Module ScenarioFacts.

Import Tf.
Import FaceRecognitionService.
Import Runtime.
Import Db.
Import AttendanceRoutes.
Import Spec.
Import RouteFacts.
Import Scenario.

Local Open Scope string_scope.






(** C7, as stated, fails: one and the same submission, captured at instant
    1500 on the day of the stored check-in, is refused as a duplicate when it
    is handled that day and accepted when it is handled the day after. *)
Lemma arrival_day_decides :
  let req := submission probeImage "0" "0" (Some 1500%Z) in
  fst (checkIn Fixture.runtime 2000 2000 req checkedIn)
  = failure 400 "You have already checked in today" NoDetails
  /\ success (fst (checkIn Fixture.runtime 86402000 86402000 req checkedIn)) = true
  /\ ~ duplicateCheckUsesEmbeddedTimestamp
  /\ ~ duplicateCheckIgnoresArrival.
Proof.
  split; [reflexivity|]. split; [reflexivity|]. split; intros H.
  - specialize (H Fixture.runtime (submission probeImage "0" "0" (Some 1500%Z))
                  checkedIn 86402000%Z 1500%Z eq_refl).
    discriminate H.
  - specialize (H Fixture.runtime (submission probeImage "0" "0" (Some 1500%Z))
                  checkedIn 2000%Z 86402000%Z).
    discriminate H.
Qed.

End ScenarioFacts.

(* ------------------------------------------------------------------ *)
(** ** More on the order of binary64 numbers *)

Module FloatOrderFacts.

Import Js.

Set Warnings "-inexact-float".

Lemma SFcompare_swap (a b : spec_float) :
  SFcompare b a = option_map CompOpp (SFcompare a b).
Proof.
  unfold SFcompare.
  destruct a as [sa| sa| |sa ma ea], b as [sb| sb| |sb mb eb];
    try destruct sa; try destruct sb; try reflexivity;
    change (PosDef.Pos.compare_cont Eq mb ma) with (Pos.compare mb ma);
    change (PosDef.Pos.compare_cont Eq ma mb) with (Pos.compare ma mb);
    rewrite ?(Z.compare_antisym ea eb), ?(Pos.compare_antisym ma mb);
    destruct (ea ?= eb)%Z, (ma ?= mb)%positive; reflexivity.
Qed.

Lemma leb_of_not_ltb (a b : float) :
  (a <? b)%float = false ->
  (a =? a)%float = true ->
  (b =? b)%float = true ->
  (b <=? a)%float = true.
Proof.
  rewrite ltb_spec, leb_spec, !eqb_spec. unfold SFltb, SFleb, SFeqb.
  rewrite (SFcompare_swap (Prim2SF a) (Prim2SF b)).
  destruct (SFcompare (Prim2SF a) (Prim2SF b)) as [[| |]|] eqn:C; cbn; try congruence.
  intros _ Ha Hb. exfalso.
  unfold SFcompare in *.
  destruct (Prim2SF a) as [sa| sa| |sa ma ea], (Prim2SF b) as [sb| sb| |sb mb eb];
    try destruct sa; try destruct sb; try discriminate.
Qed.

Lemma ltb_not_nan_l (a b : float) : (a <? b)%float = true -> (a =? a)%float = true.
Proof.
  rewrite ltb_spec, eqb_spec. unfold SFltb, SFeqb, SFcompare.
  destruct (Prim2SF a) as [sa| sa| |sa ma ea], (Prim2SF b) as [sb| sb| |sb mb eb];
    try destruct sa; try destruct sb; try discriminate; try reflexivity;
    intros _; rewrite ?Z.compare_refl, ?Pos.compare_refl; reflexivity.
Qed.

Lemma ltb_not_nan_r (a b : float) : (a <? b)%float = true -> (b =? b)%float = true.
Proof.
  rewrite ltb_spec, eqb_spec. unfold SFltb, SFeqb, SFcompare.
  destruct (Prim2SF a) as [sa| sa| |sa ma ea], (Prim2SF b) as [sb| sb| |sb mb eb];
    try destruct sa; try destruct sb; try discriminate; try reflexivity;
    intros _; rewrite ?Z.compare_refl, ?Pos.compare_refl; reflexivity.
Qed.

Lemma SFleb_trans (a b c : spec_float) :
  SFleb a b = true -> SFleb b c = true -> SFleb a c = true.
Proof.
  unfold SFleb, SFcompare.
  destruct a as [sa| sa| |sa ma ea], b as [sb| sb| |sb mb eb],
           c as [sc| sc| |sc mc ec];
    try destruct sa; try destruct sb; try destruct sc;
    try discriminate; try reflexivity;
    change (PosDef.Pos.compare_cont Eq ma mb) with (Pos.compare ma mb);
    change (PosDef.Pos.compare_cont Eq mb mc) with (Pos.compare mb mc);
    change (PosDef.Pos.compare_cont Eq ma mc) with (Pos.compare ma mc);
    destruct (Z.compare_spec ea eb), (Z.compare_spec eb ec), (Z.compare_spec ea ec);
    try discriminate; try reflexivity; try lia;
    destruct (Pos.compare_spec ma mb), (Pos.compare_spec mb mc),
             (Pos.compare_spec ma mc);
    cbn; try discriminate; try reflexivity; try lia.
Qed.

Lemma leb_trans (a b c : float) :
  (a <=? b)%float = true -> (b <=? c)%float = true -> (a <=? c)%float = true.
Proof. rewrite !leb_spec. apply SFleb_trans. Qed.

End FloatOrderFacts.

(* ------------------------------------------------------------------ *)
(** ** Properties of the analytics helpers *)

Module AnalyticsFacts.

Import Runtime.
Import Db.
Import AttendanceRoutes.
Import Analytics.
Import Vocabulary.

Local Open Scope Z_scope.

Lemma dayOf_next rt t : dayOf rt (t + msPerDay) = dayOf rt t + 1.
Proof.
  unfold dayOf, msPerDay.
  replace (t + 86400000 + timezoneOffset rt)
    with (t + timezoneOffset rt + 1 * 86400000) by lia.
  now rewrite Z.div_add by lia.
Qed.

Lemma getDay_range rt t : 0 <= getDay rt t < 7.
Proof. unfold getDay. apply Z.mod_pos_bound. lia. Qed.

Lemma getDay_next rt t :
  getDay rt (t + msPerDay) = if getDay rt t =? 6 then 0 else getDay rt t + 1.
Proof.
  unfold getDay. rewrite dayOf_next.
  pose proof (Z.mod_pos_bound (dayOf rt t + 4) 7 ltac:(lia)) as B.
  destruct (Z.eqb_spec ((dayOf rt t + 4) mod 7) 6) as [E|N].
  - replace (dayOf rt t + 1 + 4) with ((dayOf rt t + 4) + 1) by lia.
    rewrite <- Zplus_mod_idemp_l, E. reflexivity.
  - replace (dayOf rt t + 1 + 4) with ((dayOf rt t + 4) + 1) by lia.
    rewrite <- Zplus_mod_idemp_l. apply Z.mod_small. lia.
Qed.

Lemma weekdaysFrom_bounds rt n : forall t, 0 <= weekdaysFrom rt t n <= Z.of_nat n.
Proof.
  induction n as [|n IH]; intros t; [simpl; lia|].
  cbn [weekdaysFrom]. specialize (IH (t + msPerDay)).
  destruct (isWeekday (getDay rt t)); lia.
Qed.

Lemma weekdaysFrom_app rt a : forall t b,
  weekdaysFrom rt t (a + b)
  = weekdaysFrom rt t a + weekdaysFrom rt (t + Z.of_nat a * msPerDay) b.
Proof.
  induction a as [|a IH]; intros t b.
  - simpl. now rewrite Z.add_0_r.
  - cbn [Nat.add weekdaysFrom]. rewrite IH.
    replace (t + msPerDay + Z.of_nat a * msPerDay)
      with (t + Z.of_nat (S a) * msPerDay) by lia.
    lia.
Qed.

Lemma weekdaysFrom_week rt t : weekdaysFrom rt t 7 = 5.
Proof.
  cbn [weekdaysFrom]. rewrite !getDay_next.
  pose proof (getDay_range rt t) as Hw.
  assert (Cases : getDay rt t = 0 \/ getDay rt t = 1 \/ getDay rt t = 2
                  \/ getDay rt t = 3 \/ getDay rt t = 4 \/ getDay rt t = 5
                  \/ getDay rt t = 6) by lia.
  repeat match goal with
         | H : _ \/ _ |- _ => destruct H as [H | H]
         end; rewrite Cases; reflexivity.
Qed.

Lemma weekdaysFrom_weeks rt k : forall t, weekdaysFrom rt t (7 * k) = 5 * Z.of_nat k.
Proof.
  induction k as [|k IH]; intros t; [reflexivity|].
  replace (7 * S k)%nat with (7 + 7 * k)%nat by lia.
  rewrite weekdaysFrom_app, weekdaysFrom_week, IH. lia.
Qed.

Lemma weekdaysFrom_three rt t : 1 <= weekdaysFrom rt t 3 <= 3.
Proof.
  cbn [weekdaysFrom]. rewrite !getDay_next.
  pose proof (getDay_range rt t) as Hw.
  assert (Cases : getDay rt t = 0 \/ getDay rt t = 1 \/ getDay rt t = 2
                  \/ getDay rt t = 3 \/ getDay rt t = 4 \/ getDay rt t = 5
                  \/ getDay rt t = 6) by lia.
  repeat match goal with
         | H : _ \/ _ |- _ => destruct H as [H | H]
         end; rewrite Cases; simpl; lia.
Qed.

(** The loop, once it has enough fuel for the days left. *)
Lemma countWorkingDays_spec rt finish n : forall fuel current count,
  (n < fuel)%nat ->
  finish < current + Z.of_nat n * msPerDay ->
  (0 < Z.of_nat n -> current + (Z.of_nat n - 1) * msPerDay <= finish) ->
  countWorkingDays fuel rt current finish count
  = Some (count + weekdaysFrom rt current n).
Proof.
  induction n as [|n IH]; intros fuel current count Hf Hup Hlow;
    (destruct fuel as [|fuel]; [lia|]); cbn [countWorkingDays].
  - destruct (Z.leb_spec current finish); [unfold msPerDay in *; lia|].
    simpl. now rewrite Z.add_0_r.
  - destruct (Z.leb_spec current finish); [|unfold msPerDay in *; lia].
    rewrite IH; [|lia|unfold msPerDay in *; lia|unfold msPerDay in *; lia].
    cbn [weekdaysFrom]. destruct (isWeekday (getDay rt current)); f_equal; lia.
Qed.

Lemma daysVisited_bounds start finish :
  0 <= daysVisited start finish
  /\ finish < start + daysVisited start finish * msPerDay
  /\ (0 < daysVisited start finish ->
      start + (daysVisited start finish - 1) * msPerDay <= finish).
Proof.
  unfold daysVisited, msPerDay. destruct (Z.leb_spec start finish).
  - pose proof (Z.div_mod (finish - start) 86400000 ltac:(lia)) as D.
    pose proof (Z.mod_pos_bound (finish - start) 86400000 ltac:(lia)) as B.
    assert (P : 0 <= (finish - start) / 86400000) by (apply Z.div_pos; lia).
    revert D B P.
    generalize ((finish - start) / 86400000), ((finish - start) mod 86400000).
    intros q r D B P. lia.
  - lia.
Qed.

Lemma testsNeeded_visited start finish :
  testsNeeded start finish = S (Z.to_nat (daysVisited start finish)).
Proof.
  unfold testsNeeded, daysVisited, msPerDay. destruct (Z.leb_spec start finish).
  - assert (0 <= (finish - start) / 86400000) by (apply Z.div_pos; lia).
    lia.
  - reflexivity.
Qed.

Lemma calculateWorkingDays_spec rt start finish fuel :
  (testsNeeded start finish <= fuel)%nat ->
  calculateWorkingDays fuel rt (Some start) (Some finish)
  = Some (weekdaysFrom rt start (Z.to_nat (daysVisited start finish))).
Proof.
  intros Hf. rewrite testsNeeded_visited in Hf.
  destruct (daysVisited_bounds start finish) as (H0 & Hup & Hlow).
  unfold calculateWorkingDays.
  rewrite (countWorkingDays_spec rt finish (Z.to_nat (daysVisited start finish)));
    rewrite ?Z2Nat.id by lia; [reflexivity | lia | exact Hup | exact Hlow].
Qed.






End AnalyticsFacts.

(* ------------------------------------------------------------------ *)
(** ** Properties of GET /api/attendance/today *)

Module TodayFacts.

Import Runtime.
Import Db.
Import AttendanceRoutes.
Import AttendanceQueries.
Import Spec.
Import RouteFacts.
Import Scenario.

Local Open Scope string_scope.

Lemma In_insertByTimestamp r x sorted :
  In r (insertByTimestamp x sorted) <-> r = x \/ In r sorted.
Proof.
  induction sorted as [|y sorted IH]; simpl; [intuition|].
  destruct (AttendanceRecord.timestamp y <=? AttendanceRecord.timestamp x)%Z; simpl;
    rewrite ?IH; intuition.
Qed.

Lemma In_orderByTimestamp r rows : In r (orderByTimestamp rows) <-> In r rows.
Proof.
  unfold orderByTimestamp.
  assert (G : forall acc, In r (fold_left (fun sorted x => insertByTimestamp x sorted)
                                          rows acc)
                          <-> In r rows \/ In r acc).
  { induction rows as [|x rows IH]; intros acc; simpl; [intuition|].
    rewrite IH, In_insertByTimestamp. intuition. }
  rewrite G. simpl. intuition.
Qed.

Lemma In_todayRecords rt now u db r :
  In r (todayRecords rt now u db)
  <-> In r (attendance_records db)
      /\ AttendanceRecord.user_id r = u
      /\ dayOf rt (AttendanceRecord.timestamp r) = dayOf rt now.
Proof.
  unfold todayRecords. rewrite In_orderByTimestamp, filter_In, window_day.
  rewrite andb_true_iff, String.eqb_eq, Z.eqb_eq. tauto.
Qed.

Lemma approvedToday_split rt now u ty r :
  approvedToday rt now u ty r = true
  <-> (AttendanceRecord.user_id r = u
       /\ dayOf rt (AttendanceRecord.timestamp r) = dayOf rt now)
      /\ approvedOfType ty r = true.
Proof.
  unfold approvedToday, approvedOfType.
  rewrite window_day, !andb_true_iff, String.eqb_eq, Z.eqb_eq. tauto.
Qed.

Lemma find_exists {A} (p : A -> bool) (l : list A) :
  find p l <> None <-> exists x, In x l /\ p x = true.
Proof.
  split.
  - destruct (find p l) as [x|] eqn:E; [intros _|congruence].
    apply find_some in E. eauto.
  - intros (x & Hin & Hp) E. apply (find_none _ _ E) in Hin. congruence.
Qed.

(** The lookup of the answer finds a record exactly when the query of the
    two handlers does. *)
Lemma today_find rt now u ty db :
  find (approvedOfType ty) (todayRecords rt now u db) <> None
  <-> firstApprovedToday rt now u ty db <> None.
Proof.
  unfold firstApprovedToday. rewrite !find_exists. split.
  - intros (r & Hin & Hp). apply In_todayRecords in Hin. exists r. split; [tauto|].
    apply approvedToday_split. tauto.
  - intros (r & Hin & Hp). apply approvedToday_split in Hp. exists r. split; [|tauto].
    apply In_todayRecords. tauto.
Qed.

Lemma today_checkIn rt now u db :
  find (approvedOfType check_in) (todayRecords rt now u db) <> None
  <-> alreadyCheckedIn rt now u db = true.
Proof.
  rewrite today_find. unfold alreadyCheckedIn.
  destruct (firstApprovedToday rt now u check_in db); split; congruence.
Qed.

Lemma today_checkOut rt now u db :
  find (approvedOfType check_out) (todayRecords rt now u db) <> None
  <-> alreadyCheckedOut rt now u db = true.
Proof.
  rewrite today_find. unfold alreadyCheckedOut.
  destruct (firstApprovedToday rt now u check_out db); split; congruence.
Qed.

(** X4.  What GET /today reports agrees with the checks of the two
    handlers at the same instant: it shows a check-in exactly when a check-in
    would be refused as a duplicate, a check-out exactly when a check-out
    would be, and its status is [not_checked_in], [checked_in] or [completed]
    accordingly.  So, unless it reports the day as complete, the attendance
    type the mobile screen derives from it passes the ordering checks of the
    handler it is sent to. *)
Theorem today_agrees_with_handlers :
  forall (rt : Runtime.t) (now : Z) (userId : UserId) (db : Db.t),
    exists data : Today,
      today rt now userId db
      = {| Http.http_status := 200; Http.success := true; Http.message := None;
           Http.body := Http.Data data |}
      /\ (checkIn data <> None <-> alreadyCheckedIn rt now userId db = true)
      /\ (checkOut data <> None <-> alreadyCheckedOut rt now userId db = true)
      /\ (status data = not_checked_in <-> alreadyCheckedIn rt now userId db = false)
      /\ (status data = checked_in
          <-> alreadyCheckedIn rt now userId db = true
              /\ alreadyCheckedOut rt now userId db = false)
      /\ (status data = completed
          <-> alreadyCheckedIn rt now userId db = true
              /\ alreadyCheckedOut rt now userId db = true)
      /\ (isAttendanceComplete data = false ->
          match attendanceType data with
          | check_in => alreadyCheckedIn rt now userId db = false
          | check_out => alreadyCheckedIn rt now userId db = true
                         /\ alreadyCheckedOut rt now userId db = false
          end).
Proof.
  intros rt now u db. eexists. split; [reflexivity|].
  assert (Hin : alreadyCheckedIn rt now u db
                = match find (approvedOfType check_in) (todayRecords rt now u db) with
                  | Some _ => true
                  | None => false
                  end).
  { pose proof (today_checkIn rt now u db) as H.
    destruct (find (approvedOfType check_in) (todayRecords rt now u db)),
             (alreadyCheckedIn rt now u db); try reflexivity.
    - assert (E : false = true) by (apply H; discriminate). discriminate E.
    - exfalso. now apply H. }
  assert (Hout : alreadyCheckedOut rt now u db
                 = match find (approvedOfType check_out) (todayRecords rt now u db) with
                   | Some _ => true
                   | None => false
                   end).
  { pose proof (today_checkOut rt now u db) as H.
    destruct (find (approvedOfType check_out) (todayRecords rt now u db)),
             (alreadyCheckedOut rt now u db); try reflexivity.
    - assert (E : false = true) by (apply H; discriminate). discriminate E.
    - exfalso. now apply H. }
  rewrite Hin, Hout.
  unfold attendanceType, isAttendanceComplete. cbn [checkIn checkOut status].
  destruct (find (approvedOfType check_in) (todayRecords rt now u db)) as [ci|];
    destruct (find (approvedOfType check_out) (todayRecords rt now u db)) as [co|];
    cbn [option_map];
    repeat split; intros; try discriminate; try congruence; auto;
    match goal with
    | H : _ /\ _ |- _ => destruct H; discriminate
    end.
Qed.

(** What an accepted check-in tells: it was no duplicate, and the record of
    the answer is the row appended to the table. *)
Lemma checkIn_accepted rt now scheduleNow req db record validFlag msg :
  success (fst (AttendanceRoutes.checkIn rt now scheduleNow req db)) = true ->
  details (fst (AttendanceRoutes.checkIn rt now scheduleNow req db))
  = RecordData record (Some validFlag) msg ->
  alreadyCheckedIn rt now (Request.user_id req) db = false
  /\ attendance_records (snd (AttendanceRoutes.checkIn rt now scheduleNow req db))
     = (attendance_records db ++ [record])%list
  /\ AttendanceRecord.user_id record = Request.user_id req
  /\ AttendanceRecord.type record = check_in
  /\ AttendanceRecord.timestamp record = now
  /\ AttendanceRecord.status record = (if validFlag then approved else flagged).
Proof.
  intros Hs Hd.
  destruct (checkIn_cases rt now scheduleNow req db)
    as [[Hf _] | (asr & best & dev & Hb & _ & E)]; [congruence|].
  apply checkInBiometrics_next in Hb. destruct Hb as (f & Hc & _).
  apply checkInCapture_next in Hc. destruct Hc as (_ & _ & Hdup & _).
  rewrite E in *. unfold checkInPersist in *.
  cbn [fst snd details insert_attendance insert_audit attendance_records] in *.
  injection Hd as <- <- _. repeat split; auto.
Qed.



End TodayFacts.

(* ------------------------------------------------------------------ *)
(** ** Properties of the two decisions of an administrator *)

Module AdminFacts.

Import Runtime.
Import FaceRecognitionService.
Import Db.
Import Spec.
Import RouteFacts.
Import AttendanceRoutes.
Import AdminRoutes.

Local Open Scope string_scope.

Lemma checkIn_duplicate_refused rt now scheduleNow req db :
  alreadyCheckedIn rt now (Request.user_id req) db = true ->
  checkInValid rt req = true ->
  Request.file req <> None ->
  AttendanceRoutes.checkIn rt now scheduleNow req db
  = (failure 400 "You have already checked in today" NoDetails, db).
Proof.
  intros Hdup Hv Hf.
  unfold AttendanceRoutes.checkIn, checkInBiometrics, checkInCapture, requireImage.
  rewrite Hv. destruct (Request.file req); [|contradiction]. simpl.
  now rewrite Hdup.
Qed.

Lemma checkIn_other_answer rt now scheduleNow req db :
  alreadyCheckedIn rt now (Request.user_id req) db = false ->
  message (fst (AttendanceRoutes.checkIn rt now scheduleNow req db))
  <> "You have already checked in today".
Proof.
  intros Hdup.
  unfold AttendanceRoutes.checkIn, checkInBiometrics, checkInCapture, requireImage.
  destruct (checkInValid rt req); simpl; [|discriminate].
  destruct (Request.file req) as [img|]; simpl; [|discriminate].
  rewrite Hdup. simpl.
  unfold selectFace.
  destruct (detectFaces rt img) as [[|face faces]|e]; simpl; try discriminate.
  unfold livenessStep.
  destruct (performAntiSpoofingChecks rt img (Face.box face)) as [asr|e]; simpl;
    try discriminate.
  destruct (passed asr); simpl; try discriminate.
  destruct (extractFaceFeatures rt img (Face.box face)) as [f|e]; simpl;
    try discriminate.
  unfold checkInMatch.
  destruct (loadTemplates (Request.user_id req) db) as [|t ts] eqn:L; simpl;
    try discriminate.
  destruct (decryptFaceTemplate rt (FaceTemplate.face_encoding t)) as [v|e]; simpl;
    try discriminate.
  destruct (compareFaces f v None) as [c|e]; simpl; try discriminate.
  match goal with
  | |- context [await ?b] => destruct b as [[bm best]|e]
  end; simpl; try discriminate.
  destruct (notRecognized bm best); simpl; try discriminate.
  unfold checkInRecord.
  destruct (parseDeviceInfo rt (Request.deviceInfo req)); simpl; try discriminate.
  destruct (fst (checkLocation rt req _)); discriminate.
Qed.

Lemma approve_cases now req s :
  (Http.success (fst (approve now req s)) = false /\ snd (approve now req s) = s)
  \/ exists id record,
       ReviewRequest.id req = Some id
       /\ recordById id (Store.db s) = Some record
       /\ approve now req s
          = ({| Http.http_status := 200; Http.success := true;
                Http.message := Some "Attendance record approved successfully";
                Http.body := Http.Empty |},
             Store.log (reviewLog req "attendance_approved" id record approved)
               (decide id approved None (ReviewRequest.admin req) now s)).
Proof.
  unfold approve.
  destruct (ReviewRequest.id req) as [id|]; simpl; [|left; auto].
  destruct (recordById id (Store.db s)) as [record|] eqn:E; simpl; [|left; auto].
  right. exists id, record. auto.
Qed.

Lemma reject_cases now req s :
  (Http.success (fst (reject now req s)) = false /\ snd (reject now req s) = s)
  \/ exists id record,
       ReviewRequest.id req = Some id
       /\ rejectValid req = true
       /\ recordById id (Store.db s) = Some record
       /\ reject now req s
          = ({| Http.http_status := 200; Http.success := true;
                Http.message := Some "Attendance record rejected successfully";
                Http.body := Http.Empty |},
             Store.log (reviewLog req "attendance_rejected" id record rejected)
               (decide id rejected (ReviewRequest.reason req)
                  (ReviewRequest.admin req) now s)).
Proof.
  unfold reject.
  destruct (rejectValid req) eqn:V; simpl; [|left; auto].
  destruct (ReviewRequest.id req) as [id|]; simpl; [|left; auto].
  destruct (recordById id (Store.db s)) as [record|] eqn:E; simpl; [|left; auto].
  right. exists id, record. auto.
Qed.

Lemma recordById_In id db record :
  recordById id db = Some record ->
  In record (attendance_records db) /\ AttendanceRecord.id record = id.
Proof.
  unfold recordById. intros H. apply find_some in H. destruct H as [Hin Hid].
  apply Nat.eqb_eq in Hid. auto.
Qed.

Lemma approvedOn_decided rt u ty d st reason r :
  approvedOn rt u ty d (decided st reason r)
  = String.eqb (AttendanceRecord.user_id r) u
    && RecordType_eqb (AttendanceRecord.type r) ty
    && (dayOf rt (AttendanceRecord.timestamp r) =? d)%Z
    && Status_eqb st approved.
Proof. reflexivity. Qed.

Lemma filter_map_le {A} (p : A -> bool) (f : A -> A) (l : list A) :
  (forall x, p (f x) = true -> p x = true) ->
  (List.length (filter p (map f l)) <= List.length (filter p l))%nat.
Proof.
  intros H. induction l as [|x l IH]; simpl; [lia|].
  destruct (p (f x)) eqn:E.
  - rewrite (H x E). simpl. lia.
  - destruct (p x); simpl; lia.
Qed.

Lemma records_decide id st reason by_ at_ s :
  attendance_records (Store.db (decide id st reason by_ at_ s))
  = map (fun r => if Nat.eqb (AttendanceRecord.id r) id
                  then decided st reason r else r)
        (attendance_records (Store.db s)).
Proof. reflexivity. Qed.

Lemma reject_count rt u ty d id reason by_ at_ s :
  (approvedCount rt u ty d (Store.db (decide id rejected reason by_ at_ s))
   <= approvedCount rt u ty d (Store.db s))%nat.
Proof.
  unfold approvedCount. rewrite records_decide. apply filter_map_le.
  intros x. destruct (Nat.eqb (AttendanceRecord.id x) id); [|auto].
  rewrite approvedOn_decided, andb_false_r. discriminate.
Qed.

(** One row changes when the ids are distinct. *)
Lemma decide_count rt u ty d id st reason record (l : list AttendanceRecord.t) :
  NoDup (map AttendanceRecord.id l) ->
  In record l ->
  AttendanceRecord.id record = id ->
  (List.length
     (filter (approvedOn rt u ty d)
        (map (fun r => if Nat.eqb (AttendanceRecord.id r) id
                       then decided st reason r else r) l))
   + (if approvedOn rt u ty d record then 1 else 0)
   = List.length (filter (approvedOn rt u ty d) l)
     + (if approvedOn rt u ty d (decided st reason record) then 1 else 0))%nat.
Proof.
  intros Hnd Hin Hid. induction l as [|x l IH]; [destruct Hin|].
  simpl in Hnd. inversion Hnd as [|? ? Hx Hnd']; subst.
  destruct Hin as [<- | Hin].
  - assert (E : map (fun r => if Nat.eqb (AttendanceRecord.id r) (AttendanceRecord.id x)
                              then decided st reason r else r) l = l).
    { rewrite <- (map_id l) at 2. apply map_ext_in. intros y Hy.
      destruct (Nat.eqb_spec (AttendanceRecord.id y) (AttendanceRecord.id x)) as [e|];
        [|reflexivity].
      exfalso. apply Hx. rewrite <- e. now apply in_map. }
    cbn [map filter]. rewrite Nat.eqb_refl, E.
    destruct (approvedOn rt u ty d (decided st reason x)),
             (approvedOn rt u ty d x); simpl; lia.
  - assert (N : Nat.eqb (AttendanceRecord.id x) (AttendanceRecord.id record) = false).
    { apply Nat.eqb_neq. intros e. apply Hx. rewrite e. now apply in_map. }
    cbn [map filter]. rewrite N. specialize (IH Hnd' Hin).
    destruct (approvedOn rt u ty d x); simpl; lia.
Qed.

Lemma approvedOn_self rt r :
  approvedOn rt (AttendanceRecord.user_id r) (AttendanceRecord.type r)
    (dayOf rt (AttendanceRecord.timestamp r)) r
  = Status_eqb (AttendanceRecord.status r) approved.
Proof.
  unfold approvedOn. rewrite String.eqb_refl, Z.eqb_refl.
  now destruct (AttendanceRecord.type r).
Qed.

Lemma approvedOn_inv rt u ty d r :
  approvedOn rt u ty d r = true ->
  AttendanceRecord.user_id r = u /\ AttendanceRecord.type r = ty
  /\ dayOf rt (AttendanceRecord.timestamp r) = d
  /\ AttendanceRecord.status r = approved.
Proof.
  unfold approvedOn. rewrite !andb_true_iff.
  intros [[[Hu Ht] Hd] Hs]. apply String.eqb_eq in Hu. apply Z.eqb_eq in Hd.
  destruct (AttendanceRecord.type r), ty; try discriminate;
    destruct (AttendanceRecord.status r); try discriminate; auto.
Qed.

Lemma approve_preserves rt now req s :
  oneApprovedPerDay rt (Store.db s) ->
  NoDup (map AttendanceRecord.id (attendance_records (Store.db s))) ->
  (forall id record,
     ReviewRequest.id req = Some id ->
     recordById id (Store.db s) = Some record ->
     AttendanceRecord.status record = approved
     \/ approvedCount rt (AttendanceRecord.user_id record) (AttendanceRecord.type record)
          (dayOf rt (AttendanceRecord.timestamp record)) (Store.db s)
        = 0%nat) ->
  oneApprovedPerDay rt (Store.db (snd (approve now req s))).
Proof.
  intros Inv Hnd Hpre.
  destruct (approve_cases now req s) as [[_ ->] | (id & record & Hid & Hrec & ->)];
    [assumption|].
  cbn [snd]. specialize (Hpre id record Hid Hrec).
  apply recordById_In in Hrec. destruct Hrec as [Hin Hrid].
  assert (G : forall u ty d,
             (approvedCount rt u ty d (Store.db s) <= 1)%nat ->
             (approvedCount rt u ty d
                (Store.db (Store.log (reviewLog req "attendance_approved" id record approved)
                             (decide id approved None (ReviewRequest.admin req) now s)))
              <= 1)%nat).
  { intros u ty d Hle. unfold approvedCount in *. cbn [Store.log Store.db].
    rewrite records_decide.
    pose proof (decide_count rt u ty d id approved None record _ Hnd Hin Hrid) as C.
    destruct (approvedOn rt u ty d (decided approved None record)) eqn:A;
      [|destruct (approvedOn rt u ty d record); lia].
    destruct (approvedOn rt u ty d record) eqn:B; [lia|].
    rewrite approvedOn_decided, andb_true_r in A.
    rewrite !andb_true_iff in A. destruct A as [[Hu Hty] Hd].
    apply String.eqb_eq in Hu. apply Z.eqb_eq in Hd.
    assert (Hty' : AttendanceRecord.type record = ty)
      by (destruct (AttendanceRecord.type record), ty; try discriminate; reflexivity).
    subst u ty d. rewrite approvedOn_self in B.
    destruct Hpre as [Hap | Hz]; [rewrite Hap in B; discriminate|].
    unfold approvedCount in Hz. lia. }
  intros u d. destruct (Inv u d). split; now apply G.
Qed.

Lemma reject_preserves rt now req s :
  oneApprovedPerDay rt (Store.db s) ->
  oneApprovedPerDay rt (Store.db (snd (reject now req s))).
Proof.
  intros Inv.
  destruct (reject_cases now req s) as [[_ ->] | (id & record & _ & _ & _ & ->)];
    [assumption|].
  cbn [snd Store.log Store.db]. intros u d. destruct (Inv u d) as [Hi Ho].
  split; eapply Nat.le_trans; try apply reject_count; assumption.
Qed.

Lemma flagged_not_counted rt u ty d id instant :
  approvedOn rt u ty d (Cases.checkInOf id flagged instant) = false.
Proof.
  destruct (approvedOn rt u ty d (Cases.checkInOf id flagged instant)) eqn:E;
    [|reflexivity].
  apply approvedOn_inv in E. destruct E as (_ & _ & _ & E). discriminate E.
Qed.

(** X6.  A rejection never breaks the rule of one approved check-in and one
    approved check-out per user and day.  An approval keeps the rule when
    the ids of the table are distinct and the record is approved already or
    no approved record of the same user, type and day exists; the handler
    tests neither, and approving a flagged check-in beside an approved one
    of the same day leaves two approved check-ins. *)
Theorem decisions_and_one_approved_per_day :
  forall (rt : Runtime.t) (now : Z) (req : ReviewRequest.t) (s : Store.t),
    oneApprovedPerDay rt (Store.db s) ->
    oneApprovedPerDay rt (Store.db (snd (reject now req s)))
    /\ (NoDup (map AttendanceRecord.id (attendance_records (Store.db s))) ->
        (forall id record,
           ReviewRequest.id req = Some id ->
           recordById id (Store.db s) = Some record ->
           AttendanceRecord.status record = approved
           \/ approvedCount rt (AttendanceRecord.user_id record)
                (AttendanceRecord.type record)
                (dayOf rt (AttendanceRecord.timestamp record)) (Store.db s)
              = 0%nat) ->
        oneApprovedPerDay rt (Store.db (snd (approve now req s))))
    /\ (oneApprovedPerDay rt (Store.db Cases.twoCheckIns)
        /\ NoDup (map AttendanceRecord.id
                    (attendance_records (Store.db Cases.twoCheckIns)))
        /\ approvedCount rt Scenario.alice check_in (dayOf rt 1000)
             (Store.db (snd (approve now (Cases.review 1 None) Cases.twoCheckIns)))
           = 2%nat).
Proof.
  intros rt now req s Inv. split; [now apply reject_preserves|]. split.
  - intros Hnd Hpre. now apply approve_preserves.
  - split; [|split].
    + intros u d. unfold approvedCount.
      cbn [Store.db Cases.twoCheckIns Cases.world Scenario.store attendance_records
           filter].
      rewrite !flagged_not_counted.
      destruct (approvedOn rt u check_in d _), (approvedOn rt u check_out d _);
        simpl; lia.
    + cbn. repeat constructor; simpl; intuition discriminate.
    + assert (E : snd (approve now (Cases.review 1 None) Cases.twoCheckIns)
                  = Store.log
                      (reviewLog (Cases.review 1 None) "attendance_approved" 1
                         (Cases.checkInOf 1 flagged 1000) approved)
                      (decide 1 approved None "root" now Cases.twoCheckIns))
        by reflexivity.
      rewrite E. unfold approvedCount. cbn [snd Store.db Store.log].
      rewrite records_decide.
      cbn [Store.db Cases.twoCheckIns Cases.world Scenario.store attendance_records
           map AttendanceRecord.id Cases.checkInOf Nat.eqb filter].
      rewrite approvedOn_decided. cbn [AttendanceRecord.user_id AttendanceRecord.type
        AttendanceRecord.timestamp Cases.checkInOf].
      unfold approvedOn. cbn [AttendanceRecord.user_id AttendanceRecord.type
        AttendanceRecord.timestamp AttendanceRecord.status Cases.checkInOf].
      now rewrite String.eqb_refl, Z.eqb_refl.
Qed.

Lemma decisions_witness :
  oneApprovedPerDay Fixture.runtime
    (Store.db (snd (approve 5000 (Cases.review 0 None) Cases.oneFlagged)))
  /\ approvedCount Fixture.runtime Scenario.alice check_in 0
       (Store.db (snd (approve 5000 (Cases.review 0 None) Cases.oneFlagged)))
     = 1%nat.
Proof.
  assert (Inv : oneApprovedPerDay Fixture.runtime (Store.db Cases.oneFlagged)).
  { intros u d. unfold approvedCount.
    cbn [Store.db Cases.oneFlagged Cases.world Scenario.store attendance_records
         filter].
    rewrite !flagged_not_counted. simpl. lia. }
  destruct (decisions_and_one_approved_per_day Fixture.runtime 5000
              (Cases.review 0 None) Cases.oneFlagged Inv) as (_ & H & _).
  split; [|reflexivity].
  apply H.
  - cbn. repeat constructor. intros [].
  - intros id record Hid Hrec. right.
    injection Hid as <-. cbn in Hrec. injection Hrec as <-. reflexivity.
Defined.

(** X7.  Once an administrator has approved a check-in, the duplicate check
    counts it: for the rest of that day a check-in of the same user is
    answered "You have already checked in today" and leaves the store as it
    is, whatever the record was flagged for. *)
Theorem approved_check_in_blocks_another :
  forall (rt : Runtime.t) (now now' scheduleNow : Z) (req : ReviewRequest.t)
         (s : Store.t) (id : nat) (record : AttendanceRecord.t)
         (again : Request.t),
    ReviewRequest.id req = Some id ->
    recordById id (Store.db s) = Some record ->
    AttendanceRecord.type record = check_in ->
    dayOf rt now' = dayOf rt (AttendanceRecord.timestamp record) ->
    Request.user_id again = AttendanceRecord.user_id record ->
    checkInValid rt again = true ->
    Request.file again <> None ->
    let s' := snd (approve now req s) in
    Http.success (fst (approve now req s)) = true
    /\ alreadyCheckedIn rt now' (AttendanceRecord.user_id record) (Store.db s') = true
    /\ AdminRoutes.checkIn rt now' scheduleNow again s'
       = (failure 400 "You have already checked in today" NoDetails, s').
Proof.
  intros rt now now' scheduleNow req s id record again Hid Hrec Hty Hday Hu Hv Hf s'.
  assert (E : approve now req s
              = ({| Http.http_status := 200; Http.success := true;
                    Http.message := Some "Attendance record approved successfully";
                    Http.body := Http.Empty |},
                 Store.log (reviewLog req "attendance_approved" id record approved)
                   (decide id approved None (ReviewRequest.admin req) now s))).
  { unfold approve. rewrite Hid. simpl. now rewrite Hrec. }
  assert (A : alreadyCheckedIn rt now' (AttendanceRecord.user_id record) (Store.db s')
              = true).
  { apply alreadyCheckedIn_iff. exists (decided approved None record).
    apply recordById_In in Hrec. destruct Hrec as [Hin Hrid].
    split; [|repeat split; auto].
    unfold s'. rewrite E. cbn [snd Store.log Store.db]. rewrite records_decide.
    apply in_map_iff. exists record. split; [|assumption].
    now rewrite Hrid, Nat.eqb_refl. }
  split; [now rewrite E|]. split; [exact A|].
  unfold AdminRoutes.checkIn.
  rewrite checkIn_duplicate_refused; [|rewrite Hu; exact A|assumption|assumption].
  cbn [fst snd]. f_equal. now destruct s'.
Qed.

Lemma approved_check_in_witness :
  AdminRoutes.checkIn Fixture.runtime 2000 2000
    (Scenario.submission Scenario.probeImage "0" "0" None)
    (snd (approve 1500 (Cases.review 0 None) Cases.oneFlagged))
  = (failure 400 "You have already checked in today" NoDetails,
     snd (approve 1500 (Cases.review 0 None) Cases.oneFlagged)).
Proof.
  apply (approved_check_in_blocks_another Fixture.runtime 1500 2000 2000
           (Cases.review 0 None) Cases.oneFlagged 0
           (Cases.checkInOf 0 flagged 1000)
           (Scenario.submission Scenario.probeImage "0" "0" None));
    try reflexivity.
  discriminate.
Defined.

(** X8.  Once an administrator has rejected the approved check-in of a user
    for a day, the duplicate check no longer finds one: a later check-in of
    that user on that day is not answered "You have already checked in
    today".  (The ids of the table are distinct and the table has at most
    one approved check-in per user and day.) *)
Theorem rejected_check_in_frees_the_day :
  forall (rt : Runtime.t) (now now' scheduleNow : Z) (req : ReviewRequest.t)
         (s : Store.t) (id : nat) (record : AttendanceRecord.t)
         (again : Request.t),
    oneApprovedPerDay rt (Store.db s) ->
    NoDup (map AttendanceRecord.id (attendance_records (Store.db s))) ->
    rejectValid req = true ->
    ReviewRequest.id req = Some id ->
    recordById id (Store.db s) = Some record ->
    AttendanceRecord.type record = check_in ->
    AttendanceRecord.status record = approved ->
    dayOf rt now' = dayOf rt (AttendanceRecord.timestamp record) ->
    Request.user_id again = AttendanceRecord.user_id record ->
    let s' := snd (reject now req s) in
    Http.success (fst (reject now req s)) = true
    /\ alreadyCheckedIn rt now' (AttendanceRecord.user_id record) (Store.db s') = false
    /\ message (fst (AdminRoutes.checkIn rt now' scheduleNow again s'))
       <> "You have already checked in today".
Proof.
  intros rt now now' scheduleNow req s id record again Inv Hnd Hv Hid Hrec Hty Hst
         Hday Hu s'.
  assert (E : reject now req s
              = ({| Http.http_status := 200; Http.success := true;
                    Http.message := Some "Attendance record rejected successfully";
                    Http.body := Http.Empty |},
                 Store.log (reviewLog req "attendance_rejected" id record rejected)
                   (decide id rejected (ReviewRequest.reason req)
                      (ReviewRequest.admin req) now s))).
  { unfold reject. rewrite Hv, Hid. simpl. now rewrite Hrec. }
  assert (A : alreadyCheckedIn rt now' (AttendanceRecord.user_id record) (Store.db s')
              = false).
  { apply alreadyCheckedIn_count. rewrite Hday.
    apply recordById_In in Hrec. destruct Hrec as [Hin Hrid].
    unfold s'. rewrite E. cbn [snd Store.log Store.db].
    unfold approvedCount. rewrite records_decide.
    pose proof (decide_count rt (AttendanceRecord.user_id record) check_in
                  (dayOf rt (AttendanceRecord.timestamp record)) id rejected
                  (ReviewRequest.reason req) record _ Hnd Hin Hrid) as C.
    rewrite approvedOn_decided, andb_false_r in C.
    rewrite <- Hty in C at 2. rewrite approvedOn_self, Hst in C. cbn in C.
    destruct (Inv (AttendanceRecord.user_id record)
                  (dayOf rt (AttendanceRecord.timestamp record))) as [Hle _].
    unfold approvedCount in Hle. rewrite <- Hty in C. rewrite Hty in C. lia. }
  split; [now rewrite E|]. split; [exact A|].
  unfold AdminRoutes.checkIn. cbn [fst].
  apply checkIn_other_answer. now rewrite Hu.
Qed.

Lemma rejected_check_in_witness :
  alreadyCheckedIn Fixture.runtime 2000 Scenario.alice
    (Store.db (snd (reject 1500 (Cases.review 0 (Some "wrong site")) Cases.oneApproved)))
  = false
  /\ success (fst (AdminRoutes.checkIn Fixture.runtime 2000 2000
                     (Scenario.submission Scenario.probeImage "0" "0" None)
                     (snd (reject 1500 (Cases.review 0 (Some "wrong site"))
                             Cases.oneApproved))))
     = true.
Proof.
  assert (Inv : oneApprovedPerDay Fixture.runtime (Store.db Cases.oneApproved)).
  { intros u d. unfold approvedCount.
    cbn [Store.db Cases.oneApproved Cases.world Scenario.store attendance_records
         filter].
    destruct (approvedOn Fixture.runtime u check_in d _),
             (approvedOn Fixture.runtime u check_out d _); simpl; lia. }
  destruct (rejected_check_in_frees_the_day Fixture.runtime 1500 2000 2000
              (Cases.review 0 (Some "wrong site")) Cases.oneApproved 0
              (Cases.checkInOf 0 approved 1000)
              (Scenario.submission Scenario.probeImage "0" "0" None) Inv)
    as (_ & H & _); try reflexivity.
  - cbn. repeat constructor. intros [].
  - split; [exact H | reflexivity].
Defined.

End AdminFacts.

(* ------------------------------------------------------------------ *)
(** ** The face routes *)

Module FaceRouteFacts.

Import Js Tf Runtime Db Spec RouteFacts FaceRecognitionService.
Import Http FaceRoutes Vocabulary FloatOrderFacts.

Local Open Scope string_scope.
Local Open Scope list_scope.

Set Warnings "-inexact-float".

Lemma http_andThen_next {D A B} (s : step D A) (k : A -> step D B) b :
  andThen s k = Next b -> exists a, s = Next a /\ k a = Next b.
Proof. destruct s; simpl; intros H; try discriminate. eauto. Qed.

Lemma http_rejectIf_next {D} c (r : Response D) u : rejectIf c r = Next u -> c = false.
Proof. unfold rejectIf. now destruct c. Qed.

Lemma http_await_next {D A} (c : completion A) a : @await D A c = Next a -> c = Return a.
Proof. destruct c; simpl; intros H; now inversion H. Qed.

Lemma http_orRespond_next {D A} (o : option A) (r : Response D) a :
  orRespond o r = Next a -> o = Some a.
Proof. destruct o; simpl; intros H; now inversion H. Qed.

Lemma similarExists_false rt f l :
  similarExists rt f l = Return false ->
  Forall (fun t => exists v c,
            decryptFaceTemplate rt (FaceTemplate.face_encoding t) = Return v
            /\ compareFaces f v None = Return c
            /\ Js.gt (similarity c) 0.9 = false) l.
Proof.
  induction l as [|t l IH]; simpl; intros H; [constructor|].
  destruct (decryptFaceTemplate rt (FaceTemplate.face_encoding t)) as [v|e] eqn:Ev;
    simpl in H; [|discriminate].
  destruct (compareFaces f v None) as [c|e] eqn:Ec; simpl in H; [|discriminate].
  destruct (Js.gt (similarity c) 0.9) eqn:G; [discriminate|].
  constructor; [exists v, c; auto | auto].
Qed.

Lemma singleClearFace_next {D} rt img face :
  @singleClearFace D rt img = Next face ->
  detectFaces rt img = Return [face]
  /\ Js.lt (Face.confidence face) 0.8 = false.
Proof.
  unfold singleClearFace. intros H.
  apply http_andThen_next in H. destruct H as (faces & Hd & H).
  apply http_await_next in Hd.
  destruct faces as [|f [|f' faces]]; try discriminate.
  apply http_andThen_next in H. destruct H as ([] & Hq & H).
  apply http_rejectIf_next in Hq. injection H as <-. auto.
Qed.

Lemma registerChecks_next {D} rt lib req s e :
  @registerChecks D rt lib req s = Next e ->
  exists img,
    RegisterRequest.userId req = Some (targetUser e)
    /\ registerValid lib req = true
    /\ RegisterRequest.file req = Some img
    /\ activeUser (targetUser e) s <> None
    /\ detectFaces rt img = Return [face e]
    /\ Js.lt (Face.confidence (face e)) 0.8 = false
    /\ detectLiveness rt img (Face.box (face e)) = Return (livenessResult e)
    /\ LivenessResult.isLive (livenessResult e) = true
    /\ extractFaceFeatures rt img (Face.box (face e)) = Return (features e)
    /\ encryptFaceTemplate rt (features e) = Return (encryptedTemplate e)
    /\ faceHash e = FaceHash.generateFaceHash rt lib (features e)
    /\ existingTemplates e = templatesOf (targetUser e) (Store.db s)
    /\ similarExists rt (features e) (existingTemplates e) = Return false.
Proof.
  unfold registerChecks. intros H.
  destruct (registerValid lib req) eqn:V; [|discriminate].
  destruct (RegisterRequest.userId req) as [userId|] eqn:U; [|discriminate].
  apply http_andThen_next in H. destruct H as (img & Himg & H).
  apply http_orRespond_next in Himg.
  apply http_andThen_next in H. destruct H as (user & Huser & H).
  apply http_orRespond_next in Huser.
  apply http_andThen_next in H. destruct H as (fc & Hface & H).
  apply singleClearFace_next in Hface. destruct Hface as [Hdet Hq].
  apply http_andThen_next in H. destruct H as (lv & Hlv & H). apply http_await_next in Hlv.
  apply http_andThen_next in H. destruct H as ([] & Hlive & H).
  apply http_rejectIf_next, negb_false_iff in Hlive.
  apply http_andThen_next in H. destruct H as (f & Hf & H). apply http_await_next in Hf.
  apply http_andThen_next in H. destruct H as (enc & Henc & H). apply http_await_next in Henc.
  apply http_andThen_next in H. destruct H as (sim & Hsim & H). apply http_await_next in Hsim.
  apply http_andThen_next in H. destruct H as ([] & Hrej & H).
  apply http_rejectIf_next in Hrej. subst sim.
  injection H as <-. cbn.
  exists img. repeat split; auto. congruence.
Qed.

Lemma registerChecks_refusing {D} rt lib req s : declining (@registerChecks D rt lib req s).
Proof.
  unfold registerChecks, declining. intros r.
  destruct (registerValid lib req); [|intros [= <-]; reflexivity].
  destruct (RegisterRequest.userId req) as [userId|]; [|intros [= <-]; reflexivity].
  destruct (RegisterRequest.file req); simpl; [|intros [= <-]; reflexivity].
  destruct (activeUser userId s); simpl; [|intros [= <-]; reflexivity].
  unfold singleClearFace.
  destruct (detectFaces rt i) as [[|f [|f' faces]]|e]; simpl;
    try (intros [= <-]; reflexivity); try discriminate.
  destruct (Js.lt (Face.confidence f) 0.8); simpl; [intros [= <-]; reflexivity|].
  destruct (detectLiveness rt i (Face.box f)) as [lv|e]; simpl; [|discriminate].
  destruct (LivenessResult.isLive lv); simpl; [|intros [= <-]; reflexivity].
  destruct (extractFaceFeatures rt i (Face.box f)) as [ft|e]; simpl; [|discriminate].
  destruct (encryptFaceTemplate rt ft) as [enc|e]; simpl; [|discriminate].
  destruct (similarExists rt ft (templatesOf userId (Store.db s))) as [[|]|e]; simpl;
    try discriminate.
  intros [= <-]; reflexivity.
Qed.

(** The two ways a registration ends: refused before any write, or carried
    to the writes with what the checks handed over. *)
Lemma register_cases rt lib newId req s :
  (success (fst (register rt lib newId req s)) = false
   /\ snd (register rt lib newId req s) = s)
  \/ exists e,
       @registerChecks Registered rt lib req s = Next e
       /\ register rt lib newId req s = registerPersist rt lib newId req e s.
Proof.
  unfold register.
  pose proof (@registerChecks_refusing Registered rt lib req s) as R.
  destruct (registerChecks rt lib req s) as [e|r|x]; simpl.
  - right. eauto.
  - left. split; [now apply R | reflexivity].
  - left. auto.
Qed.

(** *** The table under the four updates *)

Lemma loadTemplates_unset_same u db :
  AttendanceRoutes.loadTemplates u (unsetPrimary u db) = [].
Proof.
  unfold AttendanceRoutes.loadTemplates, unsetPrimary. cbn [face_templates with_templates].
  induction (face_templates db) as [|t l IH]; [reflexivity|].
  cbn [map filter].
  destruct (String.eqb (FaceTemplate.user_id t) u) eqn:E.
  - cbn [set_primary FaceTemplate.user_id FaceTemplate.is_primary]. rewrite E.
    cbn. exact IH.
  - rewrite E. cbn. exact IH.
Qed.

Lemma loadTemplates_unset_other u v db :
  u <> v ->
  AttendanceRoutes.loadTemplates v (unsetPrimary u db)
  = AttendanceRoutes.loadTemplates v db.
Proof.
  intros N.
  unfold AttendanceRoutes.loadTemplates, unsetPrimary. cbn [face_templates with_templates].
  induction (face_templates db) as [|t l IH]; [reflexivity|].
  cbn [map filter].
  destruct (String.eqb_spec (FaceTemplate.user_id t) u) as [E|E].
  - cbn [set_primary FaceTemplate.user_id FaceTemplate.is_primary].
    destruct (String.eqb_spec (FaceTemplate.user_id t) v) as [E'|E']; [congruence|].
    cbn. exact IH.
  - destruct (String.eqb (FaceTemplate.user_id t) v
              && Bool.eqb (FaceTemplate.is_primary t) true); [f_equal|]; exact IH.
Qed.

Lemma loadTemplates_insert u row db :
  AttendanceRoutes.loadTemplates u (insertTemplate row db)
  = AttendanceRoutes.loadTemplates u db
    ++ (if String.eqb (FaceTemplate.user_id row) u
           && Bool.eqb (FaceTemplate.is_primary row) true
        then [row] else []).
Proof.
  unfold AttendanceRoutes.loadTemplates, insertTemplate.
  cbn [face_templates with_templates]. now rewrite filter_app.
Qed.

Lemma loadTemplates_delete u id db :
  AttendanceRoutes.loadTemplates u (deleteById id db)
  = filter (fun t => negb (Nat.eqb (FaceTemplate.id t) id))
           (AttendanceRoutes.loadTemplates u db).
Proof.
  unfold AttendanceRoutes.loadTemplates, deleteById.
  cbn [face_templates with_templates].
  induction (face_templates db) as [|t l IH]; [reflexivity|].
  cbn [filter].
  destruct (negb (Nat.eqb (FaceTemplate.id t) id)) eqn:A,
           (String.eqb (FaceTemplate.user_id t) u
            && Bool.eqb (FaceTemplate.is_primary t) true) eqn:B;
    cbn [filter]; rewrite ?A, ?B; rewrite IH; reflexivity.
Qed.

Lemma filter_length_le {A} (p : A -> bool) l :
  (List.length (filter p l) <= List.length l)%nat.
Proof. induction l as [|x l IH]; simpl; [lia|]. destruct (p x); simpl; lia. Qed.

Lemma ids_unset u db :
  map FaceTemplate.id (face_templates (unsetPrimary u db))
  = map FaceTemplate.id (face_templates db).
Proof.
  unfold unsetPrimary. cbn [face_templates with_templates]. rewrite map_map.
  apply map_ext. intros t. now destruct (String.eqb (FaceTemplate.user_id t) u).
Qed.

Lemma ids_mark id db :
  map FaceTemplate.id (face_templates (markPrimary id db))
  = map FaceTemplate.id (face_templates db).
Proof.
  unfold markPrimary. cbn [face_templates with_templates]. rewrite map_map.
  apply map_ext. intros t. now destruct (Nat.eqb (FaceTemplate.id t) id).
Qed.

Lemma NoDup_map_filter {A B} (f : A -> B) (p : A -> bool) l :
  NoDup (map f l) -> NoDup (map f (filter p l)).
Proof.
  induction l as [|x l IH]; simpl; intros H; [constructor|].
  inversion H as [|? ? Hx Hl]; subst.
  destruct (p x); simpl; [|auto].
  constructor; [|auto]. intros Hin. apply Hx.
  apply in_map_iff in Hin. destruct Hin as (y & <- & Hy).
  apply filter_In in Hy. apply in_map. tauto.
Qed.

(** Marking the template [id] of user [u] among templates with distinct
    ids, none of which is primary for [u]. *)
Lemma loadTemplates_mark u id t0 db :
  distinctIds db ->
  In t0 (face_templates db) ->
  FaceTemplate.id t0 = id ->
  FaceTemplate.user_id t0 = u ->
  AttendanceRoutes.loadTemplates u db = [] ->
  AttendanceRoutes.loadTemplates u (markPrimary id db) = [set_primary true t0].
Proof.
  unfold distinctIds, AttendanceRoutes.loadTemplates, markPrimary.
  cbn [face_templates with_templates].
  induction (face_templates db) as [|t l IH]; intros Hnd Hin Hid Hu Hnone;
    [destruct Hin|].
  cbn [map] in Hnd. inversion Hnd as [|? ? Hx Hnd']; subst.
  cbn [map filter] in *.
  destruct Hin as [<- | Hin].
  - rewrite Nat.eqb_refl. cbn [set_primary FaceTemplate.user_id FaceTemplate.is_primary].
    rewrite String.eqb_refl. cbn. f_equal.
    rewrite String.eqb_refl in Hnone.
    destruct (Bool.eqb (FaceTemplate.is_primary t) true); [discriminate|].
    cbn in Hnone. rewrite <- Hnone. f_equal.
    rewrite <- (map_id l) at 2. apply map_ext_in. intros y Hy.
    destruct (Nat.eqb_spec (FaceTemplate.id y) (FaceTemplate.id t)) as [e|]; [|reflexivity].
    exfalso. apply Hx. rewrite <- e. now apply in_map.
  - assert (N : Nat.eqb (FaceTemplate.id t) (FaceTemplate.id t0) = false).
    { apply Nat.eqb_neq. intros e. apply Hx. rewrite e. now apply in_map. }
    rewrite N.
    destruct (String.eqb (FaceTemplate.user_id t) (FaceTemplate.user_id t0)
              && Bool.eqb (FaceTemplate.is_primary t) true); [discriminate|].
    now apply IH.
Qed.

Lemma loadTemplates_mark_other u id t0 db :
  distinctIds db ->
  In t0 (face_templates db) ->
  FaceTemplate.id t0 = id ->
  FaceTemplate.user_id t0 <> u ->
  AttendanceRoutes.loadTemplates u (markPrimary id db)
  = AttendanceRoutes.loadTemplates u db.
Proof.
  unfold distinctIds, AttendanceRoutes.loadTemplates, markPrimary.
  cbn [face_templates with_templates].
  induction (face_templates db) as [|t l IH]; intros Hnd Hin Hid Hu; [destruct Hin|].
  cbn [map] in Hnd. inversion Hnd as [|? ? Hx Hnd']; subst.
  cbn [map filter].
  destruct Hin as [<- | Hin].
  - rewrite Nat.eqb_refl. cbn [set_primary FaceTemplate.user_id FaceTemplate.is_primary].
    destruct (String.eqb_spec (FaceTemplate.user_id t) u) as [e|_]; [contradiction|].
    cbn. f_equal.
    rewrite <- (map_id l) at 2. apply map_ext_in. intros y Hy.
    destruct (Nat.eqb_spec (FaceTemplate.id y) (FaceTemplate.id t)) as [e|]; [|reflexivity].
    exfalso. apply Hx. rewrite <- e. now apply in_map.
  - assert (N : Nat.eqb (FaceTemplate.id t) (FaceTemplate.id t0) = false).
    { apply Nat.eqb_neq. intros e. apply Hx. rewrite e. now apply in_map. }
    rewrite N.
    destruct (String.eqb (FaceTemplate.user_id t) u
              && Bool.eqb (FaceTemplate.is_primary t) true); [f_equal|]; now apply IH.
Qed.

Lemma templateById_In id db t :
  templateById id db = Some t -> In t (face_templates db) /\ FaceTemplate.id t = id.
Proof.
  unfold templateById. intros H. apply find_some in H. destruct H as [Hin Hid].
  apply Nat.eqb_eq in Hid. auto.
Qed.

Lemma In_unset u db t :
  In t (face_templates db) ->
  In (if String.eqb (FaceTemplate.user_id t) u then set_primary false t else t)
     (face_templates (unsetPrimary u db)).
Proof.
  intros H. unfold unsetPrimary. cbn [face_templates with_templates].
  apply in_map_iff. exists t. auto.
Qed.

Lemma loadTemplates_of u db :
  AttendanceRoutes.loadTemplates u db
  = filter (fun t => Bool.eqb (FaceTemplate.is_primary t) true) (templatesOf u db).
Proof.
  unfold AttendanceRoutes.loadTemplates, templatesOf.
  induction (face_templates db) as [|t l IH]; [reflexivity|].
  cbn [filter]. destruct (String.eqb (FaceTemplate.user_id t) u); cbn [andb filter];
    [|exact IH].
  destruct (Bool.eqb (FaceTemplate.is_primary t) true); [f_equal|]; exact IH.
Qed.

Lemma deleteTemplate_cases req s :
  (success (fst (deleteTemplate req s)) = false /\ snd (deleteTemplate req s) = s)
  \/ exists id template,
       TemplateRequest.templateId req = Some id
       /\ templateById id (Store.db s) = Some template
       /\ success (fst (deleteTemplate req s)) = true
       /\ Store.db (snd (deleteTemplate req s)) = deleteById id (Store.db s).
Proof.
  unfold deleteTemplate.
  destruct (TemplateRequest.templateId req) as [id|]; simpl; [|left; auto].
  destruct (templateById id (Store.db s)) as [t|] eqn:E; simpl; [|left; auto].
  right. exists id, t. auto.
Qed.

Lemma setPrimary_cases req s :
  (success (fst (setPrimary req s)) = false /\ snd (setPrimary req s) = s)
  \/ exists id template,
       TemplateRequest.templateId req = Some id
       /\ templateById id (Store.db s) = Some template
       /\ success (fst (setPrimary req s)) = true
       /\ Store.db (snd (setPrimary req s))
          = markPrimary id (unsetPrimary (FaceTemplate.user_id template) (Store.db s)).
Proof.
  unfold setPrimary.
  destruct (TemplateRequest.templateId req) as [id|]; simpl; [|left; auto].
  destruct (templateById id (Store.db s)) as [t|] eqn:E; simpl; [|left; auto].
  right. exists id, t. auto.
Qed.

Lemma setPrimary_loads id template db :
  distinctIds db ->
  templateById id db = Some template ->
  let db' := markPrimary id (unsetPrimary (FaceTemplate.user_id template) db) in
  distinctIds db'
  /\ AttendanceRoutes.loadTemplates (FaceTemplate.user_id template) db'
     = [set_primary true template]
  /\ forall v, v <> FaceTemplate.user_id template ->
               AttendanceRoutes.loadTemplates v db'
               = AttendanceRoutes.loadTemplates v db.
Proof.
  intros Hd Ht db'. apply templateById_In in Ht. destruct Ht as [Hin Hid].
  set (u := FaceTemplate.user_id template) in *.
  assert (Hd1 : distinctIds (unsetPrimary u db)).
  { unfold distinctIds. now rewrite ids_unset. }
  assert (Hin1 : In (set_primary false template) (face_templates (unsetPrimary u db))).
  { pose proof (In_unset u db template Hin) as H. unfold u in H at 1.
    now rewrite String.eqb_refl in H. }
  split; [|split].
  - unfold distinctIds, db'. now rewrite ids_mark.
  - unfold db'.
    rewrite (loadTemplates_mark u id (set_primary false template));
      auto using loadTemplates_unset_same.
  - intros v Hv. unfold db'.
    rewrite (loadTemplates_mark_other v id (set_primary false template)); auto.
    apply loadTemplates_unset_other. congruence.
Qed.

Lemma registerPersist_db rt lib newId req e s :
  let db1 := if AttendanceRoutes.truthyText (RegisterRequest.isPrimary req)
             then unsetPrimary (targetUser e) (Store.db s) else Store.db s in
  (success (fst (registerPersist rt lib newId req e s)) = false
   /\ Store.db (snd (registerPersist rt lib newId req e s)) = db1)
  \/ exists quality_score is_primary,
       Store.integer (qualityOf rt (face e)) = Some quality_score
       /\ primaryColumn lib (RegisterRequest.isPrimary req) (existingTemplates e)
          = Some is_primary
       /\ success (fst (registerPersist rt lib newId req e s)) = true
       /\ Store.db (snd (registerPersist rt lib newId req e s))
          = insertTemplate
              {| FaceTemplate.id := newId;
                 FaceTemplate.user_id := targetUser e;
                 FaceTemplate.face_encoding := encryptedTemplate e;
                 FaceTemplate.face_hash := faceHash e;
                 FaceTemplate.quality_score := quality_score;
                 FaceTemplate.is_primary := is_primary |} db1.
Proof.
  intros db1. unfold registerPersist.
  destruct (Store.integer (qualityOf rt (face e))) as [q|];
    [destruct (primaryColumn lib (RegisterRequest.isPrimary req) (existingTemplates e))
       as [p|]|].
  - right. exists q, p. repeat split; auto. unfold db1.
    now destruct (AttendanceRoutes.truthyText (RegisterRequest.isPrimary req)).
  - left. split; [reflexivity|]. unfold db1. cbn [snd].
    now destruct (AttendanceRoutes.truthyText (RegisterRequest.isPrimary req)).
  - left. split; [reflexivity|]. unfold db1. cbn [snd].
    now destruct (AttendanceRoutes.truthyText (RegisterRequest.isPrimary req)).
Qed.

Lemma register_keeps rt lib newId req s :
  distinctIds (Store.db s) ->
  onePrimaryPerUser (Store.db s) ->
  ~ In newId (map FaceTemplate.id (face_templates (Store.db s))) ->
  distinctIds (Store.db (snd (register rt lib newId req s)))
  /\ onePrimaryPerUser (Store.db (snd (register rt lib newId req s))).
Proof.
  intros Hd Hp Hfresh.
  destruct (register_cases rt lib newId req s) as [[_ ->] | (e & Hc & ->)]; [auto|].
  apply registerChecks_next in Hc.
  destruct Hc as (img & _ & _ & _ & _ & _ & _ & _ & _ & _ & _ & _ & Hex & _).
  set (truthy := AttendanceRoutes.truthyText (RegisterRequest.isPrimary req)).
  set (db1 := if truthy then unsetPrimary (targetUser e) (Store.db s) else Store.db s).
  assert (Hd1 : map FaceTemplate.id (face_templates db1)
                = map FaceTemplate.id (face_templates (Store.db s))).
  { unfold db1. destruct truthy; [apply ids_unset | reflexivity]. }
  assert (Hp1 : forall v, (List.length (AttendanceRoutes.loadTemplates v db1) <= 1)%nat).
  { intros v. unfold db1. destruct truthy; [|apply Hp].
    destruct (String.eqb_spec (targetUser e) v) as [<-|N].
    - rewrite loadTemplates_unset_same. simpl. lia.
    - rewrite loadTemplates_unset_other by assumption. apply Hp. }
  destruct (registerPersist_db rt lib newId req e s)
    as [[_ ->] | (q & p & _ & Hcol & _ & ->)]; fold truthy; fold db1.
  - split; [unfold distinctIds; now rewrite Hd1 | exact Hp1].
  - split.
    + unfold distinctIds, insertTemplate. cbn [face_templates with_templates].
      rewrite map_app, Hd1. cbn [map FaceTemplate.id].
      apply NoDup_app; [exact Hd | repeat constructor; intros []|].
      intros a Ha [<- | []]. contradiction.
    + intros v. rewrite loadTemplates_insert.
      cbn [FaceTemplate.user_id FaceTemplate.is_primary].
      destruct (String.eqb_spec (targetUser e) v) as [<-|N]; cbn [andb];
        [|rewrite app_nil_r; apply Hp1].
      destruct (Bool.eqb p true) eqn:P; [|rewrite app_nil_r; apply Hp1].
      assert (Z0 : AttendanceRoutes.loadTemplates (targetUser e) db1 = []).
      { unfold db1. destruct truthy eqn:T; [apply loadTemplates_unset_same|].
        unfold primaryColumn in Hcol. fold truthy in Hcol. rewrite T in Hcol.
        injection Hcol as <-. apply Bool.eqb_prop in P.
        apply Nat.eqb_eq in P. apply length_zero_iff_nil in P.
        rewrite loadTemplates_of, <- Hex, P. reflexivity. }
      rewrite Z0. simpl. lia.
Qed.

Lemma deleteTemplate_keeps req s :
  distinctIds (Store.db s) ->
  onePrimaryPerUser (Store.db s) ->
  distinctIds (Store.db (snd (deleteTemplate req s)))
  /\ onePrimaryPerUser (Store.db (snd (deleteTemplate req s))).
Proof.
  intros Hd Hp.
  destruct (deleteTemplate_cases req s) as [[_ ->] | (id & t & _ & _ & _ & ->)]; [auto|].
  split.
  - unfold distinctIds, deleteById. cbn [face_templates with_templates].
    now apply NoDup_map_filter.
  - intros v. rewrite loadTemplates_delete.
    eapply Nat.le_trans; [apply filter_length_le | apply Hp].
Qed.

Lemma setPrimary_keeps req s :
  distinctIds (Store.db s) ->
  onePrimaryPerUser (Store.db s) ->
  distinctIds (Store.db (snd (setPrimary req s)))
  /\ onePrimaryPerUser (Store.db (snd (setPrimary req s))).
Proof.
  intros Hd Hp.
  destruct (setPrimary_cases req s) as [[_ ->] | (id & t & _ & Ht & _ & ->)]; [auto|].
  destruct (setPrimary_loads id t (Store.db s) Hd Ht) as (Hd' & Hu & Hv).
  split; [exact Hd'|].
  intros v. destruct (String.eqb_spec v (FaceTemplate.user_id t)) as [->|N].
  - rewrite Hu. simpl. lia.
  - rewrite Hv by assumption. apply Hp.
Qed.

(** X9.  The three routes that write to [face_templates] keep its rule.
    When the ids of the table are distinct and no user has more than one
    primary template, the same holds after a registration (the store drawing
    an id the table does not hold yet), after a deletion and after setting a
    template primary, whatever the request is and however the handler
    ends. *)
Theorem face_routes_keep_one_primary :
  forall (rt : Runtime.t) (lib : Lib.t) (newId : nat)
         (registration : RegisterRequest.t) (request : TemplateRequest.t)
         (s : Store.t),
    distinctIds (Store.db s) ->
    onePrimaryPerUser (Store.db s) ->
    ~ In newId (map FaceTemplate.id (face_templates (Store.db s))) ->
    (distinctIds (Store.db (snd (register rt lib newId registration s)))
     /\ onePrimaryPerUser (Store.db (snd (register rt lib newId registration s))))
    /\ (distinctIds (Store.db (snd (deleteTemplate request s)))
        /\ onePrimaryPerUser (Store.db (snd (deleteTemplate request s))))
    /\ (distinctIds (Store.db (snd (setPrimary request s)))
        /\ onePrimaryPerUser (Store.db (snd (setPrimary request s)))).
Proof.
  intros rt lib newId registration request s Hd Hp Hfresh.
  split; [now apply register_keeps|].
  split; [now apply deleteTemplate_keeps | now apply setPrimary_keeps].
Qed.

Lemma onePrimary_rule : distinctIds (Store.db Cases.onePrimary)
                        /\ onePrimaryPerUser (Store.db Cases.onePrimary).
Proof.
  split.
  - unfold distinctIds. cbn. repeat constructor. intros [].
  - intros u. unfold AttendanceRoutes.loadTemplates.
    eapply Nat.le_trans; [apply filter_length_le|]. cbn. lia.
Qed.

Lemma face_routes_witness :
  onePrimaryPerUser
    (Store.db (snd (register Fixture.runtime Cases.lib 1
                      (Cases.registration Cases.otherImage (Some "true"))
                      Cases.onePrimary)))
  /\ map FaceTemplate.is_primary
       (face_templates
          (Store.db (snd (register Fixture.runtime Cases.lib 1
                            (Cases.registration Cases.otherImage (Some "true"))
                            Cases.onePrimary))))
     = [false; true].
Proof.
  destruct onePrimary_rule as [Hd Hp].
  destruct (face_routes_keep_one_primary Fixture.runtime Cases.lib 1
              (Cases.registration Cases.otherImage (Some "true"))
              (Cases.aboutTemplate 0) Cases.onePrimary Hd Hp)
    as ((_ & H) & _).
  - cbn. intros [E | []]. discriminate E.
  - split; [exact H | reflexivity].
Defined.

Lemma checkInMatch_single rt u f db t v c :
  AttendanceRoutes.loadTemplates u db = [t] ->
  decryptFaceTemplate rt (FaceTemplate.face_encoding t) = Return v ->
  compareFaces f v None = Return c ->
  AttendanceRoutes.checkInMatch rt u f db = matchAnswer (similarity c).
Proof.
  intros Hl Hv Hc. unfold AttendanceRoutes.checkInMatch, matchAnswer. rewrite Hl.
  cbn [List.length Nat.eqb AttendanceRoutes.rejectIf AttendanceRoutes.andThen
       AttendanceRoutes.bestOf].
  rewrite Hv. cbn [Js.bind]. rewrite Hc. cbn [Js.bind].
  destruct (Js.gt (similarity c) 0) eqn:G;
    cbn [AttendanceRoutes.await AttendanceRoutes.andThen fst snd
         AttendanceRoutes.notRecognized AttendanceRoutes.rejectIf].
  - change AttendanceRoutes.confidenceThreshold with 0.8%float.
    now destruct (Js.lt (similarity c) 0.8).
  - reflexivity.
Qed.

Lemma checkInMatch_none rt u f db :
  AttendanceRoutes.loadTemplates u db = [] ->
  AttendanceRoutes.checkInMatch rt u f db
  = AttendanceRoutes.Respond
      (AttendanceRoutes.failure 400
         "No face template found. Please register your face first."
         AttendanceRoutes.NoDetails).
Proof. intros Hl. unfold AttendanceRoutes.checkInMatch. now rewrite Hl. Qed.


Lemma primaryAndSecond_distinct : distinctIds (Store.db Cases.primaryAndSecond).
Proof.
  unfold distinctIds. cbn. repeat constructor; simpl; intuition discriminate.
Qed.


Lemma templatesOf_delete u id db :
  templatesOf u (deleteById id db)
  = filter (fun t => negb (Nat.eqb (FaceTemplate.id t) id)) (templatesOf u db).
Proof.
  unfold templatesOf, deleteById. cbn [face_templates with_templates].
  induction (face_templates db) as [|t l IH]; [reflexivity|].
  cbn [filter].
  destruct (negb (Nat.eqb (FaceTemplate.id t) id)) eqn:A,
           (String.eqb (FaceTemplate.user_id t) u) eqn:B;
    cbn [filter]; rewrite ?A, ?B, IH; reflexivity.
Qed.

(** X11.  Deleting the primary template of a user leaves the user without a
    template the check-in loads, even when other templates of the user
    remain in the table: none of them is promoted, and every check-in of that
    user is answered 400 "No face template found. Please register your face
    first." *)
Theorem deleting_the_primary_template_locks_out :
  forall (rt : Runtime.t) (request : TemplateRequest.t) (s : Store.t)
         (id : nat) (template : FaceTemplate.t),
    onePrimaryPerUser (Store.db s) ->
    TemplateRequest.templateId request = Some id ->
    templateById id (Store.db s) = Some template ->
    FaceTemplate.is_primary template = true ->
    let db' := Store.db (snd (deleteTemplate request s)) in
    let userId := FaceTemplate.user_id template in
    success (fst (deleteTemplate request s)) = true
    /\ templatesOf userId db'
       = filter (fun t => negb (Nat.eqb (FaceTemplate.id t) id))
                (templatesOf userId (Store.db s))
    /\ AttendanceRoutes.loadTemplates userId db' = []
    /\ (forall faceFeatures : tensor,
          AttendanceRoutes.checkInMatch rt userId faceFeatures db'
          = AttendanceRoutes.Respond
              (AttendanceRoutes.failure 400
                 "No face template found. Please register your face first."
                 AttendanceRoutes.NoDetails)).
Proof.
  intros rt request s id template Hp Hid Ht Hprim db' userId.
  assert (Hs : success (fst (deleteTemplate request s)) = true
               /\ db' = deleteById id (Store.db s)).
  { unfold db', deleteTemplate. rewrite Hid. simpl. now rewrite Ht. }
  destruct Hs as [Hs Hdb].
  apply templateById_In in Ht. destruct Ht as [Hin Htid].
  assert (Hload : AttendanceRoutes.loadTemplates userId db' = []).
  { rewrite Hdb, loadTemplates_delete.
    assert (Hm : In template (AttendanceRoutes.loadTemplates userId (Store.db s))).
    { exact (proj2 (loadTemplates_In userId (Store.db s) template)
               (conj Hin (conj eq_refl Hprim))). }
    specialize (Hp userId).
    destruct (AttendanceRoutes.loadTemplates userId (Store.db s)) as [|t [|t' l]];
      [destruct Hm | | simpl in Hp; lia].
    destruct Hm as [-> | []]. cbn [filter]. now rewrite Htid, Nat.eqb_refl. }
  split; [exact Hs|]. split; [|split; [exact Hload|]].
  - rewrite Hdb. apply templatesOf_delete.
  - intros f. now apply checkInMatch_none.
Qed.

Lemma primaryAndSecond_rule : onePrimaryPerUser (Store.db Cases.primaryAndSecond).
Proof.
  intros u. unfold AttendanceRoutes.loadTemplates.
  cbn [Store.db Cases.primaryAndSecond Cases.world Scenario.store face_templates
       filter].
  change (FaceTemplate.is_primary (Scenario.enrolled 1 [0; 1; 0; 0; 0]%float false))
    with false.
  cbn [Bool.eqb]. rewrite andb_false_r.
  destruct (_ && _); simpl; lia.
Qed.

Lemma deleting_witness :
  List.length (templatesOf Scenario.alice
                 (Store.db (snd (deleteTemplate (Cases.aboutTemplate 0)
                                   Cases.primaryAndSecond)))) = 1%nat
  /\ AttendanceRoutes.checkInMatch Fixture.runtime Scenario.alice Scenario.probe
       (Store.db (snd (deleteTemplate (Cases.aboutTemplate 0) Cases.primaryAndSecond)))
     = AttendanceRoutes.Respond
         (AttendanceRoutes.failure 400
            "No face template found. Please register your face first."
            AttendanceRoutes.NoDetails).
Proof.
  destruct (deleting_the_primary_template_locks_out Fixture.runtime
              (Cases.aboutTemplate 0) Cases.primaryAndSecond 0
              (Scenario.enrolled 0 Scenario.probe true)
              primaryAndSecond_rule eq_refl eq_refl eq_refl)
    as (_ & _ & _ & H).
  split; [reflexivity | apply H].
Defined.

Lemma decrypt_encrypt rt v c :
  NodeContract rt -> jsonFaithful rt v ->
  encryptFaceTemplate rt v = Return c ->
  decryptFaceTemplate rt c = Return v.
Proof.
  intros [Hc] Hv. unfold encryptFaceTemplate, decryptFaceTemplate.
  destruct (encryptionKey rt) as [key|]; [|discriminate].
  intros [= <-]. rewrite Hc. exact Hv.
Qed.

Lemma register_reaches rt lib newId req s e :
  @registerChecks Registered rt lib req s = Next e ->
  register rt lib newId req s = registerPersist rt lib newId req e s.
Proof. intros H. unfold register. now rewrite H. Qed.

(** The primary templates of the user after the writes of a registration. *)
Lemma registerPersist_loads rt lib newId req e s :
  existingTemplates e = templatesOf (targetUser e) (Store.db s) ->
  AttendanceRoutes.loadTemplates (targetUser e)
    (Store.db (snd (registerPersist rt lib newId req e s)))
  = match Store.integer (qualityOf rt (face e)),
          primaryColumn lib (RegisterRequest.isPrimary req) (existingTemplates e) with
    | Some quality_score, Some true =>
        [ {| FaceTemplate.id := newId;
             FaceTemplate.user_id := targetUser e;
             FaceTemplate.face_encoding := encryptedTemplate e;
             FaceTemplate.face_hash := faceHash e;
             FaceTemplate.quality_score := quality_score;
             FaceTemplate.is_primary := true |} ]
    | _, _ =>
        if AttendanceRoutes.truthyText (RegisterRequest.isPrimary req) then []
        else AttendanceRoutes.loadTemplates (targetUser e) (Store.db s)
    end.
Proof.
  intros Hex.
  destruct (registerPersist_db rt lib newId req e s)
    as [[Hs ->] | (q & p & Hq & Hp & _ & ->)].
  - assert (F : match Store.integer (qualityOf rt (face e)),
                      primaryColumn lib (RegisterRequest.isPrimary req)
                        (existingTemplates e) with
                | Some _, Some _ => False
                | _, _ => True
                end).
    { unfold registerPersist in Hs.
      destruct (Store.integer (qualityOf rt (face e))); [|exact I].
      destruct (primaryColumn lib (RegisterRequest.isPrimary req) (existingTemplates e));
        [discriminate Hs | exact I]. }
    destruct (Store.integer (qualityOf rt (face e)));
      [destruct (primaryColumn lib (RegisterRequest.isPrimary req)
                   (existingTemplates e)); [destruct F|]|];
      destruct (AttendanceRoutes.truthyText (RegisterRequest.isPrimary req));
      auto using loadTemplates_unset_same.
  - rewrite Hq, Hp, loadTemplates_insert.
    cbn [FaceTemplate.user_id FaceTemplate.is_primary]. rewrite String.eqb_refl.
    cbn [andb].
    destruct (AttendanceRoutes.truthyText (RegisterRequest.isPrimary req)) eqn:T.
    + rewrite loadTemplates_unset_same. now destruct p.
    + destruct p; cbn [Bool.eqb]; [|now rewrite app_nil_r].
      unfold primaryColumn in Hp. rewrite T in Hp. injection Hp as Hp.
      apply Nat.eqb_eq, length_zero_iff_nil in Hp.
      now rewrite loadTemplates_of, <- Hex, Hp.
Qed.



Lemma detectFaces_confident rt img faces :
  detectFaces rt img = Return faces ->
  Forall (fun face => Js.gt (Face.confidence face) 0.7 = true) faces.
Proof.
  unfold detectFaces.
  destruct (preprocessImage rt img) as [p|e]; simpl; [|discriminate].
  destruct (faceDetectionModel_detectFaces rt img) as [fs|e]; simpl; [|discriminate].
  intros [= <-]. apply Forall_forall. intros f Hf. apply filter_In in Hf. tauto.
Qed.

(** X13.  A registration succeeds only past every gate: an image, an active
    user, exactly one detected face, of confidence at least 0.8, that passes
    the liveness detection, and no template of the user that compares above
    0.9 with the extracted features (each of them decrypts and compares
    without an error).  It then answers 201 and appends one template, with
    the drawn id, the encrypted features, their hash and the confidence as a
    percentage, and one audit row naming the administrator; the earlier
    templates are untouched unless [isPrimary] is a non-empty text, which
    unsets the primary templates of the user.  An answer 400 or 404 leaves
    the store as it was. *)
Theorem registration_is_gated :
  forall (rt : Runtime.t) (lib : Lib.t) (newId : nat) (req : RegisterRequest.t)
         (s : Store.t),
    let out := register rt lib newId req s in
    (success (fst out) = true ->
     exists (e : Enrolment) (imageBuffer : Image) (row : FaceTemplate.t),
       RegisterRequest.file req = Some imageBuffer
       /\ RegisterRequest.userId req = Some (targetUser e)
       /\ activeUser (targetUser e) s <> None
       /\ detectFaces rt imageBuffer = Return [face e]
       /\ (0.8 <=? Face.confidence (face e))%float = true
       /\ detectLiveness rt imageBuffer (Face.box (face e)) = Return (livenessResult e)
       /\ LivenessResult.isLive (livenessResult e) = true
       /\ extractFaceFeatures rt imageBuffer (Face.box (face e)) = Return (features e)
       /\ Forall (fun existing =>
                    exists stored comparison,
                      decryptFaceTemplate rt (FaceTemplate.face_encoding existing)
                      = Return stored
                      /\ compareFaces (features e) stored None = Return comparison
                      /\ Js.gt (similarity comparison) 0.9 = false)
                 (templatesOf (targetUser e) (Store.db s))
       /\ http_status (fst out) = 201%Z
       /\ face_templates (Store.db (snd out))
          = face_templates
              (if AttendanceRoutes.truthyText (RegisterRequest.isPrimary req)
               then unsetPrimary (targetUser e) (Store.db s) else Store.db s)
            ++ [row]
       /\ FaceTemplate.id row = newId
       /\ FaceTemplate.user_id row = targetUser e
       /\ encryptFaceTemplate rt (features e) = Return (FaceTemplate.face_encoding row)
       /\ FaceTemplate.face_hash row = FaceHash.generateFaceHash rt lib (features e)
       /\ Store.integer (Math_round rt (Face.confidence (face e) * 100)%float)
          = Some (FaceTemplate.quality_score row)
       /\ exists entry,
            Store.audit (snd out) = Store.audit s ++ [entry]
            /\ Store.Audit.user_id entry = RegisterRequest.admin req
            /\ Store.Audit.action entry = "face_template_registered"
            /\ Store.Audit.resource entry = Some (Store.face_template newId))
    /\ ((http_status (fst out) = 400 \/ http_status (fst out) = 404)%Z -> snd out = s).
Proof.
  intros rt lib newId req s out. split.
  - intros Hs.
    destruct (register_cases rt lib newId req s) as [[Hf _] | (e & Hc & E)];
      [unfold out in Hs; congruence|].
    apply registerChecks_next in Hc.
    destruct Hc as (img & Hu & _ & Hfile & Hact & Hdet & Hq & Hlv & Hlive & Hft
                    & Henc & Hhash & Hex & Hsim).
    unfold out in *. rewrite E in *. clear E.
    unfold registerPersist in Hs |- *. unfold qualityOf in *.
    destruct (Store.integer (Math_round rt (Face.confidence (face e) * 100)))
      as [q|] eqn:Q; [|discriminate].
    destruct (primaryColumn lib (RegisterRequest.isPrimary req) (existingTemplates e))
      as [p|]; [|discriminate].
    exists e, img. eexists.
    assert (Hconf : (0.8 <=? Face.confidence (face e))%float = true).
    { apply detectFaces_confident in Hdet. inversion Hdet as [|? ? Hg _]; subst.
      unfold Js.gt in Hg. unfold Js.lt in Hq.
      apply leb_of_not_ltb; [exact Hq | now apply ltb_not_nan_r in Hg | reflexivity]. }
    apply similarExists_false in Hsim. rewrite Hex in Hsim.
    cbn [fst snd http_status Store.log Store.db Store.with_db Store.audit
         insertTemplate face_templates with_templates].
    split; [exact Hfile|]. split; [exact Hu|]. split; [exact Hact|].
    split; [exact Hdet|]. split; [exact Hconf|]. split; [exact Hlv|].
    split; [exact Hlive|]. split; [exact Hft|]. split; [exact Hsim|].
    split; [reflexivity|]. split.
    { destruct (AttendanceRoutes.truthyText (RegisterRequest.isPrimary req));
        reflexivity. }
    cbn [FaceTemplate.id FaceTemplate.user_id FaceTemplate.face_encoding
         FaceTemplate.face_hash FaceTemplate.quality_score].
    repeat split; auto.
    eexists. split.
    { destruct (AttendanceRoutes.truthyText (RegisterRequest.isPrimary req));
        reflexivity. }
    repeat split.
  - intros Hst.
    destruct (register_cases rt lib newId req s) as [[_ E] | (e & _ & E)];
      [exact E|].
    exfalso. unfold out in Hst. rewrite E in Hst. unfold registerPersist in Hst.
    destruct (Store.integer (qualityOf rt (face e)));
      [destruct (primaryColumn lib (RegisterRequest.isPrimary req)
                   (existingTemplates e))|];
      cbn in Hst; destruct Hst; discriminate.
Qed.

(** X14.  The [isPrimary] field of the form arrives as a text, and every
    non-empty text is truthy.  A registration that reaches the writes with
    such a text unsets every primary template of the user; when the store
    does not read the text as true (as for "false" and "0", which the
    validation accepts), the new template is not primary either, whether the
    insert succeeds or not: the user is left without a primary template and
    the match step of every later check-in answers 400 "No face template
    found. Please register your face first." *)
Theorem isPrimary_text_unsets_the_primary :
  forall (rt : Runtime.t) (lib : Lib.t) (newId : nat) (req : RegisterRequest.t)
         (s : Store.t) (e : Enrolment) (text : string),
    @registerChecks Registered rt lib req s = Next e ->
    RegisterRequest.isPrimary req = Some text ->
    text <> "" ->
    let db' := Store.db (snd (register rt lib newId req s)) in
    (forall template,
       In template (templatesOf (targetUser e) (Store.db s)) ->
       In (set_primary false template) (face_templates db'))
    /\ (Lib.store_boolean lib text <> Some true ->
        AttendanceRoutes.loadTemplates (targetUser e) db' = []
        /\ forall faceFeatures : tensor,
             AttendanceRoutes.checkInMatch rt (targetUser e) faceFeatures db'
             = AttendanceRoutes.Respond
                 (AttendanceRoutes.failure 400
                    "No face template found. Please register your face first."
                    AttendanceRoutes.NoDetails)).
Proof.
  intros rt lib newId req s e text Hc Htext Hne db'.
  unfold db'. rewrite (register_reaches _ _ _ _ _ _ Hc). clear db'.
  assert (T : AttendanceRoutes.truthyText (RegisterRequest.isPrimary req) = true).
  { rewrite Htext. cbn. destruct (String.eqb_spec text ""); [contradiction|reflexivity]. }
  apply registerChecks_next in Hc.
  destruct Hc as (img & _ & _ & _ & _ & _ & _ & _ & _ & _ & _ & _ & Hex & _).
  split.
  - intros t Ht. unfold templatesOf in Ht. apply filter_In in Ht.
    destruct Ht as [Hin Hu].
    pose proof (In_unset (targetUser e) (Store.db s) t Hin) as H1. rewrite Hu in H1.
    destruct (registerPersist_db rt lib newId req e s)
      as [[_ ->] | (q & p & _ & _ & _ & ->)]; rewrite T.
    + exact H1.
    + unfold insertTemplate. cbn [face_templates with_templates].
      apply in_or_app. now left.
  - intros Hb.
    assert (L : AttendanceRoutes.loadTemplates (targetUser e)
                  (Store.db (snd (registerPersist rt lib newId req e s))) = []).
    { rewrite (registerPersist_loads rt lib newId req e s Hex).
      unfold primaryColumn. rewrite T, Htext.
      destruct (Store.integer (qualityOf rt (face e))); [|reflexivity].
      destruct (Lib.store_boolean lib text) as [[|]|]; [congruence| |]; reflexivity. }
    split; [exact L|]. intros f. now apply checkInMatch_none.
Qed.

Lemma isPrimary_text_witness :
  success (fst (register Fixture.runtime Cases.lib 1
                  (Cases.registration Cases.otherImage (Some "false"))
                  Cases.onePrimary)) = true
  /\ AttendanceRoutes.checkInMatch Fixture.runtime Scenario.alice Scenario.probe
       (Store.db (snd (register Fixture.runtime Cases.lib 1
                         (Cases.registration Cases.otherImage (Some "false"))
                         Cases.onePrimary)))
     = AttendanceRoutes.Respond
         (AttendanceRoutes.failure 400
            "No face template found. Please register your face first."
            AttendanceRoutes.NoDetails).
Proof.
  split; [reflexivity|].
  destruct (isPrimary_text_unsets_the_primary Fixture.runtime Cases.lib 1
              (Cases.registration Cases.otherImage (Some "false")) Cases.onePrimary
              _ "false" eq_refl eq_refl) as (_ & H).
  - discriminate.
  - destruct H as [_ H]; [discriminate|]. apply H.
Defined.

Lemma registration_witness :
  exists row,
    face_templates
      (Store.db (snd (register Fixture.runtime Cases.lib 0
                        (Cases.registration Scenario.probeImage None)
                        Cases.noTemplate))) = [row]
    /\ FaceTemplate.quality_score row = 95%Z.
Proof.
  destruct (registration_is_gated Fixture.runtime Cases.lib 0
              (Cases.registration Scenario.probeImage None) Cases.noTemplate)
    as (H & _).
  destruct (H eq_refl)
    as (e & img & row & _ & _ & _ & _ & _ & _ & _ & _ & _ & _ & Hft & _ & _ & _ & _
        & Hq & _).
  exists row. split; [exact Hft|].
  vm_compute in Hft. injection Hft as <-. reflexivity.
Defined.

Lemma similarityTo_cases rt f t :
  match similarityTo rt f t with
  | Return v =>
      exists d c, decryptFaceTemplate rt (FaceTemplate.face_encoding t) = Return d
                  /\ compareFaces f d None = Return c /\ v = similarity c
  | Throw e =>
      decryptFaceTemplate rt (FaceTemplate.face_encoding t) = Throw e
      \/ exists d, decryptFaceTemplate rt (FaceTemplate.face_encoding t) = Return d
                   /\ compareFaces f d None = Throw e
  end.
Proof.
  unfold similarityTo.
  destruct (decryptFaceTemplate rt (FaceTemplate.face_encoding t)) as [d|e];
    [|now left].
  destruct (compareFaces f d None) as [c|e] eqn:Ec.
  - exists d, c. repeat split. exact Ec.
  - right. exists d. split; [reflexivity|exact Ec].
Qed.

(** The loop of the verification from [(bm0, b0)]. *)
Lemma bestTemplate_spec rt f l :
  forall bm0 b0 bm best,
    bestTemplate rt f l bm0 b0 = Return (bm, best) ->
    (forall v, (best <? v)%float = true -> (b0 <? v)%float = true)
    /\ Forall (fun t => exists v, similarityTo rt f t = Return v
                                  /\ Js.gt v best = false) l
    /\ ((bm = bm0 /\ best = b0)
        \/ exists t,
             In t l
             /\ similarityTo rt f t = Return best
             /\ Js.gt best b0 = true
             /\ bm = Some {| templateId := FaceTemplate.id t;
                             matchSimilarity := best;
                             matchIsPrimary := FaceTemplate.is_primary t |}).
Proof.
  induction l as [|t ts IH]; intros bm0 b0 bm best H; simpl in H.
  - injection H as <- <-. split; [auto|]. split; [constructor|now left].
  - assert (S : similarityTo rt f t
                = match decryptFaceTemplate rt (FaceTemplate.face_encoding t) with
                  | Return d => match compareFaces f d None with
                                | Return c => Return (similarity c)
                                | Throw e => Throw e
                                end
                  | Throw e => Throw e
                  end) by reflexivity.
    destruct (decryptFaceTemplate rt (FaceTemplate.face_encoding t))
      as [v|e] eqn:Ev; simpl in H; [|discriminate].
    destruct (compareFaces f v None) as [c|e] eqn:Ec; simpl in H; [|discriminate].
    destruct (Js.gt (similarity c) b0) eqn:G; apply IH in H;
      destruct H as (Hup & Hall & Hin).
    + split; [|split].
      * intros w Hw. apply FloatFacts.ltb_trans with (similarity c); auto.
      * constructor; [|exact Hall].
        exists (similarity c). split; [exact S|].
        unfold Js.gt. destruct (best <? similarity c)%float eqn:L; [|reflexivity].
        apply Hup in L. now rewrite FloatFacts.ltb_irrefl in L.
      * right. destruct Hin as [[-> ->] | (t' & Ht' & St' & Gt' & ->)].
        -- exists t. simpl. auto.
        -- exists t'. simpl. repeat split; auto.
           unfold Js.gt in *. apply FloatFacts.ltb_trans with (similarity c); auto.
    + split; [assumption|]. split.
      * constructor; [|exact Hall].
        exists (similarity c). split; [exact S|].
        unfold Js.gt in *. destruct (best <? similarity c)%float eqn:L; [|reflexivity].
        apply Hup in L. congruence.
      * destruct Hin as [? | (t' & Ht' & ?)]; [now left|].
        right. exists t'. simpl. auto.
Qed.

(** The two loops keep the same similarity. *)
Lemma bestTemplate_bestOf rt f l :
  forall bm0 bm0' b0,
    match AttendanceRoutes.bestOf rt f l bm0 b0, bestTemplate rt f l bm0' b0 with
    | Return (_, b), Return (_, b') => b = b'
    | Throw e, Throw e' => e = e'
    | _, _ => False
    end.
Proof.
  induction l as [|t ts IH]; intros bm0 bm0' b0; simpl; [reflexivity|].
  destruct (decryptFaceTemplate rt (FaceTemplate.face_encoding t)) as [v|e];
    simpl; [|reflexivity].
  destruct (compareFaces f v None) as [c|e]; simpl; [|reflexivity].
  destruct (Js.gt (similarity c) b0); apply IH.
Qed.

Lemma verifyMatch_next {D} rt req s lv bm bs :
  @verifyMatch D rt req s = Next (lv, (bm, bs)) ->
  exists img face faces f,
    VerifyRequest.file req = Some img
    /\ detectFaces rt img = Return (face :: faces)
    /\ detectLiveness rt img (Face.box face) = Return lv
    /\ LivenessResult.isLive lv = true
    /\ extractFaceFeatures rt img (Face.box face) = Return f
    /\ templatesOf (VerifyRequest.user_id req) (Store.db s) <> []
    /\ bestTemplate rt f (templatesOf (VerifyRequest.user_id req) (Store.db s))
         None 0%float = Return (bm, bs).
Proof.
  unfold verifyMatch. intros H.
  apply http_andThen_next in H. destruct H as (img & Hf & H).
  apply http_orRespond_next in Hf.
  apply http_andThen_next in H. destruct H as (faces & Hd & H).
  apply http_await_next in Hd.
  destruct faces as [|face faces]; [discriminate|].
  apply http_andThen_next in H. destruct H as (lv' & Hl & H).
  apply http_await_next in Hl.
  apply http_andThen_next in H. destruct H as ([] & Hlive & H).
  apply http_rejectIf_next in Hlive. apply negb_false_iff in Hlive.
  apply http_andThen_next in H. destruct H as (f & Hx & H).
  apply http_await_next in Hx.
  apply http_andThen_next in H. destruct H as ([] & Hne & H).
  apply http_rejectIf_next in Hne.
  apply http_andThen_next in H. destruct H as (best & Hb & H).
  apply http_await_next in Hb.
  injection H as -> ->.
  exists img, face, faces, f. repeat split; auto.
  intros E. rewrite E in Hne. discriminate.
Qed.

Lemma verifyMatch_refusing {D} rt req s : declining (@verifyMatch D rt req s).
Proof.
  unfold verifyMatch, declining. intros r.
  destruct (VerifyRequest.file req) as [img|]; cbn; [|intros [= <-]; reflexivity].
  destruct (detectFaces rt img) as [[|face faces]|e]; cbn;
    [intros [= <-]; reflexivity| |discriminate].
  destruct (detectLiveness rt img (Face.box face)) as [lv|e]; cbn; [|discriminate].
  destruct (LivenessResult.isLive lv); cbn; [|intros [= <-]; reflexivity].
  destruct (extractFaceFeatures rt img (Face.box face)) as [f|e]; cbn; [|discriminate].
  destruct (Nat.eqb _ 0); cbn; [intros [= <-]; reflexivity|].
  destruct (bestTemplate rt f _ None 0%float) as [b|e]; cbn; discriminate.
Qed.

Lemma verify_cases rt req s :
  (success (fst (verify rt req s)) = false /\ snd (verify rt req s) = s)
  \/ exists lv bm bs,
       @verifyMatch Verification rt req s = Next (lv, (bm, bs))
       /\ verify rt req s = verifyAnswer req lv bm bs s.
Proof.
  unfold verify.
  pose proof (@verifyMatch_refusing Verification rt req s) as R.
  destruct (verifyMatch rt req s) as [[lv [bm bs]]|r|e]; cbn.
  - right. exists lv, bm, bs. auto.
  - left. split; [apply R|]; reflexivity.
  - left. split; reflexivity.
Qed.


Lemma bestOf_improves rt f l :
  forall bm0 b0 bm best,
    AttendanceRoutes.bestOf rt f l bm0 b0 = Return (bm, best) ->
    (bm = bm0 /\ best = b0) \/ Js.gt best b0 = true.
Proof.
  induction l as [|t ts IH]; intros bm0 b0 bm best H; simpl in H.
  - injection H as <- <-. now left.
  - destruct (decryptFaceTemplate rt (FaceTemplate.face_encoding t)) as [v|e];
      simpl in H; [|discriminate].
    destruct (compareFaces f v None) as [c|e]; simpl in H; [|discriminate].
    destruct (Js.gt (similarity c) b0) eqn:G; apply IH in H.
    + right. destruct H as [[_ ->] | H]; [exact G|].
      unfold Js.gt in *. apply FloatFacts.ltb_trans with (similarity c); auto.
    + exact H.
Qed.

Lemma templatesOf_loadTemplates u db t :
  In t (AttendanceRoutes.loadTemplates u db) -> In t (templatesOf u db).
Proof.
  intros H. apply loadTemplates_In in H. destruct H as (Hin & Hu & _).
  unfold templatesOf. apply filter_In. split; [exact Hin|].
  now apply String.eqb_eq.
Qed.




End FaceRouteFacts.

(* ------------------------------------------------------------------ *)
(** ** The audit trail of the other routes *)

Module AuditFacts.

Import Js Tf Runtime Db FaceRecognitionService.
Import Http FaceRoutes AdminRoutes Vocabulary.
Import AdminFacts FaceRouteFacts.

Local Open Scope string_scope.
Local Open Scope list_scope.

Lemma registerPersist_store rt lib newId req e s :
  (success (fst (registerPersist rt lib newId req e s)) = true
   /\ exists entry,
        Store.audit (snd (registerPersist rt lib newId req e s))
        = Store.audit s ++ [entry]
        /\ Store.Audit.user_id entry = RegisterRequest.admin req)
  \/ (success (fst (registerPersist rt lib newId req e s)) = false
      /\ http_status (fst (registerPersist rt lib newId req e s)) = 500%Z
      /\ snd (registerPersist rt lib newId req e s)
         = if AttendanceRoutes.truthyText (RegisterRequest.isPrimary req)
           then Store.with_db (unsetPrimary (targetUser e) (Store.db s)) s
           else s).
Proof.
  unfold registerPersist.
  destruct (Store.integer (qualityOf rt (face e))) as [q|];
    [destruct (primaryColumn lib (RegisterRequest.isPrimary req) (existingTemplates e))
       as [p|]|].
  - left. split; [reflexivity|]. eexists.
    destruct (AttendanceRoutes.truthyText (RegisterRequest.isPrimary req));
      split; reflexivity.
  - right. repeat split.
  - right. repeat split.
Qed.

(** X21.  As long as the store rejects no well-formed query, no handler of
    the face routes and of the two admin decisions writes without a trace,
    with one exception.  An answer with [success: true] appends exactly one
    audit row, in the name of the requester; every other answer appends none
    and, for verification, deletion, set-primary, approval and rejection,
    leaves the whole store as it was.  The exception is the registration: it
    can answer 500 after it has unset the primary templates of the user (the
    form carried a non-empty [isPrimary] and the store refused the values of
    the new row), and then the table has changed with no audit row. *)
Theorem writes_leave_one_audit_row :
  forall (rt : Runtime.t) (lib : Lib.t) (newId : nat) (now : Z)
         (registration : RegisterRequest.t) (verification : VerifyRequest.t)
         (request : TemplateRequest.t) (review : ReviewRequest.t) (s : Store.t),
    (audited (register rt lib newId registration s)
       (RegisterRequest.admin registration) s
     /\ audited (verify rt verification s) (VerifyRequest.user_id verification) s
     /\ audited (deleteTemplate request s) (TemplateRequest.admin request) s
     /\ audited (setPrimary request s) (TemplateRequest.admin request) s
     /\ audited (approve now review s) (ReviewRequest.admin review) s
     /\ audited (reject now review s) (ReviewRequest.admin review) s)
    /\ ((success (fst (verify rt verification s)) = false ->
         snd (verify rt verification s) = s)
        /\ (success (fst (deleteTemplate request s)) = false ->
            snd (deleteTemplate request s) = s)
        /\ (success (fst (setPrimary request s)) = false ->
            snd (setPrimary request s) = s)
        /\ (success (fst (approve now review s)) = false ->
            snd (approve now review s) = s)
        /\ (success (fst (reject now review s)) = false ->
            snd (reject now review s) = s))
    /\ (success (fst (register rt lib newId registration s)) = false ->
        snd (register rt lib newId registration s) = s
        \/ (http_status (fst (register rt lib newId registration s)) = 500%Z
            /\ AttendanceRoutes.truthyText (RegisterRequest.isPrimary registration)
               = true
            /\ exists userId,
                 RegisterRequest.userId registration = Some userId
                 /\ snd (register rt lib newId registration s)
                    = Store.with_db (unsetPrimary userId (Store.db s)) s)).
Proof.
  intros rt lib newId now reg vr tr rv s.
  assert (Hreg : audited (register rt lib newId reg s) (RegisterRequest.admin reg) s
                 /\ (success (fst (register rt lib newId reg s)) = false ->
                     snd (register rt lib newId reg s) = s
                     \/ (http_status (fst (register rt lib newId reg s)) = 500%Z
                         /\ AttendanceRoutes.truthyText (RegisterRequest.isPrimary reg)
                            = true
                         /\ exists userId,
                              RegisterRequest.userId reg = Some userId
                              /\ snd (register rt lib newId reg s)
                                 = Store.with_db (unsetPrimary userId (Store.db s)) s))).
  { unfold audited.
    destruct (register_cases rt lib newId reg s) as [[Hf Hs] | (e & Hc & ->)].
    - rewrite Hf, Hs. split; [reflexivity|]. intros _. now left.
    - apply registerChecks_next in Hc. destruct Hc as (img & Hu & _).
      destruct (registerPersist_store rt lib newId reg e s)
        as [[-> Ha] | (-> & Hst & ->)].
      + split; [exact Ha|discriminate].
      + destruct (AttendanceRoutes.truthyText (RegisterRequest.isPrimary reg)).
        * split; [reflexivity|]. intros _. right.
          split; [exact Hst|]. split; [reflexivity|].
          exists (targetUser e). split; [exact Hu|reflexivity].
        * split; [reflexivity|]. intros _. now left. }
  assert (Hver : audited (verify rt vr s) (VerifyRequest.user_id vr) s
                 /\ (success (fst (verify rt vr s)) = false -> snd (verify rt vr s) = s)).
  { unfold audited.
    destruct (verify_cases rt vr s) as [[Hf Hs] | (lv & bm & bs & _ & ->)].
    - rewrite Hf, Hs. auto.
    - unfold verifyAnswer. cbn [fst snd success Store.log Store.audit].
      split; [|discriminate]. eexists. split; reflexivity. }
  assert (Hdel : audited (deleteTemplate tr s) (TemplateRequest.admin tr) s
                 /\ (success (fst (deleteTemplate tr s)) = false ->
                     snd (deleteTemplate tr s) = s)).
  { unfold audited, deleteTemplate.
    destruct (TemplateRequest.templateId tr) as [id|]; cbn; [|auto].
    destruct (templateById id (Store.db s)) as [t|]; cbn; [|auto].
    split; [|discriminate]. eexists. split; reflexivity. }
  assert (Hset : audited (setPrimary tr s) (TemplateRequest.admin tr) s
                 /\ (success (fst (setPrimary tr s)) = false ->
                     snd (setPrimary tr s) = s)).
  { unfold audited, setPrimary.
    destruct (TemplateRequest.templateId tr) as [id|]; cbn; [|auto].
    destruct (templateById id (Store.db s)) as [t|]; cbn; [|auto].
    split; [|discriminate]. eexists. split; reflexivity. }
  assert (Happ : audited (approve now rv s) (ReviewRequest.admin rv) s
                 /\ (success (fst (approve now rv s)) = false ->
                     snd (approve now rv s) = s)).
  { unfold audited.
    destruct (approve_cases now rv s) as [[Hf Hs] | (id & record & _ & _ & ->)].
    - rewrite Hf, Hs. auto.
    - cbn [fst snd success Store.log Store.audit decide].
      split; [|discriminate]. eexists. split; reflexivity. }
  assert (Hrej : audited (reject now rv s) (ReviewRequest.admin rv) s
                 /\ (success (fst (reject now rv s)) = false ->
                     snd (reject now rv s) = s)).
  { unfold audited.
    destruct (reject_cases now rv s) as [[Hf Hs] | (id & record & _ & _ & _ & ->)].
    - rewrite Hf, Hs. auto.
    - cbn [fst snd success Store.log Store.audit decide].
      split; [|discriminate]. eexists. split; reflexivity. }
  tauto.
Qed.

End AuditFacts.

(* ------------------------------------------------------------------ *)
(** ** The attendance trends *)

From Stdlib Require Import Sorted Permutation.

Module TrendFacts.

Import Js Runtime Db.
Import Analytics Vocabulary.

Local Open Scope string_scope.
Local Open Scope list_scope.

Lemma checkInsOf_tally {K} (eqb : K -> K -> bool) key ty (data : list (K * Counts)) :
  checkInsOf (tally eqb key ty data) = (checkInsOf data + (if RecordType_eqb ty check_in then 1 else 0))%nat.
Proof.
  induction data as [|[k c] rest IH]; simpl.
  - destruct ty; reflexivity.
  - destruct (eqb k key); simpl.
    + destruct ty; simpl; simpl; lia.
    + rewrite IH. lia.
Qed.

Lemma checkOutsOf_tally {K} (eqb : K -> K -> bool) key ty (data : list (K * Counts)) :
  checkOutsOf (tally eqb key ty data) = (checkOutsOf data + (if RecordType_eqb ty check_out then 1 else 0))%nat.
Proof.
  induction data as [|[k c] rest IH]; simpl.
  - destruct ty; reflexivity.
  - destruct (eqb k key); simpl.
    + destruct ty; simpl; simpl; lia.
    + rewrite IH. lia.
Qed.

Lemma keys_tally {K} (eqb : K -> K -> bool) key ty (data : list (K * Counts)) :
  (forall a b, eqb a b = true <-> a = b) ->
  (In key (map fst data) /\ map fst (tally eqb key ty data) = map fst data)
  \/ (~ In key (map fst data)
      /\ map fst (tally eqb key ty data) = map fst data ++ [key]).
Proof.
  intros Heq. induction data as [|[k c] rest IH]; simpl.
  - right. split; [tauto|reflexivity].
  - destruct (eqb k key) eqn:E; simpl.
    + left. apply Heq in E. auto.
    + destruct IH as [[Hin ->] | [Hn ->]].
      * left. auto.
      * right. split; [|reflexivity]. intros [H | H]; [|tauto].
        apply Heq in H. congruence.
Qed.

Lemma NoDup_snoc {A} (l : list A) x : NoDup l -> ~ In x l -> NoDup (l ++ [x]).
Proof.
  intros Hl Hx. apply NoDup_app; [exact Hl| repeat constructor; tauto|].
  intros a Ha [<- | []]. contradiction.
Qed.

Lemma NoDup_tally {K} (eqb : K -> K -> bool) key ty (data : list (K * Counts)) :
  (forall a b, eqb a b = true <-> a = b) ->
  NoDup (map fst data) -> NoDup (map fst (tally eqb key ty data)).
Proof.
  intros Heq Hn. destruct (keys_tally eqb key ty data Heq) as [[_ ->] | [Hk ->]];
    [exact Hn|]. now apply NoDup_snoc.
Qed.

Lemma positive_tally {K} (eqb : K -> K -> bool) key ty (data : list (K * Counts)) :
  Forall (fun e => (0 < checkIns (snd e) + checkOuts (snd e))%nat) data ->
  Forall (fun e => (0 < checkIns (snd e) + checkOuts (snd e))%nat)
         (tally eqb key ty data).
Proof.
  induction data as [|[k c] rest IH]; simpl; intros H.
  - constructor; [|constructor]. destruct ty; simpl; lia.
  - inversion H as [|? ? H1 H2]; subst. destruct (eqb k key); constructor; auto.
    destruct ty; simpl in *; lia.
Qed.

Lemma Zeqb_iff a b : Z.eqb a b = true <-> a = b.
Proof. apply Z.eqb_eq. Qed.

Lemma Seqb_iff a b : String.eqb a b = true <-> a = b.
Proof. apply String.eqb_eq. Qed.

(** The four objects after the [forEach]. *)
Lemma tallies_spec rt records :
  forall t0,
    let t := fold_left (process rt) records t0 in
    (checkInsOf (dailyData t)
     = checkInsOf (dailyData t0) + List.length (filter (isType check_in) records))%nat
    /\ (checkOutsOf (dailyData t)
        = checkOutsOf (dailyData t0)
          + List.length (filter (isType check_out) records))%nat
    /\ (checkInsOf (hourlyData t)
        = checkInsOf (hourlyData t0)
          + List.length (filter (isType check_in) records))%nat
    /\ (checkOutsOf (hourlyData t)
        = checkOutsOf (hourlyData t0)
          + List.length (filter (isType check_out) records))%nat
    /\ (checkInsOf (departmentData t)
        = checkInsOf (departmentData t0)
          + List.length (filter (chartable check_in) records))%nat
    /\ (checkOutsOf (departmentData t)
        = checkOutsOf (departmentData t0)
          + List.length (filter (chartable check_out) records))%nat.
Proof.
  induction records as [|r rs IH]; intros t0; cbn zeta.
  - simpl. repeat split; lia.
  - simpl fold_left. specialize (IH (process rt t0 r)). cbn zeta in IH.
    destruct IH as (I1 & I2 & I3 & I4 & I5 & I6).
    rewrite I1, I2, I3, I4, I5, I6. clear I1 I2 I3 I4 I5 I6.
    unfold process. cbn [dailyData hourlyData departmentData userData].
    rewrite !checkInsOf_tally, !checkOutsOf_tally.
    unfold tallyNamed, chartable, isType. simpl filter.
    destruct (inherited (department r)); simpl negb;
      rewrite ?checkInsOf_tally, ?checkOutsOf_tally, ?andb_false_r, ?andb_true_r;
      destruct (type r); simpl; repeat split; lia.
Qed.

Lemma tallies_keys rt records :
  forall t0,
    let t := fold_left (process rt) records t0 in
    (NoDup (map fst (dailyData t0)) -> NoDup (map fst (dailyData t)))
    /\ (NoDup (map fst (hourlyData t0)) -> NoDup (map fst (hourlyData t)))
    /\ (NoDup (map fst (departmentData t0)) -> NoDup (map fst (departmentData t)))
    /\ (NoDup (map fst (userData t0)) -> NoDup (map fst (userData t)))
    /\ (Forall (fun e => 0 <= fst e < 24)%Z (hourlyData t0) ->
        Forall (fun e => 0 <= fst e < 24)%Z (hourlyData t)).
Proof.
  induction records as [|r rs IH]; intros t0; cbn zeta.
  - simpl. tauto.
  - simpl fold_left. specialize (IH (process rt t0 r)). cbn zeta in IH.
    destruct IH as (I1 & I2 & I3 & I4 & I5).
    unfold process in I1, I2, I3, I4, I5.
    cbn [dailyData hourlyData departmentData userData] in I1, I2, I3, I4, I5.
    repeat split; intros H.
    + apply I1. now apply NoDup_tally; [apply Zeqb_iff|].
    + apply I2. now apply NoDup_tally; [apply Zeqb_iff|].
    + apply I3. unfold tallyNamed. destruct (inherited _); [exact H|].
      now apply NoDup_tally; [apply Seqb_iff|].
    + apply I4. unfold tallyNamed. destruct (inherited _); [exact H|].
      now apply NoDup_tally; [apply Seqb_iff|].
    + apply I5.
      assert (Hh : (0 <= getHours rt (timestamp r) < 24)%Z).
      { unfold getHours. unfold AttendanceRoutes.msPerDay.
        pose proof (Z.mod_pos_bound (timestamp r + timezoneOffset rt) 86400000
                      ltac:(lia)) as B.
        split.
        - apply Z.div_pos; lia.
        - apply Z.div_lt_upper_bound; lia. }
      clear -H Hh. induction (hourlyData t0) as [|[k c] rest IHl]; simpl.
      * constructor; [exact Hh|constructor].
      * inversion H as [|? ? H1 H2]; subst.
        destruct (Z.eqb k _); constructor; auto.
Qed.

Lemma insertByKey_perm {C} (e : Z * C) l : Permutation (insertByKey e l) (e :: l).
Proof.
  induction l as [|x l IH]; simpl; [reflexivity|].
  destruct (fst x <=? fst e)%Z; [|reflexivity].
  rewrite IH. apply perm_swap.
Qed.

Lemma ascending_from {C} (l : list (Z * C)) :
  forall acc,
    Permutation (fold_left (fun sorted entry => insertByKey entry sorted) l acc)
                (acc ++ l).
Proof.
  induction l as [|x l IH]; intros acc; simpl.
  - now rewrite app_nil_r.
  - rewrite IH, insertByKey_perm. apply Permutation_middle.
Qed.

Lemma ascending_perm {C} (l : list (Z * C)) : Permutation (ascending l) l.
Proof. unfold ascending. apply (ascending_from l []). Qed.

Lemma insertByKey_sorted {C} (e : Z * C) l :
  StronglySorted (fun a b => (fst a <= fst b)%Z) l ->
  StronglySorted (fun a b => (fst a <= fst b)%Z) (insertByKey e l).
Proof.
  induction l as [|x l IH]; simpl; intros H.
  - repeat constructor.
  - inversion H as [|? ? Hs Hf]; subst.
    destruct (Z.leb_spec (fst x) (fst e)).
    + constructor; [now apply IH|].
      apply (Permutation_Forall (Permutation_sym (insertByKey_perm e l))).
      constructor; assumption.
    + constructor; [exact H|]. constructor; [lia|].
      eapply Forall_impl; [|exact Hf]. simpl. intros; lia.
Qed.

Lemma ascending_sorted_from {C} (l : list (Z * C)) :
  forall acc,
    StronglySorted (fun a b => (fst a <= fst b)%Z) acc ->
    StronglySorted (fun a b => (fst a <= fst b)%Z)
      (fold_left (fun sorted entry => insertByKey entry sorted) l acc).
Proof.
  induction l as [|x l IH]; intros acc H; simpl; [exact H|].
  apply IH. now apply insertByKey_sorted.
Qed.

Lemma strictly_sorted {C} (l : list (Z * C)) :
  StronglySorted (fun a b => (fst a <= fst b)%Z) l ->
  NoDup (map fst l) ->
  StronglySorted Z.lt (map fst l).
Proof.
  induction l as [|x l IH]; simpl; intros Hs Hn; [constructor|].
  inversion Hs as [|? ? Hs' Hf]; subst. inversion Hn as [|? ? Hx Hn']; subst.
  constructor; [now apply IH|].
  apply Forall_forall. intros k Hk. apply in_map_iff in Hk.
  destruct Hk as (y & <- & Hy).
  rewrite Forall_forall in Hf. specialize (Hf y Hy).
  assert (fst x <> fst y) by (intros E; apply Hx; rewrite E; now apply in_map).
  lia.
Qed.

Lemma checkInsOf_perm {K} (a b : list (K * Counts)) :
  Permutation a b -> checkInsOf a = checkInsOf b.
Proof. induction 1; simpl; lia. Qed.

Lemma checkOutsOf_perm {K} (a b : list (K * Counts)) :
  Permutation a b -> checkOutsOf a = checkOutsOf b.
Proof. induction 1; simpl; lia. Qed.

Lemma indexedEntries_perm {C} (data : list (string * C)) :
  Permutation
    (map snd (indexedEntries data)
     ++ filter (fun entry => match arrayIndex (fst entry) with
                             | Some _ => false
                             | None => true
                             end) data)
    data.
Proof.
  induction data as [|e rest IH]; simpl; [constructor|].
  unfold indexed. destruct (arrayIndex (fst e)); simpl.
  - now constructor.
  - rewrite <- Permutation_middle. now constructor.
Qed.

Lemma ownEntries_perm {C} (data : list (string * C)) :
  Permutation (ownEntries data) data.
Proof.
  unfold ownEntries.
  rewrite (Permutation_map snd (ascending_perm (indexedEntries data))).
  apply indexedEntries_perm.
Qed.

(** The keys of an object the [forEach] filled are the keys of the records
    that are not inherited names. *)
Lemma In_tally {K} (eqb : K -> K -> bool) key ty (data : list (K * Counts)) k :
  (forall a b, eqb a b = true <-> a = b) ->
  In k (map fst (tally eqb key ty data)) <-> k = key \/ In k (map fst data).
Proof.
  intros Heq. destruct (keys_tally eqb key ty data Heq) as [[Hin ->] | [_ ->]].
  - split; [tauto|]. intros [-> | H]; assumption.
  - rewrite in_app_iff. simpl. intuition congruence.
Qed.

Lemma names_spec rt records :
  forall t0 name,
    let t := fold_left (process rt) records t0 in
    (In name (map fst (departmentData t))
     <-> In name (map fst (departmentData t0))
         \/ (In name (map department records) /\ inherited name = false))
    /\ (In name (map fst (userData t))
        <-> In name (map fst (userData t0))
            \/ (In name (map user_id records) /\ inherited name = false)).
Proof.
  induction records as [|r rs IH]; intros t0 name; cbn zeta.
  - simpl. tauto.
  - simpl fold_left. specialize (IH (process rt t0 r) name). cbn zeta in IH.
    destruct IH as (I1 & I2). rewrite I1, I2. clear I1 I2.
    unfold process. cbn [departmentData userData]. unfold tallyNamed. simpl map.
    split.
    + destruct (inherited (department r)) eqn:E.
      * simpl. split; [tauto|].
        intros [H | [[H | H] Hi]]; auto. congruence.
      * rewrite (In_tally _ _ _ _ _ Seqb_iff). simpl.
        split; [intros [[-> | H] | [H Hi]]; auto|].
        intros [H | [[H | H] Hi]]; auto.
    + destruct (inherited (user_id r)) eqn:E.
      * simpl. split; [tauto|].
        intros [H | [[H | H] Hi]]; auto. congruence.
      * rewrite (In_tally _ _ _ _ _ Seqb_iff). simpl.
        split; [intros [[-> | H] | [H Hi]]; auto|].
        intros [H | [[H | H] Hi]]; auto.
Qed.

(** X17.  The charts of GET /attendance-trends add up to the summary: the
    check-ins of the daily chart, and those of the hourly chart, are the
    [totalCheckIns] of the summary, and likewise the check-outs; the two
    totals together are the number of selected records.  No date occurs
    twice in the daily chart, and the hourly chart lists its hours, each from
    0 to 23, in strictly ascending order, whatever the order of the
    records. *)
Theorem trends_counts_add_up :
  forall (rt : Runtime.t) (records : list Row),
    let answer := trends rt records in
    checkInsOf (dailyTrends answer) = totalCheckIns (summary answer)
    /\ checkOutsOf (dailyTrends answer) = totalCheckOuts (summary answer)
    /\ checkInsOf (hourlyTrends answer) = totalCheckIns (summary answer)
    /\ checkOutsOf (hourlyTrends answer) = totalCheckOuts (summary answer)
    /\ (totalCheckIns (summary answer) + totalCheckOuts (summary answer)
        = List.length records)%nat
    /\ NoDup (map fst (dailyTrends answer))
    /\ StronglySorted Z.lt (map fst (hourlyTrends answer))
    /\ Forall (fun entry => (0 <= fst entry < 24)%Z) (hourlyTrends answer).
Proof.
  intros rt records answer. unfold answer, trends.
  cbn [dailyTrends hourlyTrends summary totalCheckIns totalCheckOuts].
  unfold tallies.
  pose proof (tallies_spec rt records
                {| dailyData := []; hourlyData := []; departmentData := [];
                   userData := [] |}) as S.
  pose proof (tallies_keys rt records
                {| dailyData := []; hourlyData := []; departmentData := [];
                   userData := [] |}) as N.
  cbn zeta in S, N. cbn [dailyData hourlyData departmentData userData] in S, N.
  destruct S as (S1 & S2 & S3 & S4 & _). destruct N as (N1 & N2 & _ & _ & N5).
  split; [exact S1|]. split; [exact S2|].
  split; [rewrite (checkInsOf_perm _ _ (ascending_perm _)); exact S3|].
  split; [rewrite (checkOutsOf_perm _ _ (ascending_perm _)); exact S4|].
  split.
  { clear. induction records as [|r rs IH]; simpl; [reflexivity|].
    unfold isType in *. destruct (type r); simpl; lia. }
  split; [apply N1; constructor|].
  split.
  - apply strictly_sorted.
    + unfold ascending. apply ascending_sorted_from. constructor.
    + apply (Permutation_NoDup
               (Permutation_map fst (Permutation_sym (ascending_perm _)))).
      apply N2. constructor.
  - apply (Permutation_Forall (Permutation_sym (ascending_perm _))).
    apply N5. constructor.
Qed.

(** X18.  The department chart counts the records whose department is not a
    name every object inherits ([constructor], [toString], [__proto__] and
    the like): under such a name the handler finds the inherited value, makes
    no entry, and the record is missing from the chart while the summary
    still counts it.  The chart has one entry per other department of the
    records; [uniqueUsers] is the number of distinct user ids of the records
    that are not such a name.  When no department of the records is an
    inherited name the chart adds up to the summary. *)
Theorem department_chart_drops_inherited_names :
  forall (rt : Runtime.t) (records : list Row),
    let answer := trends rt records in
    checkInsOf (departmentTrends answer)
    = List.length (filter (chartable check_in) records)
    /\ checkOutsOf (departmentTrends answer)
       = List.length (filter (chartable check_out) records)
    /\ NoDup (map fst (departmentTrends answer))
    /\ (forall name,
          In name (map fst (departmentTrends answer))
          <-> In name (map department records) /\ inherited name = false)
    /\ (exists users,
          NoDup users
          /\ List.length users = uniqueUsers (summary answer)
          /\ forall userId,
               In userId users
               <-> In userId (map user_id records) /\ inherited userId = false)
    /\ ((forall record, In record records -> inherited (department record) = false) ->
        checkInsOf (departmentTrends answer) = totalCheckIns (summary answer)
        /\ checkOutsOf (departmentTrends answer) = totalCheckOuts (summary answer)).
Proof.
  intros rt records answer. unfold answer, trends.
  cbn [departmentTrends summary totalCheckIns totalCheckOuts uniqueUsers].
  unfold tallies.
  set (t0 := {| dailyData := []; hourlyData := []; departmentData := [];
                userData := [] |}).
  pose proof (tallies_spec rt records t0) as S.
  pose proof (tallies_keys rt records t0) as N.
  cbn zeta in S, N.
  destruct S as (_ & _ & _ & _ & S5 & S6). destruct N as (_ & _ & N3 & N4 & _).
  rewrite (checkInsOf_perm _ _ (ownEntries_perm _)).
  rewrite (checkOutsOf_perm _ _ (ownEntries_perm _)).
  split; [exact S5|]. split; [exact S6|].
  split.
  { apply (Permutation_NoDup
             (Permutation_map fst (Permutation_sym (ownEntries_perm _)))).
    apply N3. constructor. }
  split.
  { intros name.
    pose proof (names_spec rt records t0 name) as [D _]. cbn zeta in D.
    split.
    - intros H.
      apply (Permutation_in _ (Permutation_map fst (ownEntries_perm _))) in H.
      apply D in H. destruct H as [[] | H]. exact H.
    - intros H.
      apply (Permutation_in _
               (Permutation_map fst (Permutation_sym (ownEntries_perm _)))).
      apply D. now right. }
  split.
  { exists (map fst (userData (fold_left (process rt) records t0))).
    split; [apply N4; constructor|]. split; [apply length_map|].
    intros u. pose proof (names_spec rt records t0 u) as [_ U]. cbn zeta in U.
    rewrite U. simpl. tauto. }
  intros Hall. rewrite S5, S6. simpl.
  split; f_equal; apply filter_ext_in; intros r Hr; unfold chartable;
    rewrite (Hall r Hr); apply andb_true_r.
Qed.

Lemma department_chart_witness :
  checkInsOf
    (departmentTrends
       (trends Fixture.runtime
          [ {| timestamp := 0; type := check_in; department := "constructor";
               user_id := "u1" |} ])) = 0%nat
  /\ totalCheckIns
       (summary
          (trends Fixture.runtime
             [ {| timestamp := 0; type := check_in; department := "constructor";
                  user_id := "u1" |} ])) = 1%nat.
Proof.
  destruct (department_chart_drops_inherited_names Fixture.runtime
              [ {| timestamp := 0; type := check_in; department := "constructor";
                   user_id := "u1" |} ]) as (H & _).
  split; [rewrite H|]; reflexivity.
Defined.

End TrendFacts.

(* ------------------------------------------------------------------ *)
(** ** The mobile client: the offline queue and the retries *)

Module MobileFacts.

Import Mobile.

Local Open Scope string_scope.
Local Open Scope list_scope.

Lemma filter_filter {A} (p q : A -> bool) l :
  filter p (filter q l) = filter (fun x => q x && p x) l.
Proof.
  induction l as [|x l IH]; simpl; [reflexivity|].
  destruct (q x); simpl; [destruct (p x)|]; now rewrite IH.
Qed.

Lemma syncOne_step {S} (api : Api S) record store results server :
  exists result,
    syncOne api record (store, results, server)
    = ({| offlineRecords :=
            if resultSuccess result
            then filter (fun r => negb (String.eqb (id r) (id record)))
                        (offlineRecords store)
            else offlineRecords store;
          isLoading := isLoading store |},
       results ++ [result],
       snd (api record server))
    /\ resultId result = id record.
Proof.
  unfold syncOne. destruct (api record server) as [[[[|] m]|m] sv]; simpl.
  - exists {| resultId := id record; resultSuccess := true; resultError := None |}.
    split; reflexivity.
  - exists {| resultId := id record; resultSuccess := false; resultError := m |}.
    destruct store; split; reflexivity.
  - exists {| resultId := id record; resultSuccess := false; resultError := Some m |}.
    destruct store; split; reflexivity.
Qed.

Lemma sync_fold {S} (api : Api S) queue :
  forall store results server,
    exists new,
      fst (fst (fold_left (fun state record => syncOne api record state) queue
                  (store, results, server)))
      = {| offlineRecords :=
             filter (fun r => negb (existsb (String.eqb (id r))
                                      (map resultId (filter resultSuccess new))))
                    (offlineRecords store);
           isLoading := isLoading store |}
      /\ snd (fst (fold_left (fun state record => syncOne api record state) queue
                     (store, results, server)))
         = results ++ new
      /\ map resultId new = map id queue.
Proof.
  induction queue as [|r queue IH]; intros store results server; cbn [fold_left].
  - exists []. simpl. rewrite app_nil_r. split; [|split; reflexivity].
    destruct store; simpl. f_equal.
    induction offlineRecords0 as [|x l IHl]; simpl; congruence.
  - destruct (syncOne_step api r store results server) as (x & -> & Hx).
    destruct (IH {| offlineRecords :=
                      if resultSuccess x
                      then filter (fun r0 => negb (String.eqb (id r0) (id r)))
                                  (offlineRecords store)
                      else offlineRecords store;
                    isLoading := isLoading store |}
                 (results ++ [x]) (snd (api r server)))
      as (new & E1 & E2 & E3).
    exists (x :: new). rewrite E1, E2. simpl.
    split; [|split].
    + f_equal. destruct (resultSuccess x); simpl; [|reflexivity].
      rewrite filter_filter. apply filter_ext. intros a.
      rewrite Hx. now rewrite negb_orb.
    + now rewrite <- app_assoc.
    + now rewrite Hx, E3.
Qed.

Lemma existsb_eqb_In (x : string) l : existsb (String.eqb x) l = true <-> In x l.
Proof.
  rewrite existsb_exists. split.
  - intros (y & Hy & E). apply String.eqb_eq in E. now subst.
  - intros H. exists x. split; [exact H|apply String.eqb_refl].
Qed.

Lemma succeeded_incl results :
  incl (map resultId (filter resultSuccess results)) (map resultId results).
Proof.
  intros x H. apply in_map_iff in H. destruct H as (r & <- & Hr).
  apply filter_In in Hr. apply in_map. tauto.
Qed.

Lemma sync_count queue :
  forall results,
    map resultId results = map id queue ->
    NoDup (map id queue) ->
    (List.length
       (filter (fun r => negb (existsb (String.eqb (id r))
                                 (map resultId (filter resultSuccess results))))
               queue)
     + List.length (filter resultSuccess results)
     = List.length queue)%nat.
Proof.
  induction queue as [|r queue IH]; intros [|x results] Hm Hn; try discriminate;
    [reflexivity|].
  simpl in Hm. injection Hm as Hx Hm. inversion Hn as [|? ? Hr Hn']; subst.
  specialize (IH results Hm Hn').
  assert (Hout : existsb (String.eqb (id r))
                   (map resultId (filter resultSuccess results)) = false).
  { destruct (existsb _ _) eqn:E; [|reflexivity].
    apply existsb_eqb_In, succeeded_incl in E. rewrite Hm in E. contradiction. }
  destruct (resultSuccess x) eqn:Sx; simpl; rewrite Sx; simpl.
  - rewrite Hx, String.eqb_refl. simpl.
    rewrite <- IH, <- plus_n_Sm. f_equal. f_equal. f_equal.
    apply filter_ext_in. intros a Ha.
    destruct (String.eqb_spec (id a) (id r)) as [E|]; [|reflexivity].
    exfalso. apply Hr. rewrite <- E. now apply in_map.
  - rewrite Hout. simpl. now rewrite IH.
Qed.

(** X19.  [syncOfflineRecords] with an empty queue changes nothing.
    Otherwise it sends every queued record once, in order, and reports one
    result per record; afterwards [isLoading] is false and the queue holds
    the records whose id is not the id of a record the server accepted.  So a
    record that failed stays queued unless it shares its id with an accepted
    one, and when the ids of the queue are distinct the records left and the
    successes reported add up to the records sent. *)
Theorem sync_removes_the_accepted_ids :
  forall (S : Type) (api : Api S) (store : AttendanceStore) (server : S),
    let out := syncOfflineRecords api store server in
    match fst (fst out) with
    | NothingToSync =>
        offlineRecords store = [] /\ snd (fst out) = store /\ snd out = server
    | Synced successCount totalCount results =>
        offlineRecords store <> []
        /\ map resultId results = map id (offlineRecords store)
        /\ totalCount = List.length (offlineRecords store)
        /\ successCount = List.length (filter resultSuccess results)
        /\ isLoading (snd (fst out)) = false
        /\ offlineRecords (snd (fst out))
           = filter (fun record =>
                       negb (existsb (String.eqb (id record))
                               (map resultId (filter resultSuccess results))))
                    (offlineRecords store)
        /\ (NoDup (map id (offlineRecords store)) ->
            (List.length (offlineRecords (snd (fst out))) + successCount
             = totalCount)%nat)
    end.
Proof.
  intros S api store server out. unfold out, syncOfflineRecords.
  destruct (offlineRecords store) as [|r queue] eqn:Q; [simpl; auto|].
  rewrite <- Q.
  destruct (sync_fold api (offlineRecords store)
              {| offlineRecords := offlineRecords store; isLoading := true |}
              [] server) as (new & E1 & E2 & E3).
  destruct (fold_left _ _ _) as [[store' results] server'].
  cbn [fst snd] in *. subst store' results.
  cbn [offlineRecords isLoading app].
  split; [rewrite Q; discriminate|].
  split; [exact E3|].
  split; [rewrite <- (length_map resultId), E3; apply length_map|].
  split; [reflexivity|]. split; [reflexivity|]. split; [reflexivity|].
  intros Hn. rewrite (sync_count _ _ E3 Hn).
  rewrite <- (length_map resultId new), E3. symmetry. apply length_map.
Qed.

Lemma retryFrom_resolved {A E} (requestFn : nat -> Attempt A E) maxRetries delay k a :
  requestFn k = Resolved a ->
  (Z.of_nat k < maxRetries)%Z ->
  forall remaining i lastError waited,
    (i <= k < i + remaining)%nat ->
    (forall j, (i <= j < k)%nat -> exists e, requestFn j = Rejected e) ->
    retryFrom requestFn maxRetries delay remaining i lastError waited
    = {| outcome := Returned a;
         calls := S k;
         waits := waited ++ map (fun j => (delay * (Z.of_nat j + 1))%Z)
                                (seq i (k - i)) |}.
Proof.
  intros Hk Hm. induction remaining as [|n IH]; intros i le w Hi Hrej; [lia|].
  simpl. destruct (Nat.eq_dec i k) as [->|Hne].
  - rewrite Hk, Nat.sub_diag. simpl. now rewrite app_nil_r.
  - destruct (Hrej i ltac:(lia)) as (e & ->).
    replace (Z.of_nat i <? maxRetries - 1)%Z with true
      by (symmetry; apply Z.ltb_lt; lia).
    rewrite IH by (try lia; intros j Hj; apply Hrej; lia).
    f_equal. rewrite <- app_assoc. f_equal.
    replace (k - i)%nat with (S (k - S i)) by lia. reflexivity.
Qed.

Lemma retryFrom_rejected {A E} (requestFn : nat -> Attempt A E) maxRetries delay :
  forall remaining i lastError waited,
    Z.of_nat (i + S remaining) = maxRetries ->
    (forall j, (i <= j < i + S remaining)%nat -> exists e, requestFn j = Rejected e) ->
    exists e,
      requestFn (i + remaining)%nat = Rejected e
      /\ retryFrom requestFn maxRetries delay (S remaining) i lastError waited
         = {| outcome := Threw (Some e);
              calls := (i + S remaining)%nat;
              waits := waited ++ map (fun j => (delay * (Z.of_nat j + 1))%Z)
                                     (seq i remaining) |}.
Proof.
  induction remaining as [|n IH]; intros i le w Hm Hrej.
  - destruct (Hrej i ltac:(lia)) as (e & He). exists e.
    rewrite Nat.add_0_r. split; [exact He|].
    simpl. rewrite He.
    replace (Z.of_nat i <? maxRetries - 1)%Z with false
      by (symmetry; apply Z.ltb_ge; lia).
    simpl. rewrite app_nil_r. f_equal. lia.
  - destruct (Hrej i ltac:(lia)) as (e0 & He0).
    destruct (IH (S i) (Some e0)
                 (w ++ [(delay * (Z.of_nat i + 1))%Z]) ltac:(lia)
                 ltac:(intros j Hj; apply Hrej; lia)) as (e & He & Hrun).
    exists e. split; [now replace (i + S n)%nat with (S i + n)%nat by lia|].
    change (retryFrom requestFn maxRetries delay (S (S n)) i le w)
      with (match requestFn i with
            | Resolved a => {| outcome := Returned a; calls := S i; waits := w |}
            | Rejected error =>
                retryFrom requestFn maxRetries delay (S n) (S i) (Some error)
                  (if (Z.of_nat i <? maxRetries - 1)%Z
                   then w ++ [(delay * (Z.of_nat i + 1))%Z] else w)
            end).
    rewrite He0.
    replace (Z.of_nat i <? maxRetries - 1)%Z with true
      by (symmetry; apply Z.ltb_lt; lia).
    rewrite Hrun. f_equal; [lia|]. now rewrite <- app_assoc.
Qed.

(** X20.  [retryRequest] calls [requestFn] until it resolves, at most
    [maxRetries] times.  With [maxRetries] at most 0 it makes no call and
    throws [undefined].  When the call number [k] (from 0) is the first to
    resolve, it returns that value after [k + 1] calls, having waited
    [delay * 1], ..., [delay * k] between them.  When all [maxRetries] calls
    reject it throws the error of the last one, having waited [delay * 1],
    ..., [delay * (maxRetries - 1)]: it does not wait after the last
    call. *)
Theorem retryRequest_schedule :
  forall (A E : Type) (requestFn : nat -> Attempt A E) (maxRetries delay : Z),
    let run := retryRequest requestFn maxRetries delay in
    let pause := fun j : nat => (delay * (Z.of_nat j + 1))%Z in
    ((maxRetries <= 0)%Z ->
     outcome run = Threw None /\ calls run = O /\ waits run = [])
    /\ (forall (k : nat) (a : A),
          (Z.of_nat k < maxRetries)%Z ->
          requestFn k = Resolved a ->
          (forall j, (j < k)%nat -> exists e, requestFn j = Rejected e) ->
          outcome run = Returned a
          /\ calls run = S k
          /\ waits run = map pause (seq 0 k))
    /\ ((0 < maxRetries)%Z ->
        (forall j, (Z.of_nat j < maxRetries)%Z -> exists e, requestFn j = Rejected e) ->
        exists e,
          requestFn (Z.to_nat maxRetries - 1)%nat = Rejected e
          /\ outcome run = Threw (Some e)
          /\ calls run = Z.to_nat maxRetries
          /\ waits run = map pause (seq 0 (Z.to_nat maxRetries - 1))).
Proof.
  intros A E requestFn maxRetries delay run pause. unfold run, retryRequest.
  split; [|split].
  - intros H. replace (Z.to_nat maxRetries) with O by lia. simpl. auto.
  - intros k a Hk Ha Hrej.
    assert (B : (0 <= k < 0 + Z.to_nat maxRetries)%nat) by lia.
    assert (R : forall j, (0 <= j < k)%nat -> exists e, requestFn j = Rejected e)
      by (intros j Hj; apply Hrej; lia).
    rewrite (retryFrom_resolved requestFn maxRetries delay k a Ha Hk
               (Z.to_nat maxRetries) 0 None [] B R).
    simpl. rewrite Nat.sub_0_r. auto.
  - intros Hpos Hrej.
    assert (N : Z.to_nat maxRetries = S (Z.to_nat maxRetries - 1)) by lia.
    revert N. generalize (Z.to_nat maxRetries - 1)%nat. intros n N.
    assert (B : Z.of_nat (0 + S n) = maxRetries) by lia.
    assert (R : forall j, (0 <= j < 0 + S n)%nat ->
                          exists e, requestFn j = Rejected e)
      by (intros j Hj; apply Hrej; lia).
    destruct (retryFrom_rejected requestFn maxRetries delay n 0 None [] B R)
      as (e & He & Hrun).
    exists e. simpl in He. split; [exact He|].
    rewrite N, Hrun. simpl. auto.
Qed.

Lemma retryRequest_witness :
  retryRequest (fun k : nat => if Nat.eqb k 2 then Resolved k else Rejected k) 3 1000
  = {| outcome := Returned 2%nat; calls := 3; waits := [1000; 2000]%Z |}.
Proof.
  destruct (retryRequest_schedule nat nat
              (fun k : nat => if Nat.eqb k 2 then Resolved k else Rejected k) 3 1000)
    as (_ & H & _).
  destruct (H 2%nat 2%nat) as (H1 & H2 & H3).
  - lia.
  - reflexivity.
  - intros [|[|j]] Hj; [exists 0%nat; reflexivity | exists 1%nat; reflexivity | lia].
  - destruct (retryRequest _ 3 1000) as [o c w]. simpl in *. now subst.
Defined.

Lemma sync_witness :
  fst (fst (syncOfflineRecords Cases.firstOnly Cases.queuedTwice 0%nat))
  = Synced 1 2
      [ {| resultId := "1700000000000"; resultSuccess := true; resultError := None |};
        {| resultId := "1700000000000"; resultSuccess := false;
           resultError := Some "Attendance marking failed" |} ]
  /\ offlineRecords (snd (fst (syncOfflineRecords Cases.firstOnly Cases.queuedTwice
                                 0%nat))) = [].
Proof.
  pose proof (sync_removes_the_accepted_ids nat Cases.firstOnly Cases.queuedTwice
                0%nat) as H.
  cbv zeta in H.
  change (fst (fst (syncOfflineRecords Cases.firstOnly Cases.queuedTwice 0%nat)))
    with (Synced 1 2
            [ {| resultId := "1700000000000"; resultSuccess := true;
                 resultError := None |};
              {| resultId := "1700000000000"; resultSuccess := false;
                 resultError := Some "Attendance marking failed" |} ]) in H.
  destruct H as (_ & _ & _ & _ & _ & Hq & _).
  split; [reflexivity | exact Hq].
Defined.

End MobileFacts.
